(** * Churn-prediction pipeline: a shallow embedding of the serving, loading,
      publishing, configuration and scaling code, with the properties of
      its specification.

    Python values are modelled as follows.
    - [str] is [string]; [bytes] read from or written to a file is [string].
    - Exceptions are values of [exn]; a call that may raise returns a
      [result]; code that also changes the local file system runs in the
      monad [M] (state passing over the file system, with the state kept
      when an exception is raised).
    - [pathlib.PurePosixPath] is the record [ppath] (root and components).
    - The local file system is a finite map from paths to entries.
    - An object-store bucket is the list of its objects in listing order.
    - Libraries outside the repository (the boosted-tree library, the
      schema-validation library's type coercions, the model registry, the
      scaler's statistics, the network optimiser) are parameters of the
      sections that use them; [lax] gives the coercions of the
      schema-validation library's default mode, up to its readers of
      strings. *)

From Stdlib Require Import ZArith QArith String Ascii List Bool Lia DecimalString.
From stdpp Require Import base option gmap strings list.

Local Open Scope string_scope.
Local Open Scope list_scope.

#[local] Set Warnings "-register-all".

(** ** Exceptions and results *)

Module Py.

Inductive exn_class :=
  | ValueError | TypeError | FileNotFoundError | FileExistsError
  | NotADirectoryError | IsADirectoryError | ValidationError
  | XGBoostError | MlflowException | NotFittedError | IndexError
  | GoogleCloudError.

Record exn := Exn { exn_class_of : exn_class; exn_msg : string }.

Inductive result (A : Type) :=
  | Ok (a : A)
  | Raise (e : exn).
Arguments Ok {A} a.
Arguments Raise {A} e.

Definition rbind {A B} (r : result A) (k : A -> result B) : result B :=
  match r with
  | Ok a => k a
  | Raise e => Raise e
  end.

Definition raises {A} (r : result A) (c : exn_class) : Prop :=
  exists msg, r = Raise (Exn c msg).

Definition is_ok {A} (r : result A) : bool :=
  match r with Ok _ => true | Raise _ => false end.

(** A result that is a value or a validation error. *)
Definition only_invalid {A} (r : result A) : Prop :=
  match r with
  | Ok _ => True
  | Raise e => exn_class_of e = ValidationError
  end.

(** [str(e)] *)
Definition str_of_exn (e : exn) : string := exn_msg e.

(** Code with side effects: state passing over a state [S]; the state
    survives an exception, as the effects of Python code do. *)
Definition ST (S A : Type) : Type := S -> result A * S.

Definition ret {S A} (a : A) : ST S A := fun s => (Ok a, s).
Definition throw {S A} (e : exn) : ST S A := fun s => (Raise e, s).
Definition bind {S A B} (m : ST S A) (k : A -> ST S B) : ST S B :=
  fun s => match m s with
           | (Ok a, s') => k a s'
           | (Raise e, s') => (Raise e, s')
           end.
Definition lift {S A} (r : result A) : ST S A := fun s => (r, s).

(** [try: m except Exception as e: h e] *)
Definition try_except {S A} (m : ST S A) (h : exn -> ST S A) : ST S A :=
  fun s => match m s with
           | (Ok a, s') => (Ok a, s')
           | (Raise e, s') => h e s'
           end.

End Py.
Export Py.

Notation "x <-? r ; k" := (rbind r (fun x => k))
  (at level 100, r at next level, right associativity).
Notation "x <- m ;; k" := (bind m (fun x => k))
  (at level 100, m at next level, right associativity).
Notation "m ;;; k" := (bind m (fun _ => k))
  (at level 100, right associativity).

(** ** Python string operations *)

Module Str.

(** [s.startswith(p)] *)
Fixpoint startswith (s p : string) {struct p} : bool :=
  match p with
  | EmptyString => true
  | String c p' =>
      match s with
      | EmptyString => false
      | String d s' => if Ascii.eqb d c then startswith s' p' else false
      end
  end.

(** [s.endswith(p)]: some suffix of [s] is [p]. *)
Fixpoint endswith (s p : string) : bool :=
  if String.eqb s p then true
  else match s with
       | EmptyString => false
       | String _ s' => endswith s' p
       end.

(** [s[n:]] for [n >= 0] *)
Fixpoint drop (n : nat) (s : string) : string :=
  match n, s with
  | O, _ => s
  | S n', String _ s' => drop n' s'
  | S _, EmptyString => EmptyString
  end.

(** [s.replace(old, new)]: the occurrences of [old] are found from left to
    right and do not overlap.  [skip] counts the characters of the current
    occurrence that are still to be passed over.  For an empty [old] Python
    inserts [new] around every character. *)
Fixpoint replace_from (old new : string) (skip : nat) (s : string) : string :=
  match s with
  | EmptyString => EmptyString
  | String c s' =>
      match skip with
      | S k => replace_from old new k s'
      | O =>
          if startswith s old
          then new ++ replace_from old new (String.length old - 1) s'
          else String c (replace_from old new 0 s')
      end
  end.

Fixpoint intersperse_with (new s : string) : string :=
  match s with
  | EmptyString => new
  | String c s' => new ++ String c (intersperse_with new s')
  end.

Definition replace (s old new : string) : string :=
  match old with
  | EmptyString => intersperse_with new s
  | _ => replace_from old new 0 s
  end.

(** [s.split(sep)] for a one-character separator *)
Fixpoint split (sep : ascii) (s : string) : list string :=
  match s with
  | EmptyString => [EmptyString]
  | String c s' =>
      if Ascii.eqb c sep then EmptyString :: split sep s'
      else match split sep s' with
           | [] => [String c EmptyString]
           | w :: ws => String c w :: ws
           end
  end.

(** [s.split(sep, 1)]: cut at the first separator only *)
Fixpoint split1 (sep : ascii) (s : string) : list string :=
  match s with
  | EmptyString => [EmptyString]
  | String c s' =>
      if Ascii.eqb c sep then [EmptyString; s']
      else match split1 sep s' with
           | [] => [String c EmptyString]
           | w :: ws => String c w :: ws
           end
  end.

(** [sep.join(ws)] *)
Fixpoint join (sep : string) (ws : list string) : string :=
  match ws with
  | [] => EmptyString
  | [w] => w
  | w :: ws' => w ++ sep ++ join sep ws'
  end.

Definition slash : ascii := "/"%char.

End Str.

(** ** [pathlib] paths (POSIX flavour) *)

Module PurePath.

(** A parsed path: [root] is the empty string, ["/"] or ["//"]; [parts]
    are the components after the root. *)
Record ppath := PPath { root : string; parts : list string }.

#[global] Instance ppath_eq_dec : EqDecision ppath.
Proof. solve_decision. Defined.

#[global] Instance ppath_countable : Countable ppath.
Proof.
  refine (inj_countable' (fun p => (root p, parts p))
                         (fun x => PPath (fst x) (snd x)) _).
  intros [r ps]; reflexivity.
Defined.

(** The root of a path string: exactly two leading slashes are kept as
    ["//"], one or three and more collapse to ["/"]. *)
Definition root_of (s : string) : string :=
  if Str.startswith s "///" then "/"
  else if Str.startswith s "//" then "//"
  else if Str.startswith s "/" then "/"
  else "".

Definition keep_component (w : string) : bool :=
  negb (String.eqb w "") && negb (String.eqb w ".").

(** [Path(s)]: empty and ["."] components are dropped, [".."] is kept. *)
Definition parse (s : string) : ppath :=
  PPath (root_of s) (List.filter keep_component (Str.split Str.slash s)).

(** [str(p)] *)
Definition to_string (p : ppath) : string :=
  match root p, parts p with
  | "", [] => "."
  | r, ps => r ++ Str.join "/" ps
  end.

Definition is_absolute (p : ppath) : bool := negb (String.eqb (root p) "").

(** [p / q] for a path [q] *)
Definition joinpath (p q : ppath) : ppath :=
  if is_absolute q then q else PPath (root p) (parts p ++ parts q).

(** [p / s] for a string [s] *)
Definition join_str (p : ppath) (s : string) : ppath := joinpath p (parse s).

(** [p.parent] *)
Definition parent (p : ppath) : ppath :=
  PPath (root p) (removelast (parts p)).

Fixpoint strip_parts (pre ps : list string) : option (list string) :=
  match pre with
  | [] => Some ps
  | a :: pre' =>
      match ps with
      | [] => None
      | b :: ps' => if String.eqb a b then strip_parts pre' ps' else None
      end
  end.

(** [p.relative_to(other)]: the anchors must agree and the components of
    [other] must be a prefix of those of [p]; [ValueError] otherwise. *)
Definition not_in_subpath (p other : ppath) : exn :=
  Exn ValueError
    ("'" ++ to_string p ++ "' is not in the subpath of '" ++ to_string other ++ "'").

Definition relative_to (p other : ppath) : result ppath :=
  if String.eqb (root p) (root other) then
    match strip_parts (parts other) (parts p) with
    | Some rest => Ok (PPath "" rest)
    | None => Raise (not_in_subpath p other)
    end
  else Raise (not_in_subpath p other).

(** Well-formed paths: the root is one of the three roots and no component
    is empty, is ["."] or contains a slash.  Every path that [parse]
    returns is well formed. *)
Fixpoint noslashb (w : string) : bool :=
  match w with
  | EmptyString => true
  | String c w' => negb (Ascii.eqb c Str.slash) && noslashb w'
  end.

Definition cleanb (w : string) : bool := noslashb w && keep_component w.

Definition wfb (p : ppath) : bool :=
  (String.eqb (root p) "" || String.eqb (root p) "/" || String.eqb (root p) "//")
  && List.forallb cleanb (parts p).

End PurePath.
Export PurePath.

(** ** The local file system *)

Module FS.

Inductive entry :=
  | File (content : string)
  | Dir.

#[global] Instance entry_eq_dec : EqDecision entry.
Proof. solve_decision. Defined.

(** A file system maps the paths of its entries, as written component by
    component, to the entries.  The operating system resolves a [..]
    component against the directory before it; the map does not, so it
    stands for the file system only on paths without such components. *)
Abbreviation fs := (gmap ppath entry).

(** The current directory and the root always exist. *)
Definition stat (f : fs) (p : ppath) : option entry :=
  match parts p with
  | [] => Some Dir
  | _ => f !! p
  end.

Definition exists_ (f : fs) (p : ppath) : bool :=
  match stat f p with Some _ => true | None => false end.

Definition is_dir (f : fs) (p : ppath) : bool :=
  match stat f p with Some Dir => true | _ => false end.

Definition is_file (f : fs) (p : ppath) : bool :=
  match stat f p with Some (File _) => true | _ => false end.

(** The entries of a file system under their printed paths, in the map's
    enumeration order. *)
Definition listing (f : fs) : list (string * entry) :=
  List.map (fun pe => (to_string (fst pe), snd pe)) (map_to_list f).

(** Code that reads and writes the local file system. *)
Definition M (A : Type) : Type := ST fs A.

End FS.
Export FS.

Module OS.

(** [os.mkdir(p)] *)
Definition mkdir (p : ppath) : M unit := fun f =>
  match stat f p with
  | Some _ => (Raise (Exn FileExistsError (to_string p)), f)
  | None =>
      match stat f (parent p) with
      | None => (Raise (Exn FileNotFoundError (to_string p)), f)
      | Some (File _) => (Raise (Exn NotADirectoryError (to_string p)), f)
      | Some Dir => (Ok tt, <[p := Dir]> f)
      end
  end.

(** [Path.mkdir(parents, exist_ok)], as pathlib writes it: try [os.mkdir];
    on [FileNotFoundError] raise again unless [parents] is set and the path
    has a parent other than itself, else create the parent (with
    [parents] and [exist_ok] set) and call [mkdir] once more without
    [parents]; on another [OSError] succeed only if [exist_ok] is set and
    the path is a directory.  [n] bounds the depth of the recursion: with
    [n] the number of components, [n = 0] is the case of a path that is
    its own parent, and the second call, made without [parents], never
    recurses. *)
Fixpoint path_mkdir (n : nat) (p : ppath) (parents exist_ok : bool) : M unit :=
  fun f =>
  match mkdir p f with
  | (Ok _, f') => (Ok tt, f')
  | (Raise e, f') =>
      match exn_class_of e with
      | FileNotFoundError =>
          match n with
          | S n' =>
              if negb parents then (Raise e, f')
              else
                match path_mkdir n' (parent p) true true f' with
                | (Ok _, f'') => path_mkdir n' p false exist_ok f''
                | (Raise e', f'') => (Raise e', f'')
                end
          | O => (Raise e, f')
          end
      | _ =>
          if negb exist_ok || negb (is_dir f' p) then (Raise e, f')
          else (Ok tt, f')
      end
  end.

Definition Path_mkdir (p : ppath) (parents exist_ok : bool) : M unit :=
  path_mkdir (List.length (parts p)) p parents exist_ok.

(** [open(p, "wb").write(data)] *)
Definition write_file (p : ppath) (data : string) : M unit := fun f =>
  match stat f p with
  | Some Dir => (Raise (Exn IsADirectoryError (to_string p)), f)
  | _ =>
      match stat f (parent p) with
      | None => (Raise (Exn FileNotFoundError (to_string p)), f)
      | Some (File _) => (Raise (Exn NotADirectoryError (to_string p)), f)
      | Some Dir => (Ok tt, <[p := File data]> f)
      end
  end.

(** [tempfile.mkdtemp]: the operating system picks the fresh name. *)
Definition mkdtemp (fresh : string) : M string := fun f =>
  (Ok fresh, <[parse fresh := Dir]> f).

End OS.

(** ** The object store *)

Module GCS.

Record blob := Blob { name : string; data : string }.

(** A bucket is the list of its objects in listing order; the store maps a
    bucket name to its bucket. *)
Definition bucket := list blob.
Definition storage := string -> bucket.

(** [bucket.list_blobs(prefix=prefix)]: the objects whose name starts with
    the string [prefix].  The store answers: the failures of the storage
    client (credentials, a missing bucket, the network) are outside this
    module and modelled in [StoreFailures]. *)
Definition list_blobs (b : bucket) (prefix : string) : list blob :=
  List.filter (fun o => Str.startswith (name o) prefix) b.

(** [blob.download_to_filename(filename)], the transfer succeeding: only
    the local write can fail. *)
Definition download_to_filename (o : blob) (filename : string) : M unit :=
  OS.write_file (parse filename) (data o).

End GCS.
Export GCS.

(** ** inference/fastapi-inference/gcs_loader.py: the generic loader *)

Module GcsLoader.

(** The body of the [for blob in blobs] loop, with the list
    [downloaded_files] threaded through. *)
Definition download_one (prefix local_dir : string) (o : blob)
    (downloaded_files : list string) : M (list string) :=
  if Str.endswith (name o) "/" then ret downloaded_files
  else
    let relative_path := Str.drop (String.length prefix) (name o) in
    let local_file_path := join_str (parse local_dir) relative_path in
    OS.Path_mkdir (parent local_file_path) true true ;;;
    download_to_filename o (to_string local_file_path) ;;;
    ret (downloaded_files ++ [relative_path])%list.

Fixpoint download_loop (prefix local_dir : string) (blobs : list blob)
    (downloaded_files : list string) : M (list string) :=
  match blobs with
  | [] => ret downloaded_files
  | o :: rest =>
      acc <- download_one prefix local_dir o downloaded_files ;;
      download_loop prefix local_dir rest acc
  end.

(** The bucket name and the normalised prefix of a [gs://] URI. *)
Definition bucket_and_prefix (gcs_path : string) : string * string :=
  let path_parts := Str.split1 Str.slash (Str.replace gcs_path "gs://" "") in
  let bucket_name := List.hd "" path_parts in
  let prefix :=
    if Nat.ltb 1 (List.length path_parts) then List.nth 1 path_parts "" else "" in
  let prefix :=
    if negb (String.eqb prefix "") && negb (Str.endswith prefix "/")
    then (prefix ++ "/")%string else prefix in
  (bucket_name, prefix).

(** [download_model_from_gcs(gcs_path, local_dir=None)].  [fresh] is the
    name [tempfile.mkdtemp] would return. *)
Definition download_model_from_gcs (st : storage) (fresh : string)
    (gcs_path : string) (local_dir : option string) : M string :=
  if negb (Str.startswith gcs_path "gs://")
  then throw (Exn ValueError ("Invalid GCS path: " ++ gcs_path)%string)
  else
    let '(bucket_name, prefix) := bucket_and_prefix gcs_path in
    local_dir <-
      match local_dir with
      | None => OS.mkdtemp fresh
      | Some d => OS.Path_mkdir (parse d) true true ;;; ret d
      end ;;
    let blobs := list_blobs (st bucket_name) prefix in
    download_loop prefix local_dir blobs [] ;;;
    ret local_dir.

End GcsLoader.

(** ** inference/utils.py: the boosted-tree loader *)

Module Utils.

Definition BUCKET_NAME : string := "lily-ml-models-20251205".
Definition MODEL_PATH : string := "models/churn-prediction-model".

Definition download_one (model_path local_dir : string) (o : blob) : M unit :=
  if negb (Str.endswith (name o) "/") then
    rel <- lift (relative_to (parse (name o)) (parse model_path)) ;;
    let local_file := joinpath (parse local_dir) rel in
    OS.Path_mkdir (parent local_file) true true ;;;
    download_to_filename o (to_string local_file)
  else ret tt.

Fixpoint download_loop (model_path local_dir : string) (blobs : list blob)
    : M unit :=
  match blobs with
  | [] => ret tt
  | o :: rest =>
      download_one model_path local_dir o ;;;
      download_loop model_path local_dir rest
  end.

(** [download_model_from_gcs(bucket_name, model_path, local_dir)] *)
Definition download_model_from_gcs (st : storage)
    (bucket_name model_path local_dir : string) : M string :=
  OS.Path_mkdir (parse local_dir) false true ;;;
  let blobs := list_blobs (st bucket_name) model_path in
  download_loop model_path local_dir blobs ;;;
  ret local_dir.

Section LoadModel.

(** The boosted-tree library: the type of loaded ensembles and the parser
    of the native JSON model format. *)
Variable Booster : Type.
Variable xgb_parse : string -> result Booster.

(** [xgb.Booster().load_model(fname)] *)
Definition Booster_load_model (f : fs) (fname : string) : result Booster :=
  match stat f (parse fname) with
  | Some (File content) => xgb_parse content
  | _ => Raise (Exn XGBoostError ("cannot open " ++ fname)%string)
  end.

(** [load_model(model_dir)] *)
Definition load_model (f : fs) (model_dir : string) : result Booster :=
  let model_path := join_str (parse model_dir) "model.json" in
  if negb (exists_ f model_path)
  then Raise (Exn FileNotFoundError
                ("Model file not found: " ++ to_string model_path)%string)
  else Booster_load_model f (to_string model_path).

End LoadModel.

End Utils.


(** ** Parsed JSON and YAML documents *)

Module Doc.

(** A document as [json.loads] or [yaml.safe_load] returns it.  [VDict]
    holds the items of a dict (keys are unique). *)
Inductive value :=
  | VNull
  | VBool (b : bool)
  | VInt (z : Z)
  | VFloat (q : Q)
  | VStr (s : string)
  | VList (items : list value)
  | VDict (items : list (string * value)).

(** [d.get(key)] *)
Fixpoint dict_get (key : string) (items : list (string * value)) : option value :=
  match items with
  | [] => None
  | (k, v) :: rest => if String.eqb k key then Some v else dict_get key rest
  end.

(** The schema library's scalar coercions: which documents a [float], an
    [int], a [str] and a [bool] field accept, and as what value. *)
Record coercions := Coercions {
  as_float : value -> option Q;
  as_int : value -> option Z;
  as_str : value -> option string;
  as_bool : value -> option bool
}.

(** Strict coercions: numbers for numbers, strings for strings. *)
Definition strict : coercions := {|
  as_float v := match v with
                | VInt z => Some (inject_Z z)
                | VFloat q => Some q
                | _ => None
                end;
  as_int v := match v with VInt z => Some z | _ => None end;
  as_str v := match v with VStr s => Some s | _ => None end;
  as_bool v := match v with VBool b => Some b | _ => None end
|}.

(** Readers of numbers written in plain decimal notation: digits, with an
    optional sign and, for a fraction, a point followed by digits. *)
Definition digit (c : ascii) : option Z :=
  let n := Z.of_nat (nat_of_ascii c) in
  if (48 <=? n)%Z && (n <=? 57)%Z then Some (n - 48)%Z else None.

Fixpoint digits_from (acc : Z) (s : string) : option Z :=
  match s with
  | EmptyString => Some acc
  | String c rest =>
      match digit c with
      | Some d => digits_from (10 * acc + d)%Z rest
      | None => None
      end
  end.

Definition natural_of_string (s : string) : option Z :=
  match s with
  | EmptyString => None
  | _ => digits_from 0 s
  end.

Definition signed {A} (read : string -> option A) (neg : A -> A) (s : string)
    : option A :=
  match s with
  | String "-" rest => option_map neg (read rest)
  | String "+" rest => read rest
  | _ => read s
  end.

Definition integer_of_string : string -> option Z :=
  signed natural_of_string Z.opp.

Definition unsigned_decimal (s : string) : option Q :=
  match Str.split1 "."%char s with
  | [whole] => option_map inject_Z (natural_of_string whole)
  | [whole; fraction] =>
      match natural_of_string whole, natural_of_string fraction with
      | Some w, Some f =>
          let scale := (10 ^ Z.of_nat (String.length fraction))%Z in
          Some (Qmake (w * scale + f) (Z.to_pos scale))
      | _, _ => None
      end
  | _ => None
  end.

Definition decimal_of_string : string -> option Q :=
  signed unsigned_decimal Qopp.

(** The integer a float stands for, when it has no fractional part. *)
Definition integral (q : Q) : option Z :=
  if (Z.rem (Qnum q) (Zpos (Qden q)) =? 0)%Z
  then Some (Z.quot (Qnum q) (Zpos (Qden q)))
  else None.

Fixpoint lower (s : string) : string :=
  match s with
  | EmptyString => EmptyString
  | String c rest =>
      let n := nat_of_ascii c in
      String (if (Nat.leb 65 n && Nat.leb n 90)%bool then ascii_of_nat (n + 32) else c)
             (lower rest)
  end.

(** A reader of the words for true and false. *)
Definition bool_of_word (s : string) : option bool :=
  let w := lower s in
  if existsb (String.eqb w) ["0"; "off"; "f"; "false"; "n"; "no"] then Some false
  else if existsb (String.eqb w) ["1"; "on"; "t"; "true"; "y"; "yes"] then Some true
  else None.

(** The coercions of the schema library's default (lax) mode on decoded
    JSON.  A [float] field also takes a boolean and a string that reads
    as a number; an [int] field also takes a boolean, a float without
    fractional part and a string that reads as an integer; a [bool] field
    also takes 0 and 1 and a string that reads as a truth value; a [str]
    field takes strings only.  Null, lists and mappings are taken by none
    of them.  Which strings read as what is the library's business: the
    readers are parameters. *)
Definition lax (read_float : string -> option Q) (read_int : string -> option Z)
    (read_bool : string -> option bool) : coercions := {|
  as_float v := match v with
                | VInt z => Some (inject_Z z)
                | VFloat q => Some q
                | VBool b => Some (if b then 1%Q else 0%Q)
                | VStr s => read_float s
                | _ => None
                end;
  as_int v := match v with
              | VInt z => Some z
              | VFloat q => integral q
              | VBool b => Some (if b then 1%Z else 0%Z)
              | VStr s => read_int s
              | _ => None
              end;
  as_str v := match v with VStr s => Some s | _ => None end;
  as_bool v := match v with
               | VBool b => Some b
               | VInt z => if (z =? 0)%Z then Some false
                           else if (z =? 1)%Z then Some true else None
               | VFloat q => if Qeq_bool q 0 then Some false
                             else if Qeq_bool q 1 then Some true else None
               | VStr s => read_bool s
               | _ => None
               end
|}.

(** A value that no scalar field takes, whatever the mode. *)
Definition never_coerced (v : value) : bool :=
  match v with
  | VNull | VList _ | VDict _ => true
  | _ => false
  end.

(** A list field accepts a sequence only, never a mapping or a scalar. *)
Definition as_list (v : value) : option (list value) :=
  match v with VList items => Some items | _ => None end.

(** A model or dict field accepts a mapping only. *)
Definition as_dict (v : value) : option (list (string * value)) :=
  match v with VDict items => Some items | _ => None end.

Definition invalid {A} (msg : string) : result A := Raise (Exn ValidationError msg).

(** A required field of a model: present and accepted by [coerce]. *)
Definition required {A} (coerce : value -> option A) (key : string)
    (items : list (string * value)) : result A :=
  match dict_get key items with
  | None => invalid ("Field required: " ++ key)%string
  | Some v =>
      match coerce v with
      | Some a => Ok a
      | None => invalid ("Input has the wrong type: " ++ key)%string
      end
  end.

(** [Field(ge=lo, le=hi)] on an integer *)
Definition check_ge_le (key : string) (lo hi : Z) (z : Z) : result Z :=
  if (lo <=? z)%Z && (z <=? hi)%Z then Ok z
  else invalid ("Input out of range: " ++ key)%string.

(** The error of an item of a list names the item's index. *)
Definition item_loc (i : nat) : string :=
  ("[" ++ NilZero.string_of_uint (Nat.to_uint i) ++ "] ")%string.

Definition at_item {A} (i : nat) (r : result A) : result A :=
  match r with
  | Ok a => Ok a
  | Raise e => Raise (Exn (exn_class_of e) (item_loc i ++ exn_msg e)%string)
  end.

(** Validation of every element of a list, in order, from index [i] on. *)
Fixpoint validate_from {A} (i : nat) (validate : value -> result A)
    (items : list value) : result (list A) :=
  match items with
  | [] => Ok []
  | v :: rest =>
      a <-? at_item i (validate v) ;
      others <-? validate_from (S i) validate rest ;
      Ok (a :: others)
  end.

Definition validate_all {A} (validate : value -> result A) (items : list value)
    : result (list A) :=
  validate_from 0 validate items.

End Doc.
Export Doc.

(** ** inference/schemas.py *)

Module Schemas.

Record PredictionInput := {
  f_0 : Q;
  f_1 : Q;
  f_2 : Q;
  f_3 : Q;
  f_4 : Q;
  months_since_signup : Z;
  calendar_month : Z;
  signup_month : Z;
  is_first_month : Z
}.

Record PredictionOutput := {
  churn_probability : Q;
  churn_prediction : Z;
  model_version : string
}.

Section Validation.

Variable lib : coercions.

(** Validation of a request body against [PredictionInput]. *)
Definition validate_PredictionInput (body : value) : result PredictionInput :=
  match as_dict body with
  | None => invalid "Input should be a valid dictionary"
  | Some items =>
      x0 <-? required (as_float lib) "f_0" items ;
      x1 <-? required (as_float lib) "f_1" items ;
      x2 <-? required (as_float lib) "f_2" items ;
      x3 <-? required (as_float lib) "f_3" items ;
      x4 <-? required (as_float lib) "f_4" items ;
      m <-? required (as_int lib) "months_since_signup" items ;
      c <-? (z <-? required (as_int lib) "calendar_month" items ;
             check_ge_le "calendar_month" 1 12 z) ;
      s <-? (z <-? required (as_int lib) "signup_month" items ;
             check_ge_le "signup_month" 1 12 z) ;
      i <-? (z <-? required (as_int lib) "is_first_month" items ;
             check_ge_le "is_first_month" 0 1 z) ;
      Ok {| f_0 := x0; f_1 := x1; f_2 := x2; f_3 := x3; f_4 := x4;
            months_since_signup := m; calendar_month := c;
            signup_month := s; is_first_month := i |}
  end.

(** The schema as a table: the required fields, their type and, for the
    bounded ones, their range.  [body_ok] says that a body is a mapping
    with every field present, taken by the library for its type, and in
    range. *)
Inductive field_kind :=
  | FloatField
  | IntField (range : option (Z * Z)).

Definition schema : list (string * field_kind) :=
  [ ("f_0", FloatField); ("f_1", FloatField); ("f_2", FloatField);
    ("f_3", FloatField); ("f_4", FloatField);
    ("months_since_signup", IntField None);
    ("calendar_month", IntField (Some (1, 12)%Z));
    ("signup_month", IntField (Some (1, 12)%Z));
    ("is_first_month", IntField (Some (0, 1)%Z)) ].

Definition field_ok (items : list (string * value)) (fld : string * field_kind)
    : bool :=
  match dict_get (fst fld) items with
  | None => false
  | Some v =>
      match snd fld with
      | FloatField => match as_float lib v with Some _ => true | None => false end
      | IntField range =>
          match as_int lib v with
          | None => false
          | Some z =>
              match range with
              | None => true
              | Some (lo, hi) => (lo <=? z)%Z && (z <=? hi)%Z
              end
          end
      end
  end.

Definition body_ok (body : value) : bool :=
  match body with
  | VDict items => List.forallb (field_ok items) schema
  | _ => false
  end.

(** The three ways a mapping can fail the schema: a required field is
    missing, the library does not take a field's value for the declared
    type, a bounded field is out of range. *)
Definition missing_field (items : list (string * value)) : Prop :=
  exists fld, In fld schema /\ dict_get (fst fld) items = None.

Definition rejected_field (items : list (string * value)) : Prop :=
  exists key v,
    dict_get key items = Some v
    /\ ((In (key, FloatField) schema /\ as_float lib v = None)
        \/ (exists range, In (key, IntField range) schema /\ as_int lib v = None)).

Definition out_of_range_field (items : list (string * value)) : Prop :=
  exists key lo hi v z,
    In (key, IntField (Some (lo, hi))) schema
    /\ dict_get key items = Some v
    /\ as_int lib v = Some z
    /\ (z < lo \/ hi < z)%Z.

Definition bad_body (body : value) : Prop :=
  match body with
  | VDict items =>
      missing_field items \/ rejected_field items \/ out_of_range_field items
  | _ => True
  end.

(** A field of the wrong JSON type, whatever the library makes of it: a
    [float] field whose value is not a number, an [int] field whose value
    is not an integer. *)
Definition wrong_typed (kind : field_kind) (v : value) : bool :=
  match kind, v with
  | FloatField, (VInt _ | VFloat _) => false
  | IntField _, VInt _ => false
  | _, _ => true
  end.

Definition wrong_typed_field (items : list (string * value)) : Prop :=
  exists key kind v,
    In (key, kind) schema /\ dict_get key items = Some v
    /\ wrong_typed kind v = true.

(** Validation of a request body against [List[PredictionInput]]. *)
Definition validate_PredictionInput_list (body : value)
    : result (list PredictionInput) :=
  match as_list body with
  | None => invalid "Input should be a valid list"
  | Some items => validate_all validate_PredictionInput items
  end.

End Validation.

(** [PredictionOutput(...)]: [model_version] must be a string. *)
Definition make_PredictionOutput (p : Q) (b : Z) (version : option string)
    : result PredictionOutput :=
  match version with
  | Some v => Ok {| churn_probability := p; churn_prediction := b;
                    model_version := v |}
  | None => invalid "model_version: Input should be a valid string"
  end.

End Schemas.
Export Schemas.

(** ** inference/main.py: the prediction service *)

Module Service.

(** What a request is answered with: the result of the handler or an
    [HTTPException] / validation failure with its status code. *)
Inductive response (A : Type) :=
  | Success (body : A)
  | HTTPError (status_code : Z) (detail : string).
Arguments Success {A} body.
Arguments HTTPError {A} status_code detail.

Definition status {A} (r : response A) : Z :=
  match r with
  | Success _ => 200
  | HTTPError c _ => c
  end.

Section WithModel.

Variable lib : coercions.

(** The loaded ensemble: building the matrix from the rows and scoring it
    either raises or returns the scores. *)
Variable Booster : Type.
Variable Booster_predict : Booster -> list PredictionInput -> result (list Q).

(** The globals [model] and [model_version]. *)
Record globals := Globals {
  model : option Booster;
  g_model_version : option string
}.

(** A handler's answer together with the rows of every scoring call it
    made, in order. *)
Definition answer (A : Type) : Type := response A * list (list PredictionInput).

(** [int(p >= 0.5)] *)
Definition threshold (p : Q) : Z := if Qle_bool (1 # 2) p then 1 else 0.

(** The response built from a score under a version label. *)
Definition output_of (version : string) (p : Q) : PredictionOutput :=
  {| churn_probability := p; churn_prediction := threshold p;
     model_version := version |}.

(** The body of [predict] once the request body is validated. *)
Definition predict_handler (g : globals) (input_data : PredictionInput)
    : answer PredictionOutput :=
  match model g with
  | None => (HTTPError 503 "Model not loaded", [])
  | Some m =>
      let rows := [input_data] in
      let outcome :=
        scores <-? Booster_predict m rows ;
        match scores with
        | [] => Raise (Exn IndexError "index 0 is out of bounds")
        | prediction_proba :: _ =>
            let prediction_binary := threshold prediction_proba in
            make_PredictionOutput prediction_proba prediction_binary
                                  (g_model_version g)
        end in
      match outcome with
      | Ok out => (Success out, [rows])
      | Raise e => (HTTPError 500 (str_of_exn e), [rows])
      end
  end.

(** [POST /predict]: the framework validates the body against
    [PredictionInput] first and answers 422 without calling the handler
    when that fails. *)
Definition predict (g : globals) (body : value) : answer PredictionOutput :=
  match validate_PredictionInput lib body with
  | Raise e => (HTTPError 422 (str_of_exn e), [])
  | Ok input_data => predict_handler g input_data
  end.

(** The list comprehension over [zip(predictions_proba, predictions_binary)] *)
Fixpoint outputs_of (version : option string) (scores : list Q)
    : result (list PredictionOutput) :=
  match scores with
  | [] => Ok []
  | prob :: rest =>
      out <-? make_PredictionOutput prob (threshold prob) version ;
      outs <-? outputs_of version rest ;
      Ok (out :: outs)
  end.

Definition predict_batch_handler (g : globals) (inputs : list PredictionInput)
    : answer (list PredictionOutput) :=
  match model g with
  | None => (HTTPError 503 "Model not loaded", [])
  | Some m =>
      let outcome :=
        predictions_proba <-? Booster_predict m inputs ;
        outputs_of (g_model_version g) predictions_proba in
      match outcome with
      | Ok results => (Success results, [inputs])
      | Raise e => (HTTPError 500 (str_of_exn e), [inputs])
      end
  end.

(** [POST /predict/batch]: the body is validated against
    [List[PredictionInput]]. *)
Definition predict_batch (g : globals) (body : value)
    : answer (list PredictionOutput) :=
  match validate_PredictionInput_list lib body with
  | Raise e => (HTTPError 422 (str_of_exn e), [])
  | Ok inputs => predict_batch_handler g inputs
  end.

(** The parser of the native model format, used at startup. *)
Variable xgb_parse : string -> result Booster.

(** [startup_event]: download the configured model into the directory
    ["model"], load it, and set the globals; a failure is logged and
    raised again, with the globals left as they were. *)
Definition startup_event (st : storage) (bucket_name model_path : string)
    : M globals :=
  local_model_dir <- Utils.download_model_from_gcs st bucket_name model_path "model" ;;
  model <- (fun f => (Utils.load_model Booster xgb_parse f local_model_dir, f)) ;;
  let model_version := List.last (Str.split Str.slash model_path) "" in
  ret (Globals (Some model) (Some model_version)).

End WithModel.

Arguments Globals {Booster} model g_model_version.
Arguments model {Booster} g.
Arguments g_model_version {Booster} g.

End Service.

(** ** trainer/validation.py: the training configuration *)

Module Validation.

Record BigQueryConfig := { project_id : string; table_name : string }.

Record GCSConfig := { bucket_name : string; model_path : string }.

Record DataConfig := { test_frac : Q; val_frac : Q; random_state : Z }.

Record HyperparameterRange := {
  hr_min : Q;
  hr_max : Q;
  hr_log : bool;
  hr_type : string
}.

Record ModelConfig := {
  n_trials : Z;
  num_boost_round : Z;
  early_stopping_rounds : Z;
  fixed_params : list (string * value);
  hyperparameter_ranges : list (string * HyperparameterRange)
}.

Record FeaturesConfig := { numeric : list string; categorical : list string }.

Record Config := {
  bigquery : BigQueryConfig;
  gcs : GCSConfig;
  data : DataConfig;
  model : ModelConfig;
  features : FeaturesConfig
}.

(** [self.numeric + self.categorical] *)
Definition all_features (fc : FeaturesConfig) : list string :=
  (numeric fc ++ categorical fc)%list.

(** [a > b] and [a >= b] on fractions *)
Definition Qgtb (a b : Q) : bool := negb (Qle_bool a b).
Definition Qgeb (a b : Q) : bool := Qle_bool b a.

Section WithCoercions.

Variable lib : coercions.

(** A sub-model field: the entry must be a mapping that validates. *)
Definition submodel {A} (validate : list (string * value) -> result A)
    (key : string) (items : list (string * value)) : result A :=
  match dict_get key items with
  | None => invalid ("Field required: " ++ key)%string
  | Some v =>
      match as_dict v with
      | Some sub => validate sub
      | None => invalid ("Input should be a valid dictionary: " ++ key)%string
      end
  end.

(** A field with a default. *)
Definition optional {A} (coerce : value -> option A) (default : A)
    (key : string) (items : list (string * value)) : result A :=
  match dict_get key items with
  | None => Ok default
  | Some v =>
      match coerce v with
      | Some a => Ok a
      | None => invalid ("Input has the wrong type: " ++ key)%string
      end
  end.

Definition validate_BigQueryConfig (items : list (string * value))
    : result BigQueryConfig :=
  p <-? required (as_str lib) "project_id" items ;
  t <-? required (as_str lib) "table_name" items ;
  Ok {| project_id := p; table_name := t |}.

Definition validate_GCSConfig (items : list (string * value)) : result GCSConfig :=
  b <-? required (as_str lib) "bucket_name" items ;
  m <-? required (as_str lib) "model_path" items ;
  Ok {| bucket_name := b; model_path := m |}.

(** [Field(gt=0, lt=1)] *)
Definition check_gt0_lt1 (key : string) (v : Q) : result Q :=
  if Qgtb v 0 && Qgtb 1 v then Ok v
  else invalid ("Input should be greater than 0 and less than 1: " ++ key)%string.

(** [DataConfig.validate_fraction] *)
Definition validate_fraction (v : Q) : result Q :=
  if Qgtb v (1 # 2) then Raise (Exn ValidationError "Fraction should not exceed 0.5")
  else Ok v.

Definition fraction_field (key : string) (items : list (string * value))
    : result Q :=
  v <-? required (as_float lib) key items ;
  v <-? check_gt0_lt1 key v ;
  validate_fraction v.

(** [Field(ge=0)] and [Field(gt=0)] on integers *)
Definition check_ge0 (key : string) (z : Z) : result Z :=
  if (0 <=? z)%Z then Ok z
  else invalid ("Input should be greater than or equal to 0: " ++ key)%string.

Definition check_gt0 (key : string) (z : Z) : result Z :=
  if (0 <? z)%Z then Ok z
  else invalid ("Input should be greater than 0: " ++ key)%string.

Definition positive_field (key : string) (items : list (string * value))
    : result Z :=
  z <-? required (as_int lib) key items ;
  check_gt0 key z.

Definition validate_DataConfig (items : list (string * value)) : result DataConfig :=
  t <-? fraction_field "test_frac" items ;
  v <-? fraction_field "val_frac" items ;
  r <-? (z <-? required (as_int lib) "random_state" items ;
         check_ge0 "random_state" z) ;
  Ok {| test_frac := t; val_frac := v; random_state := r |}.

Definition validate_HyperparameterRange (items : list (string * value))
    : result HyperparameterRange :=
  lo <-? required (as_float lib) "min" items ;
  hi <-? required (as_float lib) "max" items ;
  lg <-? optional (as_bool lib) false "log" items ;
  ty <-? optional (as_str lib) "float" "type" items ;
  Ok {| hr_min := lo; hr_max := hi; hr_log := lg; hr_type := ty |}.

(** The values of a [dict[str, HyperparameterRange]], in order. *)
Fixpoint validate_ranges (items : list (string * value))
    : result (list (string * HyperparameterRange)) :=
  match items with
  | [] => Ok []
  | (k, v) :: rest =>
      match as_dict v with
      | None => invalid ("Input should be a valid dictionary: " ++ k)%string
      | Some sub =>
          r <-? validate_HyperparameterRange sub ;
          rs <-? validate_ranges rest ;
          Ok ((k, r) :: rs)
      end
  end.

(** Unknown keys are allowed in this model: they are not an error (and
    are not represented in the record). *)
Definition validate_ModelConfig (items : list (string * value)) : result ModelConfig :=
  n <-? positive_field "n_trials" items ;
  b <-? positive_field "num_boost_round" items ;
  e <-? positive_field "early_stopping_rounds" items ;
  fp <-? optional as_dict [] "fixed_params" items ;
  hr <-? match dict_get "hyperparameter_ranges" items with
         | None => Ok []
         | Some v =>
             match as_dict v with
             | Some sub => validate_ranges sub
             | None => invalid "Input should be a valid dictionary: hyperparameter_ranges"
             end
         end ;
  Ok {| n_trials := n; num_boost_round := b; early_stopping_rounds := e;
        fixed_params := fp; hyperparameter_ranges := hr |}.

Fixpoint strings_of (vs : list value) : result (list string) :=
  match vs with
  | [] => Ok []
  | v :: rest =>
      match as_str lib v with
      | None => invalid "Input should be a valid string"
      | Some s => ss <-? strings_of rest ; Ok (s :: ss)
      end
  end.

Definition string_list_field (key : string) (items : list (string * value))
    : result (list string) :=
  vs <-? required as_list key items ;
  strings_of vs.

Definition validate_FeaturesConfig (items : list (string * value))
    : result FeaturesConfig :=
  num <-? (l <-? string_list_field "numeric" items ;
           if Nat.leb 1 (List.length l) then Ok l
           else invalid "List should have at least 1 item: numeric") ;
  cat <-? string_list_field "categorical" items ;
  Ok {| numeric := num; categorical := cat |}.

(** What a configuration mapping declares: its data section, and the
    number a data section gives under a key. *)
Definition data_section (config_dict : list (string * value))
    : option (list (string * value)) :=
  match dict_get "data" config_dict with
  | Some v => as_dict v
  | None => None
  end.

Definition declared_fraction (key : string) (d : list (string * value))
    : option Q :=
  match dict_get key d with
  | Some x => as_float lib x
  | None => None
  end.

Definition declared_int (key : string) (d : list (string * value)) : option Z :=
  match dict_get key d with
  | Some x => as_int lib x
  | None => None
  end.

(** [Config.validate_data_splits] *)
Definition validate_data_splits (v : DataConfig) : result DataConfig :=
  let total := (test_frac v + val_frac v)%Q in
  if Qgeb total 1
  then Raise (Exn ValidationError "test_frac + val_frac must be less than 1.0")
  else Ok v.

(** The constructor [Config], applied to the items of [config_dict]. *)
Definition validate_Config (config_dict : list (string * value)) : result Config :=
  bq <-? submodel validate_BigQueryConfig "bigquery" config_dict ;
  g <-? submodel validate_GCSConfig "gcs" config_dict ;
  d <-? (d <-? submodel validate_DataConfig "data" config_dict ;
         validate_data_splits d) ;
  m <-? submodel validate_ModelConfig "model" config_dict ;
  ft <-? submodel validate_FeaturesConfig "features" config_dict ;
  Ok {| bigquery := bq; gcs := g; data := d; model := m; features := ft |}.

(** The YAML parser. *)
Variable yaml_safe_load : string -> result value.

(** [load_config(config_path)] *)
Definition load_config (f : fs) (config_path : string) : result Config :=
  let config_file := parse config_path in
  match stat f config_file with
  | None => Raise (Exn FileNotFoundError
                     ("Configuration file not found: " ++ config_path)%string)
  | Some Dir => Raise (Exn IsADirectoryError config_path)
  | Some (File text) =>
      config_dict <-? yaml_safe_load text ;
      match config_dict with
      | VDict items => validate_Config items
      | _ => Raise (Exn TypeError "argument after ** must be a mapping")
      end
  end.

End WithCoercions.

End Validation.

(** ** scripts/upload_model_to_gcs.py: the registry-pull publisher *)

Module Upload.

Definition call : Type := string * string * string.

Section WithServices.

(** The state of the services outside the process: the model registry, the
    object store, the network. *)
Variable world : Type.

(** [mlflow.artifacts.download_artifacts] followed by [rglob]: the regular
    files of the downloaded artifact, as relative path and content. *)
Variable download_artifacts : string -> world -> result (list (string * string)) * world.

(** [storage.Client()] and [client.bucket(bucket_name)] *)
Variable storage_client : string -> world -> result unit * world.

(** [bucket.blob(blob_name).upload_from_filename(...)] *)
Variable upload_from_filename : string -> string -> string -> world -> result unit * world.

(** [mlflow.set_tracking_uri] *)
Variable set_tracking_uri : string -> world -> world.

(** The process state: the outside world and the calls of
    [upload_model_to_gcs] made so far, oldest first. *)
Record state := State { outside : world; calls : list call }.

Definition in_world {A} (op : world -> result A * world) : ST state A :=
  fun s => let '(r, w) := op (outside s) in (r, State w (calls s)).

Definition record_call (c : call) : ST state unit :=
  fun s => (Ok tt, State (outside s) (calls s ++ [c])%list).

Fixpoint upload_files (bucket_name gcs_path : string)
    (files : list (string * string)) : ST state unit :=
  match files with
  | [] => ret tt
  | (relative_path, content) :: rest =>
      let blob_name := (gcs_path ++ "/" ++ relative_path)%string in
      in_world (upload_from_filename bucket_name blob_name content) ;;;
      upload_files bucket_name gcs_path rest
  end.

(** [upload_model_to_gcs(model_uri, bucket_name, gcs_path)] *)
Definition upload_model_to_gcs (model_uri bucket_name gcs_path : string)
    : ST state unit :=
  record_call (model_uri, bucket_name, gcs_path) ;;;
  files <- in_world (download_artifacts model_uri) ;;
  in_world (storage_client bucket_name) ;;;
  upload_files bucket_name gcs_path files.

(** [os.getenv(key, default)] *)
Definition getenv (env : string -> option string) (key default : string) : string :=
  match env key with Some v => v | None => default end.

Definition production_uri : string := "models:/churn-prediction-model/Production".
Definition latest_uri : string := "models:/churn-prediction-model/latest".

(** The script run as [__main__]. *)
Definition main (env : string -> option string) : ST state unit :=
  let bucket := getenv env "GCS_BUCKET_NAME" "lily-demo-ml-mlflow" in
  let gcs_path := getenv env "GCS_MODEL_PATH" "models/churn-prediction-model" in
  let mlflow_uri := getenv env "MLFLOW_TRACKING_URI" "file://./trainer/mlruns" in
  in_world (fun w => (Ok tt, set_tracking_uri mlflow_uri w)) ;;;
  let model_uri := production_uri in
  try_except (upload_model_to_gcs model_uri bucket gcs_path)
    (fun e =>
       let model_uri := latest_uri in
       upload_model_to_gcs model_uri bucket gcs_path).

End WithServices.

Arguments State {world} outside calls.
Arguments outside {world} s.
Arguments calls {world} s.

End Upload.

(** ** eda/pytorch_trainer.py: the feature scaler in [train_model] *)

Module Trainer.

Section WithLibraries.

(** Numbers, feature matrices (rows of numbers) and label vectors. *)
Variable num : Type.
Definition matrix : Type := list (list num).
Definition labels : Type := list num.

(** The scaler's statistics: the per-feature mean and variance of a
    matrix, and the transform they define. *)
Record params := Params { mean_ : list num; var_ : list num }.
Variable fit_stats : matrix -> result params.
Variable apply_scaling : params -> matrix -> result matrix.

(** A [StandardScaler] object: unfitted, or holding its parameters. *)
Definition StandardScaler : Type := option params.

(** [scaler.fit_transform(X)]: fit on [X], store the parameters in the
    object, transform [X]. *)
Definition fit_transform (X : matrix) : ST StandardScaler matrix :=
  fun scaler =>
    match fit_stats X with
    | Raise e => (Raise e, scaler)
    | Ok p => (apply_scaling p X, Some p)
    end.

(** [scaler.transform(X)]: the object is read, not changed. *)
Definition transform (X : matrix) : ST StandardScaler matrix :=
  fun scaler =>
    match scaler with
    | None => (Raise (Exn NotFittedError "This StandardScaler instance is not fitted yet"), scaler)
    | Some p => (apply_scaling p X, scaler)
    end.

(** The network and the optimisation loop (tensor conversion, shuffled
    batches, validation loss every tenth epoch); [seed] stands for the
    state of the random generator. *)
Variable Net : Type.
Variable optimise :
  Net -> matrix -> labels -> matrix -> labels -> nat -> string -> nat -> result Net.

(** [train_model(model, X_train, y_train, X_val, y_val, epochs, device)]:
    the scaler is created inside and returned with the model. *)
Definition train_model (model : Net) (X_train : matrix) (y_train : labels)
    (X_val : matrix) (y_val : labels) (epochs : nat) (device : string)
    (seed : nat) : result (Net * StandardScaler) :=
  let scaler : StandardScaler := None in
  match fit_transform X_train scaler with
  | (Raise e, _) => Raise e
  | (Ok X_train_scaled, scaler) =>
      match transform X_val scaler with
      | (Raise e, _) => Raise e
      | (Ok X_val_scaled, scaler) =>
          model <-? optimise model X_train_scaled y_train X_val_scaled y_val
                             epochs device seed ;
          Ok (model, scaler)
      end
  end.

(** The part of [main] from training to the test-set transform: returns
    the scaled test matrix and the scaler that goes into the saved bundle. *)
Definition train_and_scale_test (model : Net) (X_train : matrix) (y_train : labels)
    (X_val : matrix) (y_val : labels) (X_test : matrix) (seed : nat)
    : result (matrix * StandardScaler) :=
  trained <-? train_model model X_train y_train X_val y_val 50 "cpu" seed ;
  let '(model, scaler) := trained in
  match transform X_test scaler with
  | (Raise e, _) => Raise e
  | (Ok X_test_scaled, scaler) => Ok (X_test_scaled, scaler)
  end.

End WithLibraries.

Arguments Params {num} mean_ var_.
Arguments mean_ {num} p.
Arguments var_ {num} p.

End Trainer.

(** ** Concrete objects used in examples *)

Module Example.

(** The bucket of the specification's example: a directory marker and two
    objects under [models/v1/]. *)
Definition v1_bucket : bucket :=
  [ Blob "models/v1/" "";
    Blob "models/v1/meta/info.txt" "info";
    Blob "models/v1/model.json" "{}" ].

Definition v1_store : storage := fun _ => v1_bucket.

(** A bucket with two model versions whose names share a string prefix. *)
Definition two_versions_bucket : bucket :=
  [ Blob "models/v1/model.json" "{}";
    Blob "models/v10/model.json" "{}" ].

Definition two_versions_store : storage := fun _ => two_versions_bucket.

Definition empty_store : storage := fun _ => [].

(** An ensemble that scores every row with the same number, and a parser
    that reads that number as 1/4 from any file. *)
Definition const_predict (score : Q) (rows : list PredictionInput) : result (list Q) :=
  Ok (List.map (fun _ => score) rows).

Definition const_parse (content : string) : result Q := Ok (1 # 4).

(** The request of the automated test suite. *)
Definition sample_body : value :=
  VDict [ ("f_0", VFloat (3 # 2)); ("f_1", VFloat (23 # 10));
          ("f_2", VFloat (8 # 10)); ("f_3", VFloat (- 1 # 2));
          ("f_4", VFloat (12 # 10)); ("months_since_signup", VInt 12);
          ("calendar_month", VInt 6); ("signup_month", VInt 6);
          ("is_first_month", VInt 0) ].

Definition sample_input : PredictionInput :=
  {| f_0 := 3 # 2; f_1 := 23 # 10; f_2 := 8 # 10; f_3 := - 1 # 2;
     f_4 := 12 # 10; months_since_signup := 12; calendar_month := 6;
     signup_month := 6; is_first_month := 0 |}.

(** The same request with the month out of range, and with a field
    missing. *)
Definition month13_body : value :=
  VDict [ ("f_0", VFloat (3 # 2)); ("f_1", VFloat (23 # 10));
          ("f_2", VFloat (8 # 10)); ("f_3", VFloat (- 1 # 2));
          ("f_4", VFloat (12 # 10)); ("months_since_signup", VInt 12);
          ("calendar_month", VInt 13); ("signup_month", VInt 6);
          ("is_first_month", VInt 0) ].

Definition missing_body : value := VDict [ ("f_0", VFloat (3 # 2)) ].

(** The lax mode with readers of plain decimal notation. *)
Definition lax_decimal : coercions :=
  lax decimal_of_string integer_of_string bool_of_word.

(** The same request with a string for a float, a float for an integer
    and a boolean for an integer; the request the lax mode reads from it;
    and the request with a null where a float is declared. *)
Definition coerced_items : list (string * value) :=
  [ ("f_0", VStr "1.5"); ("f_1", VFloat (23 # 10));
    ("f_2", VFloat (8 # 10)); ("f_3", VFloat (- 1 # 2));
    ("f_4", VFloat (12 # 10)); ("months_since_signup", VInt 12);
    ("calendar_month", VFloat 6); ("signup_month", VInt 6);
    ("is_first_month", VBool true) ].

Definition coerced_body : value := VDict coerced_items.

Definition coerced_input : PredictionInput :=
  {| f_0 := 15 # 10; f_1 := 23 # 10; f_2 := 8 # 10; f_3 := - 1 # 2;
     f_4 := 12 # 10; months_since_signup := 12; calendar_month := 6;
     signup_month := 6; is_first_month := 1 |}.

Definition null_body : value :=
  VDict [ ("f_0", VNull); ("f_1", VFloat (23 # 10));
          ("f_2", VFloat (8 # 10)); ("f_3", VFloat (- 1 # 2));
          ("f_4", VFloat (12 # 10)); ("months_since_signup", VInt 12);
          ("calendar_month", VInt 6); ("signup_month", VInt 6);
          ("is_first_month", VInt 0) ].

(** The batch body of the manual test script: the list wrapped in an
    object under the key [instances]. *)
Definition wrapped_batch : value := VDict [ ("instances", VList [sample_body]) ].
Definition bare_batch : value := VList [sample_body].

(** Globals after a startup that loaded the ensemble scoring [score]. *)
Definition loaded (score : Q) : Service.globals Q :=
  Service.Globals (Some score) (Some "churn-prediction-model").

Definition unloaded : Service.globals Q := Service.Globals None None.

(** A training configuration with the given split fractions, and a YAML
    parser that reads it from any text. *)
Definition config_doc (test_frac val_frac : Q) : list (string * value) :=
  [ ("bigquery", VDict [ ("project_id", VStr "demo-project");
                         ("table_name", VStr "`demo.churn.table`") ]);
    ("gcs", VDict [ ("bucket_name", VStr "lily-ml-models-20251205");
                    ("model_path", VStr "models/churn-prediction-model") ]);
    ("data", VDict [ ("test_frac", VFloat test_frac);
                     ("val_frac", VFloat val_frac);
                     ("random_state", VInt 42) ]);
    ("model", VDict [ ("n_trials", VInt 20);
                      ("num_boost_round", VInt 500);
                      ("early_stopping_rounds", VInt 50);
                      ("fixed_params", VDict [ ("objective", VStr "binary:logistic") ]);
                      ("hyperparameter_ranges",
                       VDict [ ("eta", VDict [ ("min", VFloat (1 # 100));
                                               ("max", VFloat (3 # 10));
                                               ("log", VBool true) ]) ]) ]);
    ("features", VDict [ ("numeric", VList [ VStr "f_0"; VStr "f_1" ]);
                         ("categorical", VList [ VStr "signup_month" ]) ]) ].

Definition yaml_of (doc : list (string * value)) (text : string) : result value :=
  Ok (VDict doc).

Definition config_fs : fs := <[parse "config.yaml" := File "data: ..."]> ∅.

(** A scorer that always raises. *)
Definition failing_predict (score : Q) (rows : list PredictionInput)
    : result (list Q) :=
  Raise (Exn XGBoostError "feature_names mismatch").

(** A model registry in which the stage [Production] does not exist, next
    to one in which it does; an object store that records every upload. *)
Definition artifact : list (string * string) :=
  [ ("MLmodel", "flavors: xgboost"); ("model.xgb", "binary") ].

Definition registry_without_production (uri : string)
    (w : list (string * string)) : result (list (string * string)) * list (string * string) :=
  if String.eqb uri Upload.production_uri
  then (Raise (Exn MlflowException "Registered model stage not found"), w)
  else (Ok artifact, w).

Definition registry_with_production (uri : string)
    (w : list (string * string)) : result (list (string * string)) * list (string * string) :=
  (Ok artifact, w).

Definition record_upload (bucket_name blob_name content : string)
    (w : list (string * string)) : result unit * list (string * string) :=
  (Ok tt, (w ++ [(blob_name, content)])%list).

Definition keep_world (uri : string) (w : list (string * string))
    : list (string * string) := w.

Definition working_client (bucket_name : string) (w : list (string * string))
    : result unit * list (string * string) := (Ok tt, w).

Definition no_env (key : string) : option string := None.

Definition fresh_process : Upload.state (list (string * string)) :=
  Upload.State [] [].

(** A scaler over the rationals that only centres (standard deviations
    are square roots): per-feature mean and variance of a non-empty
    matrix, and the subtraction of the means. *)
Definition column (j : nat) (X : list (list Q)) : list Q :=
  List.map (fun row => List.nth j row 0%Q) X.

Definition Qsum (xs : list Q) : Q := List.fold_right Qplus 0%Q xs.

Definition Qmean (xs : list Q) : Q :=
  (Qsum xs / inject_Z (Z.of_nat (List.length xs)))%Q.

Definition Qvariance (xs : list Q) : Q :=
  let m := Qmean xs in
  Qmean (List.map (fun x => ((x - m) * (x - m))%Q) xs).

Definition Q_fit_stats (X : list (list Q)) : result (Trainer.params Q) :=
  match X with
  | [] => Raise (Exn ValueError "Found array with 0 sample(s)")
  | row :: _ =>
      let js := List.seq 0 (List.length row) in
      Ok (Trainer.Params (List.map (fun j => Qmean (column j X)) js)
                         (List.map (fun j => Qvariance (column j X)) js))
  end.

Fixpoint Q_center_row (means row : list Q) : list Q :=
  match means, row with
  | m :: means', x :: row' => (x - m)%Q :: Q_center_row means' row'
  | _, _ => []
  end.

Definition Q_apply_scaling (p : Trainer.params Q) (X : list (list Q))
    : result (list (list Q)) :=
  if List.forallb (fun row => Nat.eqb (List.length row) (List.length (Trainer.mean_ p))) X
  then Ok (List.map (Q_center_row (Trainer.mean_ p)) X)
  else Raise (Exn ValueError "X has a different number of features").

(** An optimiser that returns the network as it is. *)
Definition no_training (net : unit) (X_train : list (list Q)) (y_train : list Q)
    (X_val : list (list Q)) (y_val : list Q) (epochs : nat) (device : string)
    (seed : nat) : result unit := Ok net.

(** An optimiser whose result is the data it was given: the scaled
    training and validation matrices. *)
Definition seen_by_optimiser (net : list (list Q) * list (list Q))
    (X_train : list (list Q)) (y_train : list Q)
    (X_val : list (list Q)) (y_val : list Q) (epochs : nat) (device : string)
    (seed : nat) : result (list (list Q) * list (list Q)) := Ok (X_train, X_val).

Definition X_train_demo : list (list Q) := [ [1; 10]; [3; 30] ]%Q.
Definition X_val_demo : list (list Q) := [ [100; 7] ]%Q.
Definition X_val_demo' : list (list Q) := [ [0; 0]; [5; 5]; [9; 9] ]%Q.

End Example.

(** * Further parts of the code *)

(** ** inference/main.py: the health endpoint *)

Module ServiceMore.

Import Service.

Record HealthResponse := {
  status_text : string;
  model_loaded : bool;
  health_model_version : option string
}.

(** [GET /health].  A loaded ensemble is a true value in a condition (the
    class defines neither a length nor a truth value), [None] is false. *)
Definition health {Booster : Type} (g : globals Booster) : HealthResponse :=
  {| status_text := match model g with Some _ => "healthy" | None => "unhealthy" end;
     model_loaded := match model g with Some _ => true | None => false end;
     health_model_version := g_model_version g |}.

(** The globals before startup. *)
Definition initial_globals {Booster : Type} : globals Booster := Globals None None.

(** The answer to a batch of one, seen from the answer to the single
    request: the response is wrapped in a list, a failure is kept. *)
Definition as_batch_of_one {A} (r : response A) : response (list A) :=
  match r with
  | Success body => Success [body]
  | HTTPError c d => HTTPError c d
  end.

End ServiceMore.

(** ** trainer/validation.py: the field names of the models *)

Module ValidationMore.



End ValidationMore.

(** ** More on the loaders *)

Module LoaderMore.

(** A directory marker is an object whose name ends with a slash. *)
Definition is_marker (o : blob) : bool := Str.endswith (name o) "/".

Definition without_markers (b : bucket) : bucket :=
  List.filter (fun o => negb (is_marker o)) b.

(** The errors of the operating system among the exception classes. *)
Definition is_os_error (c : exn_class) : bool :=
  match c with
  | FileNotFoundError | FileExistsError | NotADirectoryError | IsADirectoryError => true
  | _ => false
  end.

(** A result with its value forgotten. *)
Definition forget {A} (r : result A) : result unit :=
  match r with
  | Ok _ => Ok tt
  | Raise e => Raise e
  end.



(** [Path(s).name]: the last component, empty for a path without one. *)
Definition path_name (p : ppath) : string := List.last (parts p) "".

Section LoadFromGcs.

(** The generic packaged-model format: the loader of the model registry's
    library, reading a local directory. *)
Variable PyFuncModel : Type.
Variable pyfunc_load_model : fs -> string -> result PyFuncModel.

(** [load_model_from_gcs(gcs_path, cache_dir)]: an exception is logged and
    raised again. *)
Definition load_model_from_gcs (st : storage) (fresh : string)
    (gcs_path cache_dir : string) : M (PyFuncModel * string) :=
  try_except
    (local_model_path <-
       GcsLoader.download_model_from_gcs st fresh gcs_path (Some cache_dir) ;;
     model <- (fun f => (pyfunc_load_model f local_model_path, f)) ;;
     let version := path_name (parse gcs_path) in
     ret (model, version))
    (fun e => throw e).

End LoadFromGcs.

End LoaderMore.

(** ** inference/utils.py: the boosted-tree loader with a storage client
       that can fail *)

Module StoreFailures.

Import LoaderMore.

Section WithClient.

(** The storage client as the loader uses it.  [connect] is
    [storage.Client()] followed by [client.bucket(bucket_name)];
    [listing] gives the objects that iterating [bucket.list_blobs(prefix)]
    yields and the exception, if any, that ends the iteration; [fetch]
    is the transfer of an object's content.  Each can raise the storage
    library's exceptions (credentials, a missing bucket, the network). *)
Variable connect : string -> result unit.
Variable listing : string -> string -> list blob * option exn.
Variable fetch : blob -> result string.

(** What is left of a local file whose transfer failed is the library's
    business. *)
Variable after_failed_fetch : ppath -> fs -> fs.

(** [blob.download_to_filename(filename)]: the file is opened for
    writing, then the content is transferred into it. *)
Definition download_to_filename (o : blob) (filename : string) : M unit :=
  fun f =>
    match OS.write_file (parse filename) "" f with
    | (Raise e, f') => (Raise e, f')
    | (Ok _, f1) =>
        match fetch o with
        | Ok content => (Ok tt, <[parse filename := File content]> f1)
        | Raise e => (Raise e, after_failed_fetch (parse filename) f1)
        end
    end.

Definition download_one (model_path local_dir : string) (o : blob) : M unit :=
  if negb (Str.endswith (name o) "/") then
    rel <- lift (relative_to (parse (name o)) (parse model_path)) ;;
    let local_file := joinpath (parse local_dir) rel in
    OS.Path_mkdir (parent local_file) true true ;;;
    download_to_filename o (to_string local_file)
  else ret tt.

(** The loop over the iterator: the objects it yields, then the
    exception that ends it, if any. *)
Fixpoint download_loop (model_path local_dir : string) (blobs : list blob)
    (stop : option exn) : M unit :=
  match blobs with
  | [] => match stop with
          | None => ret tt
          | Some e => throw e
          end
  | o :: rest =>
      download_one model_path local_dir o ;;;
      download_loop model_path local_dir rest stop
  end.

(** [download_model_from_gcs(bucket_name, model_path, local_dir)] *)
Definition download_model_from_gcs (bucket_name model_path local_dir : string)
    : M string :=
  lift (connect bucket_name) ;;;
  OS.Path_mkdir (parse local_dir) false true ;;;
  let '(blobs, stop) := listing bucket_name model_path in
  download_loop model_path local_dir blobs stop ;;;
  ret local_dir.

(** An exception that the storage client raised in a run on this bucket
    and model path. *)
Definition raised_by_store (bucket_name model_path : string) (e : exn) : Prop :=
  connect bucket_name = Raise e
  \/ snd (listing bucket_name model_path) = Some e
  \/ exists o, In o (fst (listing bucket_name model_path)) /\ fetch o = Raise e.

End WithClient.

(** A client that answers from a store, and one whose transfer of
    [model.json] fails. *)
Definition connected (bucket_name : string) : result unit := Ok tt.

Definition listing_of (st : storage) (bucket_name prefix : string)
    : list blob * option exn :=
  (list_blobs (st bucket_name) prefix, None).

Definition fetch_data (o : blob) : result string := Ok (data o).

Definition unavailable : exn := Exn GoogleCloudError "503 Service Unavailable".

Definition flaky_fetch (o : blob) : result string :=
  if Str.endswith (name o) "model.json" then Raise unavailable else Ok (data o).

Definition left_as_is (p : ppath) (f : fs) : fs := f.

End StoreFailures.

(** ** trainer/data_loader.py: the direct publisher *)

Module DataLoader.

(** Objects of a bucket are listed in the order of their names. *)
Fixpoint insert_by_name (o : blob) (b : bucket) : bucket :=
  match b with
  | [] => [o]
  | o' :: rest =>
      if String.leb (name o) (name o') then o :: b
      else o' :: insert_by_name o rest
  end.

(** [blob.upload_from_filename]: the object replaces any object of the
    same name. *)
Definition put_blob (o : blob) (b : bucket) : bucket :=
  insert_by_name o
    (List.filter (fun o' => negb (String.eqb (name o') (name o))) b).

Definition put_in_store (bucket_name : string) (o : blob) (st : storage) : storage :=
  fun n => if String.eqb n bucket_name then put_blob o (st n) else st n.

Section WithBooster.

Variable Booster : Type.

(** [model.save_model(fname)]: the text of the native JSON format. *)
Variable xgb_save : Booster -> result string.

(** [upload_model_to_gcs(model, bucket_name, gcs_path)]: the model is saved
    to a file of a temporary directory, which is uploaded as
    [<gcs_path>/model.json]; the temporary directory is gone afterwards. *)
Definition upload_model_to_gcs (model : Booster) (bucket_name gcs_path : string)
    : ST storage unit :=
  fun st =>
    match xgb_save model with
    | Raise e => (Raise e, st)
    | Ok content =>
        let o := Blob (gcs_path ++ "/model.json") content in
        (Ok tt, put_in_store bucket_name o st)
    end.

End WithBooster.

End DataLoader.

(** ** pipeline/deploy_pytorch_gpu.py: compiling and submitting the pipeline *)

Module Deploy.

Definition DEFAULT_PYTORCH_GPU_IMAGE : string :=
  "us-central1-docker.pkg.dev/lily-demo-ml/churn-pipeline/pytorch-trainer:latest".

Definition pipeline_file : string := "pytorch_churn_pipeline.json".

(** [os.path.exists] and [os.remove] *)
Definition os_path_exists (f : fs) (p : string) : bool := exists_ f (parse p).

Definition os_remove (p : string) : M unit := fun f =>
  match stat f (parse p) with
  | None => (Raise (Exn FileNotFoundError p), f)
  | Some Dir => (Raise (Exn IsADirectoryError p), f)
  | Some (File _) => (Ok tt, delete (parse p) f)
  end.

(** What is handed to the pipeline service: the project and location of
    [aiplatform.init] and the arguments of [PipelineJob]. *)
Record submission := {
  project : string;
  location : string;
  display_name : string;
  template_path : string;
  pipeline_root : string;
  param_project_id : string;
  param_epochs : Z;
  param_batch_size : Z;
  param_learning_rate : Q;
  enable_caching : bool
}.

Section WithServices.

(** The pipeline compiler (the text it writes for an image) and the
    pipeline service: its state, and the submission of a job, which
    returns the job's resource name. *)
Variable compile_pipeline : string -> result string.
Variable cloud : Type.
Variable submit : submission -> cloud -> result string * cloud.

(** The process state: the local files and the pipeline service. *)
Definition on_files {A} (m : M A) : ST (fs * cloud) A :=
  fun s => let '(r, f') := m (fst s) in (r, (f', snd s)).

Definition on_cloud {A} (op : cloud -> result A * cloud) : ST (fs * cloud) A :=
  fun s => let '(r, c') := op (snd s) in (r, (fst s, c')).

(** The job built in [deploy]: [bucket] defaults to the project's
    pipeline bucket; [now] is the time stamp of the display name. *)
Definition job_of (now project_id region : string) (bucket : option string)
    (epochs batch_size : Z) (learning_rate : Q) : submission :=
  let bucket := match bucket with
                | None => (project_id ++ "-pipeline")%string
                | Some b => b
                end in
  {| project := project_id;
     location := region;
     display_name := ("pytorch-churn-gpu-" ++ now)%string;
     template_path := pipeline_file;
     pipeline_root := ("gs://" ++ bucket ++ "/pytorch-churn")%string;
     param_project_id := project_id;
     param_epochs := epochs;
     param_batch_size := batch_size;
     param_learning_rate := learning_rate;
     enable_caching := false |}.

(** [deploy(project_id, region, bucket, image_uri, epochs, batch_size,
    learning_rate, run_local)] *)
Definition deploy (now : string) (project_id region : string)
    (bucket image_uri : option string) (epochs batch_size : Z)
    (learning_rate : Q) (run_local : bool) : ST (fs * cloud) unit :=
  let image_uri := match image_uri with
                   | None => DEFAULT_PYTORCH_GPU_IMAGE
                   | Some i => i
                   end in
  text <- lift (compile_pipeline image_uri) ;;
  on_files (OS.write_file (parse pipeline_file) text) ;;;
  if run_local then ret tt
  else
    resource_name <- on_cloud (submit (job_of now project_id region bucket
                                         epochs batch_size learning_rate)) ;;
    exists_now <- (fun s => (Ok (os_path_exists (fst s) pipeline_file), s)) ;;
    if exists_now : bool then on_files (os_remove pipeline_file) else ret tt.

End WithServices.

End Deploy.

(** ** inference/fastapi-inference/test_api.py: the manual test script *)

Module ManualTests.

(** The loop of [main]: every test is run; its verdict is appended to the
    results; an exception raised by a test is turned into a verdict. *)
Fixpoint run_tests {W : Type} (tests : list (string * ST W bool))
    (results : list (string * string)) : ST W (list (string * string)) :=
  match tests with
  | [] => ret results
  | (name, test_func) :: rest =>
      entry <- try_except
                 (success <- test_func ;;
                  ret (name, if success : bool then "✓ PASSED" else "✗ FAILED"))
                 (fun e => ret (name, ("✗ ERROR: " ++ str_of_exn e)%string)) ;;
      run_tests rest (results ++ [entry])%list
  end.

(** A verdict that [main] can report. *)
Definition is_verdict (v : string) : Prop :=
  v = "✓ PASSED" \/ v = "✗ FAILED" \/ exists msg, v = ("✗ ERROR: " ++ msg)%string.

Section WithTests.

(** The service under test is reached over HTTP: the three tests are
    operations on its state that return the comparison of the status
    code with 200 or raise the exception of the HTTP client. *)
Variable W : Type.
Variable test_health test_single_prediction test_batch_prediction : ST W bool.

(** [main], with the summary it prints as its value. *)
Definition main : ST W (list (string * string)) :=
  run_tests [ ("Health Check", test_health);
              ("Single Prediction", test_single_prediction);
              ("Batch Prediction", test_batch_prediction) ] [].

End WithTests.

End ManualTests.

(** ** scripts/upload_model_to_gcs.py: which objects are uploaded *)

Module UploadMore.

(** An upload operation that also records, beside the state of the
    services, the bucket, name and content of every upload it is asked
    for, oldest first. *)
Definition upload_log : Type := list (string * string * string).

Definition recording {world : Type}
    (upload_from_filename : string -> string -> string -> world -> result unit * world)
    (bucket_name blob_name content : string) (w : world * upload_log)
    : result unit * (world * upload_log) :=
  let '(r, w') := upload_from_filename bucket_name blob_name content (fst w) in
  (r, (w', (snd w ++ [(bucket_name, blob_name, content)])%list)).

Definition beside_log {world A : Type} (op : world -> result A * world)
    (w : world * upload_log) : result A * (world * upload_log) :=
  let '(r, w') := op (fst w) in (r, (w', snd w)).

(** The uploads asked for an artifact's files. *)
Definition expected_uploads (bucket_name gcs_path : string)
    (files : list (string * string)) : upload_log :=
  List.map (fun fc => (bucket_name, (gcs_path ++ "/" ++ fst fc)%string, snd fc)) files.

End UploadMore.

(** * Properties *)

(** ** Strings *)

Module StrFacts.

Lemma append_cons c s t : (String c s ++ t)%string = String c (s ++ t).
Proof. reflexivity. Qed.

Lemma append_nil t : ("" ++ t)%string = t.
Proof. reflexivity. Qed.

Lemma endswith_cons c s p :
  Str.endswith (String c s) p = false -> Str.endswith s p = false.
Proof.
  intros H. cbn [Str.endswith] in H.
  destruct (String.eqb (String c s) p); [discriminate H | exact H].
Qed.

Lemma endswith_drop n : forall s p,
  p <> "" -> Str.endswith s p = false -> Str.endswith (Str.drop n s) p = false.
Proof.
  induction n as [|n IH]; intros s p Hp H; [exact H|].
  destruct s as [|c s]; [exact H|].
  simpl. apply IH; [exact Hp|]. eapply endswith_cons; eauto.
Qed.

Lemma endswith_app_slash s : Str.endswith (s ++ "/") "/" = true.
Proof.
  induction s as [|c s IH]; [reflexivity|].
  change (String c s ++ "/")%string with (String c (s ++ "/")).
  cbn [Str.endswith]. rewrite IH. destruct (String.eqb _ _); reflexivity.
Qed.

Lemma startswith_length : forall p s,
  Str.startswith s p = true -> (String.length p <= String.length s)%nat.
Proof.
  induction p as [|c p IH]; intros s H; simpl; [lia|].
  destruct s as [|d s]; [discriminate|].
  simpl in H. destruct (Ascii.eqb d c); [|discriminate].
  apply IH in H. simpl. lia.
Qed.

Lemma startswith_split : forall p s,
  Str.startswith s p = true -> s = (p ++ Str.drop (String.length p) s)%string.
Proof.
  induction p as [|c p IH]; intros s H; [reflexivity|].
  destruct s as [|d s]; [discriminate|].
  simpl in H. destruct (Ascii.eqb_spec d c); [|discriminate]. subst d.
  rewrite append_cons. cbn [String.length Str.drop]. f_equal. apply IH, H.
Qed.

(** Appending a slash to a string that does not end with one creates no
    new occurrence of the scheme at its start. *)
Lemma startswith_scheme_app_slash t :
  Str.endswith t "/" = false ->
  Str.startswith (t ++ "/") "gs://" = Str.startswith t "gs://".
Proof.
  intros H.
  destruct t as [|c1 [|c2 [|c3 [|c4 [|c5 t]]]]];
    rewrite ?append_cons, ?append_nil; try reflexivity.
  simpl.
  destruct (Ascii.eqb c1 "g"), (Ascii.eqb c2 "s"), (Ascii.eqb c3 ":");
    try reflexivity.
  destruct (Ascii.eqb_spec c4 "/"); [|reflexivity].
  subst c4. do 3 apply endswith_cons in H. discriminate H.
Qed.

Lemma replace_from_drop old new : forall s k,
  Str.replace_from old new k s = Str.replace_from old new 0 (Str.drop k s).
Proof.
  induction s as [|c s IH]; intros k.
  - destruct k; reflexivity.
  - destruct k as [|k]; [reflexivity|]. simpl. apply IH.
Qed.

Lemma drop_app_slash : forall k s,
  (k <= String.length s)%nat ->
  Str.drop k (s ++ "/") = (Str.drop k s ++ "/")%string.
Proof.
  induction k as [|k IH]; intros s H; [reflexivity|].
  destruct s as [|c s]; [simpl in H; lia|].
  rewrite append_cons. cbn [Str.drop]. apply IH. simpl in H. lia.
Qed.

(** Removing the scheme commutes with appending a slash. *)
Lemma replace_scheme_app_slash : forall s,
  Str.endswith s "/" = false ->
  Str.replace_from "gs://" "" 0 (s ++ "/")
  = (Str.replace_from "gs://" "" 0 s ++ "/")%string.
Proof.
  intros s. remember (String.length s) as n eqn:Hn.
  revert s Hn. induction n as [n IH] using lt_wf_ind. intros s Hn Hs.
  destruct s as [|c s]; [reflexivity|].
  rewrite append_cons.
  cbn [Str.replace_from].
  rewrite <- append_cons.
  rewrite (startswith_scheme_app_slash _ Hs).
  destruct (Str.startswith (String c s) "gs://") eqn:Hst.
  - pose proof (startswith_length _ _ Hst) as Hlen.
    cbn [String.length] in Hlen.
    rewrite (replace_from_drop _ _ (s ++ "/")), (replace_from_drop _ _ s).
    cbn [String.length Nat.sub]. simpl in Hlen.
    rewrite drop_app_slash by (simpl; lia).
    rewrite !append_nil.
    assert (Hd : (String.length (Str.drop 4 s) < n)%nat).
    { subst n. clear -Hlen. simpl.
      destruct s as [|a [|b [|d [|e s]]]]; simpl in *; try lia. }
    apply (IH _ Hd _ eq_refl).
    apply endswith_drop; [discriminate|]. eapply endswith_cons; eauto.
  - rewrite append_cons. f_equal.
    apply (IH (String.length s)); [subst n; simpl; lia | reflexivity |].
    eapply endswith_cons; eauto.
Qed.

(** What is left after removing the scheme still does not end with a
    slash, and is not empty unless the string was. *)
Lemma replace_scheme_end : forall s,
  Str.endswith s "/" = false ->
  Str.endswith (Str.replace_from "gs://" "" 0 s) "/" = false
  /\ (s <> "" -> Str.replace_from "gs://" "" 0 s <> "").
Proof.
  intros s. remember (String.length s) as n eqn:Hn.
  revert s Hn. induction n as [n IH] using lt_wf_ind. intros s Hn Hs.
  destruct s as [|c s]; [split; [reflexivity | congruence]|].
  cbn [Str.replace_from].
  destruct (Str.startswith (String c s) "gs://") eqn:Hst.
  - assert (Hsplit : String c s = ("gs://" ++ Str.drop 4 s)%string)
      by exact (startswith_split _ _ Hst).
    pose proof (startswith_length _ _ Hst) as Hlen.
    cbn [String.length Nat.sub] in Hlen |- *. rewrite append_nil.
    rewrite replace_from_drop.
    assert (Hd : (String.length (Str.drop 4 s) < n)%nat).
    { subst n. clear -Hlen. simpl.
      destruct s as [|a [|b [|d [|e s]]]]; simpl in *; try lia. }
    assert (Hend : Str.endswith (Str.drop 4 s) "/" = false).
    { apply endswith_drop; [discriminate|]. eapply endswith_cons; eauto. }
    destruct (IH _ Hd _ eq_refl Hend) as [IH1 IH2].
    split; [exact IH1|]. intros _. apply IH2.
    intros Hnil. rewrite Hnil in Hsplit.
    rewrite Hsplit in Hs. discriminate Hs.
  - assert (Hs' : Str.endswith s "/" = false) by (eapply endswith_cons; eauto).
    assert (Hlt : (String.length s < n)%nat) by (subst n; simpl; lia).
    destruct (IH _ Hlt _ eq_refl Hs') as [IH1 IH2].
    split; [|discriminate].
    cbn [Str.endswith]. rewrite IH1.
    destruct (String.eqb_spec (String c (Str.replace_from "gs://" "" 0 s)) "/")
      as [Heq|]; [|reflexivity].
    injection Heq as Hc Hr. subst c.
    destruct s as [|d s]; [discriminate Hs|].
    exfalso. apply IH2; [discriminate | exact Hr].
Qed.

Lemma endswith_app_r a : forall t p,
  Str.endswith (a ++ t) p = false -> Str.endswith t p = false.
Proof.
  induction a as [|c a IH]; intros t p H; [exact H|].
  rewrite append_cons in H. apply IH. eapply endswith_cons; eauto.
Qed.

(** [split1] returns one or two pieces, which rebuild the string. *)
Lemma split1_shape : forall s,
  Str.split1 Str.slash s = [s]
  \/ exists a b, Str.split1 Str.slash s = [a; b] /\ s = (a ++ String "/" b)%string.
Proof.
  induction s as [|c s IH]; [left; reflexivity|].
  cbn [Str.split1].
  destruct (Ascii.eqb_spec c Str.slash) as [->|Hc].
  - right. exists "", s. split; reflexivity.
  - destruct IH as [-> | (a & b & -> & Hs)].
    + left. reflexivity.
    + right. exists (String c a), b. split; [reflexivity|].
      rewrite append_cons. f_equal. exact Hs.
Qed.

Lemma split1_app_slash : forall s,
  Str.split1 Str.slash (s ++ "/")
  = match Str.split1 Str.slash s with
    | [a] => [a; ""]
    | [a; b] => [a; (b ++ "/")%string]
    | other => other
    end.
Proof.
  induction s as [|c s IH]; [reflexivity|].
  rewrite append_cons. cbn [Str.split1].
  destruct (Ascii.eqb c Str.slash); [reflexivity|].
  rewrite IH.
  destruct (split1_shape s) as [-> | (a & b & -> & _)]; reflexivity.
Qed.

End StrFacts.

(** ** The generic loader and trailing slashes *)

Module GcsLoaderProps.

Import StrFacts.

Lemma startswith_app : forall p u t,
  Str.startswith u p = true -> Str.startswith (u ++ t) p = true.
Proof.
  induction p as [|c p IH]; intros u t H; [reflexivity|].
  destruct u as [|d u]; [discriminate H|].
  rewrite append_cons. cbn [Str.startswith] in *.
  destruct (Ascii.eqb d c); [apply IH, H | discriminate H].
Qed.

(** The prefix the loader lists with is empty or ends with a slash. *)
Lemma prefix_normalised u :
  snd (GcsLoader.bucket_and_prefix u) <> "" ->
  Str.endswith (snd (GcsLoader.bucket_and_prefix u)) "/" = true.
Proof.
  unfold GcsLoader.bucket_and_prefix. cbn [snd].
  set (p := if Nat.ltb 1 _ then _ else _).
  destruct (String.eqb_spec p "") as [->|Hp]; cbn [negb andb].
  - intros H. exfalso. apply H. reflexivity.
  - destruct (Str.endswith p "/") eqn:He; cbn [negb]; intros _.
    + exact He.
    + apply endswith_app_slash.
Qed.

Lemma bucket_and_prefix_app_slash u :
  Str.endswith u "/" = false ->
  GcsLoader.bucket_and_prefix (u ++ "/") = GcsLoader.bucket_and_prefix u.
Proof.
  intros Hu. unfold GcsLoader.bucket_and_prefix, Str.replace.
  rewrite (replace_scheme_app_slash _ Hu).
  destruct (replace_scheme_end _ Hu) as [Hend Hne].
  set (r := Str.replace_from "gs://" "" 0 u) in *.
  rewrite split1_app_slash.
  destruct (split1_shape r) as [-> | (a & b & -> & Hr)]; [reflexivity|].
  cbn [List.hd List.length List.nth Nat.ltb Nat.leb].
  rewrite Hr in Hend. apply endswith_app_r in Hend.
  assert (Hb : Str.endswith b "/" = false) by (eapply endswith_cons; eauto).
  assert (Hbne : b <> "").
  { intros ->. discriminate Hend. }
  rewrite endswith_app_slash, Hb.
  destruct (String.eqb_spec b "") as [|_]; [contradiction|].
  destruct (String.eqb (b ++ "/") ""); reflexivity.
Qed.

(** C9: a URI of the generic loader that does not end with a slash and the
    same URI followed by one slash give the same run: the same result, the
    same local files.  The prefix used for listing, when not empty, ends
    with a slash. *)
Theorem download_trailing_slash_irrelevant
    (st : storage) (fresh u : string) (local_dir : option string) (f : fs) :
  Str.startswith u "gs://" = true ->
  Str.endswith u "/" = false ->
  GcsLoader.download_model_from_gcs st fresh (u ++ "/") local_dir f
  = GcsLoader.download_model_from_gcs st fresh u local_dir f
  /\ (snd (GcsLoader.bucket_and_prefix u) <> "" ->
      Str.endswith (snd (GcsLoader.bucket_and_prefix u)) "/" = true).
Proof.
  intros Hstart Hend. split; [|apply prefix_normalised].
  unfold GcsLoader.download_model_from_gcs.
  rewrite (startswith_app _ _ "/" Hstart), Hstart.
  rewrite (bucket_and_prefix_app_slash _ Hend). reflexivity.
Qed.

Lemma download_trailing_slash_irrelevant_witness :
  Str.startswith "gs://b/models/v1" "gs://" = true
  /\ Str.endswith "gs://b/models/v1" "/" = false
  /\ GcsLoader.download_model_from_gcs Example.v1_store "/tmp/model_0"
       ("gs://b/models/v1" ++ "/") (Some "cache") ∅
     = GcsLoader.download_model_from_gcs Example.v1_store "/tmp/model_0"
         "gs://b/models/v1" (Some "cache") ∅.
Proof.
  split; [reflexivity|]. split; [reflexivity|].
  apply (download_trailing_slash_irrelevant Example.v1_store "/tmp/model_0"
           "gs://b/models/v1" (Some "cache") ∅); reflexivity.
Defined.

End GcsLoaderProps.

(** ** Paths: printing a path and parsing it again *)

Module PathFacts.

Import StrFacts.

Lemma split_noslash : forall s,
  List.forallb noslashb (Str.split Str.slash s) = true.
Proof.
  induction s as [|c s IH]; [reflexivity|].
  cbn [Str.split].
  destruct (Ascii.eqb c Str.slash) eqn:Hc; [exact IH|].
  destruct (Str.split Str.slash s) as [|w ws]; cbn [List.forallb noslashb] in *.
  - rewrite Hc. reflexivity.
  - rewrite Hc. exact IH.
Qed.

Lemma split_single : forall w,
  noslashb w = true -> Str.split Str.slash w = [w].
Proof.
  induction w as [|c w IH]; intros H; [reflexivity|].
  cbn [noslashb] in H. apply andb_prop in H as [Hc Hw].
  cbn [Str.split]. apply negb_true_iff in Hc. rewrite Hc, (IH Hw). reflexivity.
Qed.

Lemma split_app_slash : forall w t,
  noslashb w = true ->
  Str.split Str.slash (w ++ String Str.slash t) = w :: Str.split Str.slash t.
Proof.
  induction w as [|c w IH]; intros t H.
  - rewrite append_nil. cbn [Str.split]. rewrite Ascii.eqb_refl. reflexivity.
  - cbn [noslashb] in H. apply andb_prop in H as [Hc Hw].
    rewrite append_cons. cbn [Str.split]. apply negb_true_iff in Hc.
    rewrite Hc, (IH _ Hw). reflexivity.
Qed.

Lemma split_slash_cons t :
  Str.split Str.slash (String "/" t) = "" :: Str.split Str.slash t.
Proof. reflexivity. Qed.

Lemma join_cons2 w w' ps :
  Str.join "/" (w :: w' :: ps) = (w ++ String Str.slash (Str.join "/" (w' :: ps)))%string.
Proof. reflexivity. Qed.

Lemma split_join : forall ps,
  ps <> [] -> List.forallb noslashb ps = true ->
  Str.split Str.slash (Str.join "/" ps) = ps.
Proof.
  induction ps as [|w ps IH]; intros Hne H; [congruence|].
  cbn [List.forallb] in H. apply andb_prop in H as [Hw Hps].
  destruct ps as [|w' ps].
  - apply split_single, Hw.
  - rewrite join_cons2, (split_app_slash _ _ Hw), IH; [reflexivity | discriminate | exact Hps].
Qed.

Lemma forallb_clean_noslash ps :
  List.forallb cleanb ps = true -> List.forallb noslashb ps = true.
Proof.
  induction ps as [|w ps IH]; [reflexivity|].
  cbn [List.forallb]. unfold cleanb at 1. intros H.
  apply andb_prop in H as [H1 H2]. apply andb_prop in H1 as [H1 _].
  rewrite H1, (IH H2). reflexivity.
Qed.

Lemma filter_clean ps :
  List.forallb cleanb ps = true -> List.filter keep_component ps = ps.
Proof.
  induction ps as [|w ps IH]; [reflexivity|].
  cbn [List.forallb List.filter]. unfold cleanb at 1. intros H.
  apply andb_prop in H as [H1 H2]. apply andb_prop in H1 as [_ H1].
  rewrite H1, (IH H2). reflexivity.
Qed.

Lemma filter_keep_clean ws :
  List.forallb noslashb ws = true ->
  List.forallb cleanb (List.filter keep_component ws) = true.
Proof.
  induction ws as [|w ws IH]; [reflexivity|].
  cbn [List.forallb List.filter]. intros H. apply andb_prop in H as [H1 H2].
  destruct (keep_component w) eqn:Hk; [|exact (IH H2)].
  cbn [List.forallb]. unfold cleanb at 1. rewrite H1, Hk, (IH H2). reflexivity.
Qed.

(** A clean component starts with a character that is not a slash. *)
Lemma clean_head w :
  cleanb w = true -> exists c w', w = String c w' /\ Ascii.eqb c Str.slash = false.
Proof.
  unfold cleanb, keep_component. destruct w as [|c w]; [discriminate|].
  cbn [noslashb]. intros H. apply andb_prop in H as [H _].
  apply andb_prop in H as [H _]. apply negb_true_iff in H. eauto.
Qed.

Lemma join_head w ps :
  cleanb w = true ->
  exists c t, Str.join "/" (w :: ps) = String c t /\ Ascii.eqb c Str.slash = false.
Proof.
  intros H. destruct (clean_head _ H) as (c & w' & -> & Hc).
  destruct ps as [|w2 ps].
  - exists c, w'. split; [reflexivity | exact Hc].
  - rewrite join_cons2, append_cons. eauto.
Qed.

Lemma root_of_values s : root_of s = "" \/ root_of s = "/" \/ root_of s = "//".
Proof.
  unfold root_of.
  destruct (Str.startswith s "///"); [auto|].
  destruct (Str.startswith s "//"); [auto|].
  destruct (Str.startswith s "/"); auto.
Qed.

(** Every parsed path is well formed. *)
Lemma parse_wf s : wfb (parse s) = true.
Proof.
  unfold wfb, parse. cbn [root parts].
  rewrite (filter_keep_clean _ (split_noslash s)), andb_true_r.
  destruct (root_of_values s) as [-> | [-> | ->]]; reflexivity.
Qed.

Lemma wfb_parts p : wfb p = true -> List.forallb cleanb (parts p) = true.
Proof. unfold wfb. intros H. apply andb_prop in H as [_ H]. exact H. Qed.

Lemma forallb_app_clean a b :
  List.forallb cleanb (a ++ b) = List.forallb cleanb a && List.forallb cleanb b.
Proof. apply forallb_app. Qed.

Lemma joinpath_wf p q : wfb p = true -> wfb q = true -> wfb (joinpath p q) = true.
Proof.
  intros Hp Hq. unfold joinpath. destruct (is_absolute q); [exact Hq|].
  unfold wfb in *. cbn [root parts].
  apply andb_prop in Hp as [Hr Hps]. apply andb_prop in Hq as [_ Hqs].
  rewrite Hr, forallb_app_clean, Hps, Hqs. reflexivity.
Qed.

(** Printing a well-formed path and parsing it again gives the path back. *)
Lemma parse_to_string p : wfb p = true -> parse (to_string p) = p.
Proof.
  destruct p as [r ps]. unfold wfb. cbn [root parts]. intros H.
  apply andb_prop in H as [Hr Hps].
  pose proof (forallb_clean_noslash _ Hps) as Hns.
  pose proof (filter_clean _ Hps) as Hf.
  unfold parse, to_string. cbn [root parts].
  destruct ps as [|w ps].
  - apply orb_prop in Hr as [Hr | Hr]; [apply orb_prop in Hr as [Hr | Hr]|];
      apply String.eqb_eq in Hr; subst r; reflexivity.
  - cbn [List.forallb] in Hps. apply andb_prop in Hps as [Hw _].
    destruct (join_head w ps Hw) as (c & t & Hj & Hc).
    unfold Str.slash in Hc.
    assert (Hsp : Str.split Str.slash (Str.join "/" (w :: ps)) = w :: ps)
      by (apply split_join; [discriminate | exact Hns]).
    apply orb_prop in Hr as [Hr | Hr]; [apply orb_prop in Hr as [Hr | Hr]|];
      apply String.eqb_eq in Hr; subst r.
    + rewrite append_nil. f_equal.
      * rewrite Hj. unfold root_of. cbn [Str.startswith]. rewrite Hc. reflexivity.
      * rewrite Hsp. exact Hf.
    + f_equal.
      * rewrite Hj. unfold root_of. rewrite !append_cons, append_nil.
        cbn [Str.startswith]. rewrite Ascii.eqb_refl, Hc. reflexivity.
      * rewrite append_cons, append_nil, split_slash_cons, Hsp.
        exact Hf.
    + f_equal.
      * rewrite Hj. unfold root_of. rewrite !append_cons, append_nil.
        cbn [Str.startswith]. rewrite !Ascii.eqb_refl, Hc. reflexivity.
      * rewrite !append_cons, append_nil, !split_slash_cons, Hsp.
        exact Hf.
Qed.

End PathFacts.

(** ** The boosted-tree loader: [load_model] and empty downloads *)

Module UtilsProps.

Import StrFacts PathFacts.

Lemma model_json_path p :
  join_str p "model.json" = PPath (root p) (parts p ++ ["model.json"]).
Proof. reflexivity. Qed.

Lemma model_json_wf d : wfb (join_str (parse d) "model.json") = true.
Proof. apply joinpath_wf; apply parse_wf. Qed.

(** [mkdir(exist_ok=True)] without [parents]: succeeds when the parent is a
    directory and the path is not a regular file, creating the directory
    when it is absent. *)
Lemma mkdir_exist_ok (f : fs) (p : ppath) :
  is_dir f (parent p) = true ->
  is_file f p = false ->
  OS.Path_mkdir p false true f
  = (Ok tt, if is_dir f p then f else <[p := Dir]> f).
Proof.
  unfold is_dir, is_file, OS.Path_mkdir. intros Hpar Hfile.
  assert (Hstep : forall n, OS.path_mkdir n p false true f
                  = (Ok tt, if is_dir f p then f else <[p := Dir]> f)).
  { intros n. unfold is_dir.
    destruct n; cbn [OS.path_mkdir]; unfold OS.mkdir, is_dir;
      (destruct (stat f p) as [[c|]|] eqn:Hst;
       [discriminate Hfile | cbn; rewrite Hst; reflexivity |];
       destruct (stat f (parent p)) as [[c|]|]; try discriminate Hpar;
       reflexivity). }
  apply Hstep.
Qed.

Section LoadModel.

Variable Booster : Type.
Variable xgb_parse : string -> result Booster.

Lemma load_model_missing (f : fs) (model_dir : string) :
  exists_ f (join_str (parse model_dir) "model.json") = false ->
  raises (Utils.load_model Booster xgb_parse f model_dir) FileNotFoundError.
Proof.
  intros Hex. unfold Utils.load_model. rewrite Hex. cbn [negb].
  eexists. reflexivity.
Qed.

Lemma load_model_file (f : fs) (model_dir content : string) :
  stat f (join_str (parse model_dir) "model.json") = Some (File content) ->
  Utils.load_model Booster xgb_parse f model_dir = xgb_parse content.
Proof.
  intros Hst. unfold Utils.load_model, Utils.Booster_load_model, exists_.
  rewrite Hst. cbn [negb].
  rewrite (parse_to_string _ (model_json_wf model_dir)), Hst. reflexivity.
Qed.

(** C6: [load_model] raises [FileNotFoundError] when the directory holds no
    entry [model.json]; when it holds the file, the result is what the
    boosted-tree library's loader makes of that file, so a file the
    library reads as the ensemble [m] is returned as [m]. *)
Theorem load_model_spec (f : fs) (model_dir : string) :
  (exists_ f (join_str (parse model_dir) "model.json") = false ->
   raises (Utils.load_model Booster xgb_parse f model_dir) FileNotFoundError)
  /\ (forall content,
        stat f (join_str (parse model_dir) "model.json") = Some (File content) ->
        Utils.load_model Booster xgb_parse f model_dir = xgb_parse content)
  /\ (forall content m,
        stat f (join_str (parse model_dir) "model.json") = Some (File content) ->
        xgb_parse content = Ok m ->
        Utils.load_model Booster xgb_parse f model_dir = Ok m).
Proof.
  split; [|split].
  - apply load_model_missing.
  - apply load_model_file.
  - intros content m Hst Hp. rewrite (load_model_file _ _ _ Hst). exact Hp.
Qed.

(** The run of the boosted-tree download when nothing is listed. *)
Lemma empty_download_run
    (st : storage) (bucket_name model_path local_dir : string) (f : fs) :
  list_blobs (st bucket_name) model_path = [] ->
  is_dir f (parent (parse local_dir)) = true ->
  is_file f (parse local_dir) = false ->
  Utils.download_model_from_gcs st bucket_name model_path local_dir f
  = (Ok local_dir,
     if is_dir f (parse local_dir) then f else <[parse local_dir := Dir]> f).
Proof.
  intros Hlist Hpar Hfile. unfold Utils.download_model_from_gcs, bind.
  rewrite (mkdir_exist_ok _ _ Hpar Hfile), Hlist. reflexivity.
Qed.

(** Making the local directory does not make a [model.json] in it. *)
Lemma model_json_after_mkdir (f : fs) (local_dir : string) :
  exists_ f (join_str (parse local_dir) "model.json") = false ->
  exists_ (if is_dir f (parse local_dir) then f else <[parse local_dir := Dir]> f)
          (join_str (parse local_dir) "model.json") = false.
Proof.
  intros Hex. destruct (is_dir f (parse local_dir)); [exact Hex|].
  set (p := parse local_dir) in *.
  unfold exists_, stat in *. rewrite model_json_path in *. cbn [parts] in *.
  destruct (parts p ++ ["model.json"])%list eqn:Happ; [exact Hex|].
  rewrite lookup_insert_ne; [exact Hex|].
  intros Heq. apply (f_equal parts) in Heq. cbn [parts] in Heq.
  apply (f_equal (@List.length string)) in Heq.
  rewrite <- Happ, length_app in Heq. simpl in Heq. lia.
Qed.

(** C10: when the bucket lists nothing under [model_path], the boosted-tree
    download raises nothing, leaves [local_dir] a directory (created when
    absent), writes no file and returns [local_dir]; [load_model] on the
    result then raises [FileNotFoundError] for the absent [model.json].
    The local directory must be creatable: its parent is a directory and
    it is not itself a regular file. *)
Theorem empty_download_then_not_found
    (st : storage) (bucket_name model_path local_dir : string) (f : fs) :
  list_blobs (st bucket_name) model_path = [] ->
  is_dir f (parent (parse local_dir)) = true ->
  is_file f (parse local_dir) = false ->
  exists f',
    Utils.download_model_from_gcs st bucket_name model_path local_dir f
    = (Ok local_dir, f')
    /\ f' = (if is_dir f (parse local_dir) then f else <[parse local_dir := Dir]> f)
    /\ is_dir f' (parse local_dir) = true
    /\ (forall p content, f' !! p = Some (File content) -> f !! p = Some (File content))
    /\ (exists_ f (join_str (parse local_dir) "model.json") = false ->
        raises (Utils.load_model Booster xgb_parse f' local_dir) FileNotFoundError).
Proof.
  intros Hlist Hpar Hfile.
  eexists. split; [apply (empty_download_run _ _ _ _ _ Hlist Hpar Hfile)|].
  split; [reflexivity|].
  split; [|split].
  - destruct (is_dir f (parse local_dir)) eqn:Hd; [exact Hd|].
    unfold is_dir, stat. destruct (parts (parse local_dir)); [reflexivity|].
    rewrite lookup_insert_eq. reflexivity.
  - intros q content Hq. destruct (is_dir f (parse local_dir)); [exact Hq|].
    destruct (decide (parse local_dir = q)) as [<-|Hne].
    + rewrite lookup_insert_eq in Hq. discriminate Hq.
    + rewrite lookup_insert_ne in Hq by exact Hne. exact Hq.
  - intros Hex. apply load_model_missing, model_json_after_mkdir, Hex.
Qed.

End LoadModel.

Lemma load_model_spec_witness :
  exists_ (∅ : fs) (join_str (parse "model") "model.json") = false
  /\ raises (Utils.load_model Q Example.const_parse ∅ "model") FileNotFoundError
  /\ Utils.load_model Q Example.const_parse
       (<[parse "model/model.json" := File "{}"]> ∅) "model" = Ok (1 # 4).
Proof.
  split; [reflexivity|]. split.
  - apply (proj1 (load_model_spec Q Example.const_parse ∅ "model")). reflexivity.
  - apply (proj2 (proj2 (load_model_spec Q Example.const_parse
             (<[parse "model/model.json" := File "{}"]> ∅) "model")) "{}");
      reflexivity.
Defined.

Lemma empty_download_then_not_found_witness :
  list_blobs (Example.empty_store "b") "models/v1" = []
  /\ is_dir (∅ : fs) (parent (parse "model")) = true
  /\ is_file (∅ : fs) (parse "model") = false
  /\ exists f',
       Utils.download_model_from_gcs Example.empty_store "b" "models/v1" "model" ∅
       = (Ok "model", f')
       /\ is_dir f' (parse "model") = true
       /\ raises (Utils.load_model Q Example.const_parse f' "model") FileNotFoundError.
Proof.
  assert (H1 : list_blobs (Example.empty_store "b") "models/v1" = [])
    by reflexivity.
  assert (H2 : is_dir (∅ : fs) (parent (parse "model")) = true) by reflexivity.
  assert (H3 : is_file (∅ : fs) (parse "model") = false) by reflexivity.
  split; [exact H1|]. split; [exact H2|]. split; [exact H3|].
  destruct (empty_download_then_not_found Q Example.const_parse
              Example.empty_store "b" "models/v1" "model" ∅
              H1 H2 H3) as (f' & Hrun & _ & Hdir & _ & Hload).
  exists f'. split; [exact Hrun|]. split; [exact Hdir|].
  apply Hload. reflexivity.
Defined.

End UtilsProps.

(** ** Downloads on concrete buckets *)

Module DownloadExamples.

(** The example of the specification, generic loader: the local directory
    is returned and holds the two objects under their relative paths, with
    the directories made for them; the marker is skipped. *)
Lemma generic_v1_example :
  let run := GcsLoader.download_model_from_gcs Example.v1_store "/tmp/model_0"
               "gs://b/models/v1/" (Some "cache") ∅ in
  fst run = Ok "cache"
  /\ listing (snd run)
     = [ ("cache/meta/info.txt", File "info"); ("cache/model.json", File "{}");
         ("cache", Dir); ("cache/meta", Dir) ].
Proof. split; vm_compute; reflexivity. Qed.

(** The same example, boosted-tree loader. *)
Lemma boosted_v1_example :
  let run := Utils.download_model_from_gcs Example.v1_store "b" "models/v1/"
               "model" ∅ in
  fst run = Ok "model"
  /\ listing (snd run)
     = [ ("model/meta/info.txt", File "info"); ("model/model.json", File "{}");
         ("model", Dir); ("model/meta", Dir) ].
Proof. split; vm_compute; reflexivity. Qed.

(** Directory markers are passed over by the boosted-tree loop. *)
Lemma boosted_loop_skips_markers (model_path local_dir : string) :
  forall (markers rest : list blob) (f : fs),
    List.forallb (fun o => Str.endswith (name o) "/") markers = true ->
    Utils.download_loop model_path local_dir (markers ++ rest) f
    = Utils.download_loop model_path local_dir rest f.
Proof.
  induction markers as [|o markers IH]; intros rest f H; [reflexivity|].
  cbn [List.forallb] in H. apply andb_prop in H as [Ho Hm].
  cbn [List.app Utils.download_loop]. unfold bind, Utils.download_one.
  rewrite Ho. cbn [negb]. unfold ret. apply IH, Hm.
Qed.

(** In general: when the first listed object that is not a marker has a
    path that is not under [model_path], the boosted-tree download raises
    the [ValueError] of [relative_to] and returns no directory. *)
Lemma boosted_download_raises_outside_model_path
    (st : storage) (bucket_name model_path local_dir : string) (f f1 : fs)
    (markers rest : list blob) (o : blob) (e : exn) :
  OS.Path_mkdir (parse local_dir) false true f = (Ok tt, f1) ->
  list_blobs (st bucket_name) model_path = (markers ++ o :: rest)%list ->
  List.forallb (fun m => Str.endswith (name m) "/") markers = true ->
  Str.endswith (name o) "/" = false ->
  relative_to (parse (name o)) (parse model_path) = Raise e ->
  Utils.download_model_from_gcs st bucket_name model_path local_dir f
  = (Raise e, f1).
Proof.
  intros Hmk Hlist Hmarkers Ho Hrel.
  unfold Utils.download_model_from_gcs, bind. rewrite Hmk, Hlist.
  rewrite (boosted_loop_skips_markers _ _ _ _ _ Hmarkers).
  cbn [Utils.download_loop]. unfold bind, Utils.download_one.
  rewrite Ho. cbn [negb]. unfold bind, lift. rewrite Hrel. reflexivity.
Qed.

(** C5 (failing input): with the model path [models/v1] and a bucket that
    also holds [models/v10/model.json], the boosted-tree loader lists both
    objects, downloads the first and raises [ValueError] at the second,
    whose path is not under [models/v1]; the generic loader, which lists
    with the prefix [models/v1/], downloads the one object and returns. *)
Theorem boosted_download_raises_on_sibling_prefix :
  let boosted := Utils.download_model_from_gcs Example.two_versions_store "b"
                   "models/v1" "model" ∅ in
  let generic := GcsLoader.download_model_from_gcs Example.two_versions_store
                   "/tmp/model_0" "gs://b/models/v1" (Some "model") ∅ in
  List.map name (list_blobs (Example.two_versions_store "b") "models/v1")
  = [ "models/v1/model.json"; "models/v10/model.json" ]
  /\ fst boosted
     = Raise (Exn ValueError
                "'models/v10/model.json' is not in the subpath of 'models/v1'")
  /\ listing (snd boosted) = [ ("model/model.json", File "{}"); ("model", Dir) ]
  /\ fst generic = Ok "model"
  /\ listing (snd generic) = [ ("model/model.json", File "{}"); ("model", Dir) ].
Proof. repeat split; vm_compute; reflexivity. Qed.

End DownloadExamples.

(** ** The prediction service *)

Module ServiceProps.

Import Service.

Section WithModel.

Variable lib : coercions.
Variable Booster : Type.
Variable Booster_predict : Booster -> list PredictionInput -> result (list Q).

Ltac case_field :=
  match goal with
  | |- context [dict_get ?k ?items] =>
      destruct (dict_get k items) as [?v|]; cbn [rbind is_ok andb]; [|reflexivity]
  end;
  match goal with
  | |- context [as_float lib ?v] =>
      destruct (as_float lib v) as [?x|]; cbn [rbind is_ok andb]; [|reflexivity]
  | |- context [as_int lib ?v] =>
      destruct (as_int lib v) as [?z|]; cbn [rbind is_ok andb]; [|reflexivity]
  end.

Ltac case_range :=
  match goal with
  | |- context [((?lo <=? ?z)%Z && (?z <=? ?hi)%Z)%bool] =>
      destruct ((lo <=? z)%Z && (z <=? hi)%Z)%bool;
      cbn [rbind is_ok andb]; [|reflexivity]
  end.

(** The validation of a body succeeds exactly on the mappings that have
    every field of the schema, of the right type and in range. *)
Lemma validate_ok_iff (body : value) :
  is_ok (validate_PredictionInput lib body) = body_ok lib body.
Proof.
  destruct body as [| | | | | |items]; try reflexivity.
  unfold validate_PredictionInput, body_ok, schema.
  cbn [as_dict List.forallb].
  unfold field_ok, required, check_ge_le, invalid. cbn [fst snd].
  do 6 case_field.
  case_field. case_range.
  case_field. case_range.
  case_field. case_range.
  reflexivity.
Qed.

Lemma validate_ok_inv (body : value) :
  body_ok lib body = true -> exists inp, validate_PredictionInput lib body = Ok inp.
Proof.
  rewrite <- validate_ok_iff.
  destruct (validate_PredictionInput lib body) as [inp|e]; [eauto | discriminate].
Qed.

Lemma validate_fail_inv (body : value) :
  body_ok lib body = false -> exists e, validate_PredictionInput lib body = Raise e.
Proof.
  rewrite <- validate_ok_iff.
  destruct (validate_PredictionInput lib body) as [inp|e]; [discriminate | eauto].
Qed.

Lemma field_not_ok_bad (items : list (string * value)) (fld : string * field_kind) :
  In fld schema -> field_ok lib items fld = false ->
  missing_field items \/ rejected_field lib items \/ out_of_range_field lib items.
Proof.
  intros Hin. destruct fld as [key kind]. unfold field_ok. cbn [fst snd].
  destruct (dict_get key items) as [v|] eqn:Hget.
  - destruct kind as [|range].
    + destruct (as_float lib v) eqn:Hc; [discriminate|]. intros _.
      right. left. exists key, v. auto.
    + destruct (as_int lib v) as [z|] eqn:Hc.
      * destruct range as [[lo hi]|]; [|discriminate]. intros Hr.
        right. right. exists key, lo, hi, v, z.
        repeat (split; [assumption|]).
        apply andb_false_iff in Hr as [Hr | Hr]; apply Z.leb_gt in Hr; auto.
      * intros _. right. left. exists key, v. eauto.
  - intros _. left. exists (key, kind). auto.
Qed.

Lemma bad_field_not_ok (items : list (string * value)) :
  missing_field items \/ rejected_field lib items \/ out_of_range_field lib items ->
  exists fld, In fld schema /\ field_ok lib items fld = false.
Proof.
  intros [(fld & Hin & Hget) | [(key & v & Hget & Hty) | (key & lo & hi & v & z & Hin & Hget & Hc & Hr)]].
  - exists fld. split; [exact Hin|]. unfold field_ok. rewrite Hget. reflexivity.
  - destruct Hty as [[Hin Hc] | (range & Hin & Hc)].
    + exists (key, FloatField). split; [exact Hin|].
      unfold field_ok. cbn [fst snd]. rewrite Hget, Hc. reflexivity.
    + exists (key, IntField range). split; [exact Hin|].
      unfold field_ok. cbn [fst snd]. rewrite Hget, Hc. reflexivity.
  - exists (key, IntField (Some (lo, hi))). split; [exact Hin|].
    unfold field_ok. cbn [fst snd]. rewrite Hget, Hc.
    apply andb_false_iff. destruct Hr as [Hr | Hr]; [left | right];
      apply Z.leb_gt; exact Hr.
Qed.

(** A body fails the schema exactly when it is not a mapping or has a
    field that is missing, not taken by the library for its type, or out
    of range. *)
Lemma body_ok_false_iff (body : value) :
  body_ok lib body = false <-> bad_body lib body.
Proof.
  destruct body as [| | | | | |items]; cbn [body_ok bad_body]; try tauto.
  split.
  - intros H.
    destruct (List.forallb (field_ok lib items) schema) eqn:Hall; [discriminate|].
    assert (Hex : exists fld, In fld schema /\ field_ok lib items fld = false).
    { clear H. revert Hall. generalize schema. intros l.
      induction l as [|fld l IH]; [discriminate|].
      cbn [List.forallb]. destruct (field_ok lib items fld) eqn:Hf.
      - intros Hl. destruct (IH Hl) as (x & Hin & Hx). exists x. split; [right|]; auto.
      - intros _. exists fld. split; [left|]; auto. }
    destruct Hex as (fld & Hin & Hf). exact (field_not_ok_bad _ _ Hin Hf).
  - intros Hbad. destruct (bad_field_not_ok _ Hbad) as (fld & Hin & Hf).
    destruct (List.forallb (field_ok lib items) schema) eqn:Hall; [|reflexivity].
    rewrite forallb_forall in Hall. rewrite (Hall _ Hin) in Hf. discriminate Hf.
Qed.

(** A failing body is answered 422 without a scoring call. *)
Lemma bad_body_422 (g : globals Booster) (body : value) :
  bad_body lib body ->
  exists detail, predict lib Booster Booster_predict g body = (HTTPError 422 detail, []).
Proof.
  intros Hbad. apply body_ok_false_iff in Hbad.
  destruct (validate_fail_inv _ Hbad) as [e He].
  unfold predict. rewrite He. eauto.
Qed.

Lemma threshold_spec (p : Q) :
  ((1 # 2 <= p)%Q -> threshold p = 1%Z) /\ ((p < 1 # 2)%Q -> threshold p = 0%Z).
Proof.
  unfold threshold. destruct (Qle_bool (1 # 2) p) eqn:H.
  - split; [reflexivity|]. intros Hlt. apply Qle_bool_iff in H.
    exfalso. apply (Qlt_not_le _ _ Hlt H).
  - split; [|reflexivity]. intros Hle. apply Qle_bool_iff in Hle.
    rewrite Hle in H. discriminate H.
Qed.

(** C3 (amended): a valid request served by a loaded model whose scoring
    returns is answered with the model's score as [churn_probability],
    unchanged (so in [0,1] when the score is), with [churn_prediction] 1
    when the score is at least 0.5 and 0 otherwise, and with the global
    version label; the rows of the request are scored once. *)
Theorem predict_response (g : globals Booster) (body : value)
    (input_data : PredictionInput) (m : Booster) (version : string)
    (p : Q) (others : list Q) :
  validate_PredictionInput lib body = Ok input_data ->
  model g = Some m ->
  g_model_version g = Some version ->
  Booster_predict m [input_data] = Ok (p :: others) ->
  exists out,
    predict lib Booster Booster_predict g body = (Success out, [[input_data]])
    /\ churn_probability out = p
    /\ ((0 <= p <= 1)%Q -> (0 <= churn_probability out <= 1)%Q)
    /\ ((1 # 2 <= churn_probability out)%Q -> churn_prediction out = 1%Z)
    /\ ((churn_probability out < 1 # 2)%Q -> churn_prediction out = 0%Z)
    /\ model_version out = version.
Proof.
  intros Hv Hm Hver Hp.
  exists {| churn_probability := p; churn_prediction := threshold p;
            model_version := version |}.
  split.
  { unfold predict, predict_handler. rewrite Hv, Hm, Hp, Hver. reflexivity. }
  cbn [churn_probability churn_prediction model_version].
  destruct (threshold_spec p) as [H1 H0].
  repeat split; auto; tauto.
Qed.

Lemma validate_from_length {A} (validate : value -> result A) :
  forall items i inputs,
    validate_from i validate items = Ok inputs ->
    List.length inputs = List.length items.
Proof.
  induction items as [|v items IH]; intros i inputs H.
  - injection H as <-. reflexivity.
  - cbn [validate_from] in H. destruct (validate v) as [a|e]; [|discriminate H].
    cbn [at_item rbind] in H.
    destruct (validate_from (S i) validate items) as [others|e] eqn:Hrest;
      [|discriminate H].
    injection H as <-. cbn [List.length]. f_equal. apply (IH _ _ Hrest).
Qed.

Lemma validate_all_length {A} (validate : value -> result A) :
  forall items inputs,
    validate_all validate items = Ok inputs ->
    List.length inputs = List.length items.
Proof. intros items inputs. apply validate_from_length. Qed.

Lemma outputs_of_loaded (version : string) : forall scores,
  outputs_of (Some version) scores = Ok (List.map (output_of version) scores).
Proof.
  induction scores as [|p scores IH]; [reflexivity|].
  cbn [outputs_of make_PredictionOutput rbind List.map]. rewrite IH. reflexivity.
Qed.

(** C1 (amended): the batch endpoint accepts a bare JSON list of requests
    only.  With a model loaded and one score returned per row, the list is
    answered with one response per request, the response at each position
    built from the score at that position; the same list wrapped in an
    object (under [instances] or any other key) is answered 422 without a
    scoring call. *)
Theorem predict_batch_shapes (g : globals Booster) (items : list value)
    (inputs : list PredictionInput) (m : Booster) (version : string)
    (scores : list Q) :
  validate_all (validate_PredictionInput lib) items = Ok inputs ->
  model g = Some m ->
  g_model_version g = Some version ->
  Booster_predict m inputs = Ok scores ->
  List.length scores = List.length inputs ->
  (exists results,
     predict_batch lib Booster Booster_predict g (VList items)
     = (Success results, [inputs])
     /\ List.length results = List.length items
     /\ results = List.map (output_of version) scores)
  /\ (forall key,
        predict_batch lib Booster Booster_predict g (VDict [(key, VList items)])
        = (HTTPError 422 "Input should be a valid list", [])).
Proof.
  intros Hv Hm Hver Hs Hlen. split; [|reflexivity].
  exists (List.map (output_of version) scores). split; [|split].
  - unfold predict_batch, validate_PredictionInput_list, predict_batch_handler.
    cbn [as_list]. rewrite Hv, Hm, Hs, Hver. cbn [rbind].
    rewrite outputs_of_loaded. reflexivity.
  - rewrite length_map, Hlen. apply (validate_all_length _ _ _ Hv).
  - reflexivity.
Qed.

End WithModel.

(** The lax mode takes no null, list or mapping for a scalar field. *)
Lemma lax_never_coerced read_float read_int read_bool (v : value) :
  never_coerced v = true ->
  as_float (lax read_float read_int read_bool) v = None
  /\ as_int (lax read_float read_int read_bool) v = None.
Proof. destruct v; try discriminate; split; reflexivity. Qed.

(** The strict coercions take exactly the values of the right JSON type. *)
Lemma strict_wrong_typed (kind : field_kind) (v : value) :
  wrong_typed kind v = true ->
  match kind with
  | FloatField => as_float strict v = None
  | IntField _ => as_int strict v = None
  end.
Proof. destruct kind, v; try discriminate; reflexivity. Qed.

(** C2 (amended): a body that is not a mapping, or lacks a required field,
    or has a field whose value the schema library does not take for the
    declared type, or has a bounded field out of range, is answered 422
    without any scoring call; a valid body with no model loaded is
    answered 503 (not 500), again without a scoring call; a valid body
    whose scoring raises [e] is answered 500 with the text of [e].  With
    the library's lax mode, whatever its readers of strings, a null, a
    list or a mapping in any of the nine fields is such a value.  With
    strict coercions, so is every value of the wrong JSON type. *)
Theorem predict_failure_statuses (lib : coercions) (Booster : Type)
    (Booster_predict : Booster -> list PredictionInput -> result (list Q))
    (g : globals Booster) (body : value) :
  (bad_body lib body ->
   exists detail, predict lib Booster Booster_predict g body = (HTTPError 422 detail, []))
  /\ (body_ok lib body = true -> model g = None ->
      predict lib Booster Booster_predict g body
      = (HTTPError 503 "Model not loaded", []))
  /\ (body_ok lib body = true ->
      exists input_data,
        validate_PredictionInput lib body = Ok input_data
        /\ forall m e,
             model g = Some m ->
             Booster_predict m [input_data] = Raise e ->
             predict lib Booster Booster_predict g body
             = (HTTPError 500 (str_of_exn e), [[input_data]]))
  /\ (forall read_float read_int read_bool items key kind v,
        body = VDict items ->
        In (key, kind) schema -> dict_get key items = Some v ->
        never_coerced v = true ->
        exists detail,
          predict (lax read_float read_int read_bool) Booster Booster_predict g body
          = (HTTPError 422 detail, []))
  /\ (forall items,
        body = VDict items -> wrong_typed_field items ->
        exists detail,
          predict strict Booster Booster_predict g body = (HTTPError 422 detail, [])).
Proof.
  split; [|split; [|split; [|split]]].
  - apply bad_body_422.
  - intros Hok Hnone. destruct (validate_ok_inv _ _ Hok) as [inp Hinp].
    unfold predict, predict_handler. rewrite Hinp, Hnone. reflexivity.
  - intros Hok. destruct (validate_ok_inv _ _ Hok) as [inp Hinp].
    exists inp. split; [exact Hinp|]. intros m e Hm Hraise.
    unfold predict, predict_handler. rewrite Hinp, Hm, Hraise. reflexivity.
  - intros read_float read_int read_bool items key kind v -> Hin Hget Hnever.
    apply bad_body_422. right. left. exists key, v. split; [exact Hget|].
    destruct (lax_never_coerced read_float read_int read_bool v Hnever) as [Hf Hi].
    destruct kind as [|range]; [left | right]; eauto.
  - intros items -> (key & kind & v & Hin & Hget & Hwrong).
    apply bad_body_422. right. left. exists key, v. split; [exact Hget|].
    pose proof (strict_wrong_typed kind v Hwrong) as Hs.
    destruct kind as [|range]; [left | right]; eauto.
Qed.

Lemma predict_failure_statuses_witness :
  bad_body strict Example.missing_body
  /\ bad_body strict Example.month13_body
  /\ body_ok strict Example.sample_body = true
  /\ (exists detail,
        predict strict Q Example.const_predict (Example.loaded (1 # 4))
          Example.missing_body = (HTTPError 422 detail, []))
  /\ (exists detail,
        predict strict Q Example.const_predict (Example.loaded (1 # 4))
          Example.month13_body = (HTTPError 422 detail, []))
  /\ predict strict Q Example.const_predict Example.unloaded Example.sample_body
     = (HTTPError 503 "Model not loaded", [])
  /\ predict strict Q Example.failing_predict (Example.loaded (1 # 4))
       Example.sample_body
     = (HTTPError 500 "feature_names mismatch", [[Example.sample_input]])
  /\ (exists detail,
        predict Example.lax_decimal Q Example.const_predict (Example.loaded (1 # 4))
          Example.null_body = (HTTPError 422 detail, []))
  /\ (exists detail,
        predict strict Q Example.const_predict (Example.loaded (1 # 4))
          Example.coerced_body = (HTTPError 422 detail, [])).
Proof.
  assert (H1 : bad_body strict Example.missing_body).
  { left. exists ("f_1", FloatField). split; [right; left|]; reflexivity. }
  assert (H2 : bad_body strict Example.month13_body).
  { right. right. exists "calendar_month", 1%Z, 12%Z, (VInt 13), 13%Z.
    split; [do 6 right; left; reflexivity|].
    split; [reflexivity|]. split; [reflexivity|]. right. reflexivity. }
  assert (H3 : body_ok strict Example.sample_body = true) by reflexivity.
  split; [exact H1|]. split; [exact H2|]. split; [exact H3|].
  split; [|split; [|split; [|split; [|split]]]].
  - apply (proj1 (predict_failure_statuses strict Q Example.const_predict
                    (Example.loaded (1 # 4)) Example.missing_body) H1).
  - apply (proj1 (predict_failure_statuses strict Q Example.const_predict
                    (Example.loaded (1 # 4)) Example.month13_body) H2).
  - apply (proj1 (proj2 (predict_failure_statuses strict Q Example.const_predict
                           Example.unloaded Example.sample_body)) H3).
    reflexivity.
  - destruct (proj1 (proj2 (proj2 (predict_failure_statuses strict Q
                              Example.failing_predict (Example.loaded (1 # 4))
                              Example.sample_body))) H3)
      as (inp & Hinp & H500).
    injection Hinp as <-.
    apply (H500 (1 # 4) (Exn XGBoostError "feature_names mismatch"));
      reflexivity.
  - apply (proj1 (proj2 (proj2 (proj2 (predict_failure_statuses strict Q
                    Example.const_predict (Example.loaded (1 # 4))
                    Example.null_body))))
             decimal_of_string integer_of_string bool_of_word
             _ "f_0" FloatField VNull eq_refl).
    + left. reflexivity.
    + reflexivity.
    + reflexivity.
  - apply (proj2 (proj2 (proj2 (proj2 (predict_failure_statuses strict Q
                    Example.const_predict (Example.loaded (1 # 4))
                    Example.coerced_body))))
             _ eq_refl).
    exists "f_0", FloatField, (VStr "1.5").
    split; [left; reflexivity|]. split; reflexivity.
Defined.

(** C2 (counterexample): a body with a string where a float is declared,
    and a float and a boolean where integers are, is of the wrong type in
    three fields, yet the lax mode (with readers of plain decimal
    notation) reads a request from it and the service answers 200 after
    scoring it. *)
Lemma predict_accepts_coerced_types :
  wrong_typed_field Example.coerced_items
  /\ predict Example.lax_decimal Q Example.const_predict (Example.loaded (1 # 4))
       Example.coerced_body
     = (Success (output_of "churn-prediction-model" (1 # 4)),
        [[Example.coerced_input]]).
Proof.
  split; [|reflexivity].
  exists "f_0", FloatField, (VStr "1.5").
  split; [left; reflexivity|]. split; reflexivity.
Qed.

(** C3 (counterexample): an ensemble that scores 2 is answered with the
    probability 2, which is not in [0,1]. *)
Lemma predict_probability_out_of_range :
  exists out,
    predict strict Q Example.const_predict (Example.loaded 2) Example.sample_body
    = (Success out, [[Example.sample_input]])
    /\ ~ (0 <= churn_probability out <= 1)%Q.
Proof.
  eexists. split; [reflexivity|].
  cbn [churn_probability]. intros [_ H]. revert H. apply Qlt_not_le. reflexivity.
Qed.

Lemma predict_response_witness :
  exists out,
    predict strict Q Example.const_predict (Example.loaded (3 # 4))
      Example.sample_body = (Success out, [[Example.sample_input]])
    /\ churn_probability out = 3 # 4
    /\ churn_prediction out = 1%Z
    /\ model_version out = "churn-prediction-model".
Proof.
  destruct (predict_response strict Q Example.const_predict
              (Example.loaded (3 # 4)) Example.sample_body Example.sample_input
              (3 # 4) "churn-prediction-model" (3 # 4) []
              eq_refl eq_refl eq_refl eq_refl)
    as (out & Hrun & Hp & _ & H1 & _ & Hv).
  exists out. split; [exact Hrun|]. split; [exact Hp|]. split; [|exact Hv].
  apply H1. rewrite Hp. discriminate.
Defined.

(** C1 (counterexample): the bare list is answered with a response, the
    same list wrapped under [instances] is answered 422. *)
Lemma predict_batch_rejects_wrapped :
  predict_batch strict Q Example.const_predict (Example.loaded (1 # 4))
    Example.bare_batch
  = (Success [output_of "churn-prediction-model" (1 # 4)], [[Example.sample_input]])
  /\ predict_batch strict Q Example.const_predict (Example.loaded (1 # 4))
       Example.wrapped_batch
     = (HTTPError 422 "Input should be a valid list", []).
Proof. split; reflexivity. Qed.

Lemma predict_batch_shapes_witness :
  (exists results,
     predict_batch strict Q Example.const_predict (Example.loaded (1 # 4))
       (VList [Example.sample_body; Example.sample_body])
     = (Success results, [[Example.sample_input; Example.sample_input]])
     /\ List.length results = 2%nat)
  /\ predict_batch strict Q Example.const_predict (Example.loaded (1 # 4))
       (VDict [("instances", VList [Example.sample_body; Example.sample_body])])
     = (HTTPError 422 "Input should be a valid list", []).
Proof.
  destruct (predict_batch_shapes strict Q Example.const_predict
              (Example.loaded (1 # 4))
              [Example.sample_body; Example.sample_body]
              [Example.sample_input; Example.sample_input]
              (1 # 4) "churn-prediction-model" [1 # 4; 1 # 4]
              eq_refl eq_refl eq_refl eq_refl eq_refl)
    as [(results & Hrun & Hlen & _) Hwrapped].
  split; [|apply Hwrapped].
  exists results. split; [exact Hrun | exact Hlen].
Defined.

End ServiceProps.

(** ** The training configuration *)

Module ValidationProps.

Import Validation.

Lemma Qgtb_true a b : Qgtb a b = true <-> (b < a)%Q.
Proof.
  unfold Qgtb. rewrite negb_true_iff. split.
  - intros H. apply Qnot_le_lt. intros Hle. apply Qle_bool_iff in Hle. congruence.
  - intros H. destruct (Qle_bool a b) eqn:Hb; [|reflexivity].
    apply Qle_bool_iff in Hb. exfalso. apply (Qlt_not_le _ _ H Hb).
Qed.

Lemma Qgtb_false a b : Qgtb a b = false <-> (a <= b)%Q.
Proof.
  unfold Qgtb. rewrite negb_false_iff. apply Qle_bool_iff.
Qed.

Lemma Qgeb_true a b : Qgeb a b = true <-> (b <= a)%Q.
Proof. apply Qle_bool_iff. Qed.

Lemma only_invalid_bind {A B} (r : result A) (k : A -> result B) :
  only_invalid r -> (forall a, only_invalid (k a)) -> only_invalid (rbind r k).
Proof. destruct r as [a|e]; cbn; auto. Qed.

Lemma only_invalid_raises {A} (r : result A) e :
  only_invalid r -> r = Raise e -> raises r ValidationError.
Proof.
  intros H ->. cbn in H. destruct e as [c msg]. cbn in H. subst c.
  exists msg. reflexivity.
Qed.

Section WithCoercions.

Variable lib : coercions.
Variable yaml_safe_load : string -> result value.

Lemma required_invalid {A} (coerce : value -> option A) key items :
  only_invalid (required coerce key items).
Proof.
  unfold required, invalid. destruct (dict_get key items) as [v|]; [|reflexivity].
  destruct (coerce v); cbn; auto.
Qed.

Lemma optional_invalid {A} (coerce : value -> option A) default key items :
  only_invalid (optional coerce default key items).
Proof.
  unfold optional, invalid. destruct (dict_get key items) as [v|]; [|exact I].
  destruct (coerce v); cbn; auto.
Qed.

Lemma submodel_invalid {A} (validate : list (string * value) -> result A) key items :
  (forall sub, only_invalid (validate sub)) ->
  only_invalid (submodel validate key items).
Proof.
  intros H. unfold submodel, invalid.
  destruct (dict_get key items) as [v|]; [|reflexivity].
  destruct (as_dict v); [apply H | reflexivity].
Qed.

Lemma check_gt0_invalid key z : only_invalid (check_gt0 key z).
Proof. unfold check_gt0, invalid. destruct (0 <? z)%Z; cbn; auto. Qed.

Lemma check_ge0_invalid key z : only_invalid (check_ge0 key z).
Proof. unfold check_ge0, invalid. destruct (0 <=? z)%Z; cbn; auto. Qed.

Lemma check_gt0_lt1_invalid key q : only_invalid (check_gt0_lt1 key q).
Proof. unfold check_gt0_lt1, invalid. destruct (_ && _); cbn; auto. Qed.

Lemma validate_fraction_invalid q : only_invalid (validate_fraction q).
Proof. unfold validate_fraction. destruct (Qgtb _ _); cbn; auto. Qed.

Ltac invalid_steps :=
  repeat (apply only_invalid_bind; [|intros]);
  try first [ apply required_invalid | apply optional_invalid
            | apply check_gt0_invalid | apply check_ge0_invalid
            | apply check_gt0_lt1_invalid | apply validate_fraction_invalid
            | exact I ].

Lemma fraction_field_invalid key items : only_invalid (fraction_field lib key items).
Proof. unfold fraction_field. invalid_steps. Qed.

Lemma validate_DataConfig_invalid d : only_invalid (validate_DataConfig lib d).
Proof. unfold validate_DataConfig. invalid_steps. Qed.

Lemma validate_data_splits_invalid d : only_invalid (validate_data_splits d).
Proof. unfold validate_data_splits. destruct (Qgeb _ _); cbn; auto. Qed.

Lemma validate_ranges_invalid : forall items, only_invalid (validate_ranges lib items).
Proof.
  induction items as [|[k v] items IH]; [exact I|].
  cbn [validate_ranges]. unfold invalid.
  destruct (as_dict v) as [sub|]; [|reflexivity].
  apply only_invalid_bind.
  - unfold validate_HyperparameterRange. invalid_steps.
  - intros r. apply only_invalid_bind; [exact IH | intros; exact I].
Qed.

Lemma validate_ModelConfig_invalid items : only_invalid (validate_ModelConfig lib items).
Proof.
  unfold validate_ModelConfig, positive_field.
  invalid_steps.
  unfold invalid. destruct (dict_get "hyperparameter_ranges" items) as [v|]; [|exact I].
  destruct (as_dict v); [apply validate_ranges_invalid | reflexivity].
Qed.

Lemma strings_of_invalid : forall vs, only_invalid (strings_of lib vs).
Proof.
  induction vs as [|v vs IH]; [exact I|].
  cbn [strings_of]. unfold invalid. destruct (as_str lib v); [|reflexivity].
  apply only_invalid_bind; [exact IH | intros; exact I].
Qed.

Lemma validate_FeaturesConfig_invalid items :
  only_invalid (validate_FeaturesConfig lib items).
Proof.
  unfold validate_FeaturesConfig, string_list_field, invalid.
  invalid_steps; try apply strings_of_invalid.
  destruct (Nat.leb _ _); cbn; auto.
Qed.

(** Whatever [Config] rejects, it rejects with a validation error. *)
Lemma validate_Config_invalid items : only_invalid (validate_Config lib items).
Proof.
  unfold validate_Config.
  apply only_invalid_bind.
  { apply submodel_invalid. intros sub. unfold validate_BigQueryConfig. invalid_steps. }
  intros bq. apply only_invalid_bind.
  { apply submodel_invalid. intros sub. unfold validate_GCSConfig. invalid_steps. }
  intros g. apply only_invalid_bind.
  { apply only_invalid_bind.
    - apply submodel_invalid, validate_DataConfig_invalid.
    - apply validate_data_splits_invalid. }
  intros d. apply only_invalid_bind.
  { apply submodel_invalid, validate_ModelConfig_invalid. }
  intros m. apply only_invalid_bind.
  { apply submodel_invalid, validate_FeaturesConfig_invalid. }
  intros ft. exact I.
Qed.

(** What [fraction_field] does with a declared fraction. *)
Lemma fraction_field_declared key d t :
  declared_fraction lib key d = Some t ->
  fraction_field lib key d
  = if Qgtb t 0 && Qgtb 1 t
    then (if Qgtb t (1 # 2)
          then Raise (Exn ValidationError "Fraction should not exceed 0.5")
          else Ok t)
    else invalid ("Input should be greater than 0 and less than 1: " ++ key)%string.
Proof.
  unfold declared_fraction, fraction_field, required, check_gt0_lt1, validate_fraction.
  destruct (dict_get key d) as [x|]; [|discriminate].
  intros ->. cbn [rbind]. destruct (Qgtb t 0 && Qgtb 1 t); reflexivity.
Qed.

Lemma fraction_field_ok key d t :
  fraction_field lib key d = Ok t ->
  declared_fraction lib key d = Some t
  /\ (0 < t)%Q /\ (t < 1)%Q /\ (t <= 1 # 2)%Q.
Proof.
  unfold declared_fraction, fraction_field, required, check_gt0_lt1, validate_fraction,
    invalid.
  destruct (dict_get key d) as [x|]; [|discriminate].
  destruct (as_float lib x) as [q|]; [|discriminate]. cbn [rbind].
  destruct (Qgtb q 0 && Qgtb 1 q) eqn:Hr; [|discriminate]. cbn [rbind].
  destruct (Qgtb q (1 # 2)) eqn:Hh; [discriminate|].
  intros H. injection H as <-.
  apply andb_prop in Hr as [H0 H1].
  apply Qgtb_true in H0, H1. apply Qgtb_false in Hh. auto.
Qed.

Lemma validate_DataConfig_ok d dc :
  validate_DataConfig lib d = Ok dc ->
  fraction_field lib "test_frac" d = Ok (test_frac dc)
  /\ fraction_field lib "val_frac" d = Ok (val_frac dc).
Proof.
  unfold validate_DataConfig.
  destruct (fraction_field lib "test_frac" d) as [t|]; [|discriminate].
  destruct (fraction_field lib "val_frac" d) as [v|]; [|discriminate].
  cbn [rbind].
  destruct (rbind (required (as_int lib) "random_state" d) _) as [r|]; [|discriminate].
  cbn [rbind]. intros H. injection H as <-. auto.
Qed.

(** A configuration that [Config] accepts has a data section that
    [DataConfig] accepts and whose fractions pass the cross-field check. *)
Lemma validate_Config_data items cfg :
  validate_Config lib items = Ok cfg ->
  exists d, data_section items = Some d
            /\ validate_DataConfig lib d = Ok (data cfg)
            /\ Qgeb (test_frac (data cfg) + val_frac (data cfg)) 1 = false.
Proof.
  unfold validate_Config, data_section.
  destruct (submodel (validate_BigQueryConfig lib) "bigquery" items); [|discriminate].
  destruct (submodel (validate_GCSConfig lib) "gcs" items); [|discriminate].
  cbn [rbind]. unfold submodel at 1.
  destruct (dict_get "data" items) as [v|]; [|discriminate].
  destruct (as_dict v) as [d|]; [|discriminate].
  destruct (validate_DataConfig lib d) as [dc|] eqn:Hdc; [|discriminate].
  cbn [rbind]. unfold validate_data_splits.
  destruct (Qgeb (test_frac dc + val_frac dc) 1) eqn:Hsum; [discriminate|].
  cbn [rbind].
  destruct (submodel (validate_ModelConfig lib) "model" items); [|discriminate].
  destruct (submodel (validate_FeaturesConfig lib) "features" items); [|discriminate].
  cbn [rbind]. intros H. injection H as <-. cbn [data].
  exists d. auto.
Qed.

Lemma load_config_inv f config_path cfg :
  load_config lib yaml_safe_load f config_path = Ok cfg ->
  exists text items,
    stat f (parse config_path) = Some (File text)
    /\ yaml_safe_load text = Ok (VDict items)
    /\ validate_Config lib items = Ok cfg.
Proof.
  unfold load_config.
  destruct (stat f (parse config_path)) as [[text|]|]; try discriminate.
  destruct (yaml_safe_load text) as [doc|] eqn:Hy; [|discriminate].
  cbn [rbind]. destruct doc; try discriminate. eauto.
Qed.

Lemma data_section_inv items d :
  data_section items = Some d ->
  exists v, dict_get "data" items = Some v /\ as_dict v = Some d.
Proof.
  unfold data_section. destruct (dict_get "data" items) as [v|]; [|discriminate].
  eauto.
Qed.

(** C4: a configuration that [load_config] returns has both fractions
    strictly between 0 and 1, neither above 0.5, and their sum below 1.
    A configuration mapping whose declared fractions sum to 1 or more, or
    whose validation fraction is 0.6, is rejected with a validation error.
    With both fractions 0.15 and the other sections valid, the
    configuration is returned. *)
Theorem load_config_split_fractions (f : fs) (config_path : string) :
  (forall cfg,
     load_config lib yaml_safe_load f config_path = Ok cfg ->
     (exists text items d,
        stat f (parse config_path) = Some (File text)
        /\ yaml_safe_load text = Ok (VDict items)
        /\ data_section items = Some d
        /\ declared_fraction lib "test_frac" d = Some (test_frac (data cfg))
        /\ declared_fraction lib "val_frac" d = Some (val_frac (data cfg)))
     /\ (0 < test_frac (data cfg))%Q /\ (test_frac (data cfg) < 1)%Q
     /\ (0 < val_frac (data cfg))%Q /\ (val_frac (data cfg) < 1)%Q
     /\ (test_frac (data cfg) <= 1 # 2)%Q /\ (val_frac (data cfg) <= 1 # 2)%Q
     /\ (test_frac (data cfg) + val_frac (data cfg) < 1)%Q)
  /\ (forall text items d t v,
        stat f (parse config_path) = Some (File text) ->
        yaml_safe_load text = Ok (VDict items) ->
        data_section items = Some d ->
        declared_fraction lib "test_frac" d = Some t ->
        declared_fraction lib "val_frac" d = Some v ->
        (1 <= t + v)%Q \/ (v == 6 # 10)%Q ->
        raises (load_config lib yaml_safe_load f config_path) ValidationError)
  /\ (forall text items d bq g m ft t v r,
        stat f (parse config_path) = Some (File text) ->
        yaml_safe_load text = Ok (VDict items) ->
        submodel (validate_BigQueryConfig lib) "bigquery" items = Ok bq ->
        submodel (validate_GCSConfig lib) "gcs" items = Ok g ->
        submodel (validate_ModelConfig lib) "model" items = Ok m ->
        submodel (validate_FeaturesConfig lib) "features" items = Ok ft ->
        data_section items = Some d ->
        declared_fraction lib "test_frac" d = Some t -> (t == 15 # 100)%Q ->
        declared_fraction lib "val_frac" d = Some v -> (v == 15 # 100)%Q ->
        declared_int lib "random_state" d = Some r -> (0 <= r)%Z ->
        load_config lib yaml_safe_load f config_path
        = Ok {| bigquery := bq; gcs := g;
                data := {| test_frac := t; val_frac := v; random_state := r |};
                model := m; features := ft |}).
Proof.
  split; [|split].
  - intros cfg Hload.
    destruct (load_config_inv _ _ _ Hload) as (text & items & Hst & Hy & Hcfg).
    destruct (validate_Config_data _ _ Hcfg) as (d & Hd & Hdc & Hsum).
    destruct (validate_DataConfig_ok _ _ Hdc) as [Ht Hv].
    destruct (fraction_field_ok _ _ _ Ht) as (Hdt & Ht0 & Ht1 & Hth).
    destruct (fraction_field_ok _ _ _ Hv) as (Hdv & Hv0 & Hv1 & Hvh).
    split; [exists text, items, d; auto 10|].
    repeat (split; [assumption|]).
    apply Qnot_le_lt. intros Hle. apply Qgeb_true in Hle. congruence.
  - intros text items d t v Hst Hy Hd Ht Hv Hbad.
    destruct (load_config lib yaml_safe_load f config_path) as [cfg|e] eqn:Hload.
    + exfalso.
      destruct (load_config_inv _ _ _ Hload) as (text' & items' & Hst' & Hy' & Hcfg).
      rewrite Hst in Hst'. injection Hst' as <-.
      rewrite Hy in Hy'. injection Hy' as <-.
      destruct (validate_Config_data _ _ Hcfg) as (d' & Hd' & Hdc & Hsum).
      rewrite Hd in Hd'. injection Hd' as <-.
      destruct (validate_DataConfig_ok _ _ Hdc) as [Hft Hfv].
      destruct (fraction_field_ok _ _ _ Hft) as (Hdt & _).
      destruct (fraction_field_ok _ _ _ Hfv) as (Hdv & _ & _ & Hvh).
      rewrite Ht in Hdt. injection Hdt as Hdt.
      rewrite Hv in Hdv. injection Hdv as Hdv.
      rewrite <- Hdt, <- Hdv in *.
      destruct Hbad as [Hle | Heq].
      * apply Qgeb_true in Hle. congruence.
      * rewrite Heq in Hvh. revert Hvh. apply Qlt_not_le. reflexivity.
    + eapply only_invalid_raises; [|reflexivity].
      unfold load_config in Hload. rewrite Hst, Hy in Hload. cbn [rbind] in Hload.
      rewrite <- Hload. apply validate_Config_invalid.
  - intros text items d bq g m ft t v r Hst Hy Hbq Hg Hm Hft Hd Ht Ht15 Hv Hv15 Hr Hr0.
    unfold load_config. rewrite Hst, Hy. cbn [rbind].
    unfold validate_Config. rewrite Hbq, Hg, Hm, Hft. cbn [rbind].
    destruct (data_section_inv _ _ Hd) as (x & Hx & Hxd).
    unfold submodel. rewrite Hx, Hxd.
    unfold validate_DataConfig.
    rewrite (fraction_field_declared _ _ _ Ht), (fraction_field_declared _ _ _ Hv).
    assert (Hrange : forall q, (q == 15 # 100)%Q ->
              Qgtb q 0 && Qgtb 1 q = true /\ Qgtb q (1 # 2) = false).
    { intros q Hq. split.
      - apply andb_true_intro. split; apply Qgtb_true; rewrite Hq; reflexivity.
      - apply Qgtb_false. rewrite Hq. discriminate. }
    destruct (Hrange t Ht15) as [-> ->]. destruct (Hrange v Hv15) as [-> ->].
    cbn [rbind]. unfold declared_int in Hr. unfold required.
    destruct (dict_get "random_state" d) as [y|]; [|discriminate Hr].
    rewrite Hr. cbn [rbind]. unfold check_ge0.
    apply Z.leb_le in Hr0. rewrite Hr0. cbn [rbind].
    unfold validate_data_splits. cbn [test_frac val_frac].
    assert (Hsum : Qgeb (t + v) 1 = false).
    { destruct (Qgeb (t + v) 1) eqn:Hs; [|reflexivity].
      apply Qgeb_true in Hs. rewrite Ht15, Hv15 in Hs.
      exfalso. revert Hs. apply Qlt_not_le. reflexivity. }
    rewrite Hsum. reflexivity.
Qed.

End WithCoercions.

Lemma load_config_split_fractions_witness :
  (exists cfg,
     load_config strict (Example.yaml_of (Example.config_doc (15 # 100) (15 # 100)))
       Example.config_fs "config.yaml" = Ok cfg
     /\ (test_frac (data cfg) + val_frac (data cfg) < 1)%Q)
  /\ raises (load_config strict (Example.yaml_of (Example.config_doc (1 # 2) (1 # 2)))
               Example.config_fs "config.yaml") ValidationError
  /\ raises (load_config strict (Example.yaml_of (Example.config_doc (15 # 100) (6 # 10)))
               Example.config_fs "config.yaml") ValidationError.
Proof.
  split; [|split].
  - eexists. split.
    + eapply (proj2 (proj2 (load_config_split_fractions strict
                (Example.yaml_of (Example.config_doc (15 # 100) (15 # 100)))
                Example.config_fs "config.yaml")));
        try reflexivity; discriminate.
    + reflexivity.
  - eapply (proj1 (proj2 (load_config_split_fractions strict
              (Example.yaml_of (Example.config_doc (1 # 2) (1 # 2)))
              Example.config_fs "config.yaml")));
      try reflexivity. left. discriminate.
  - eapply (proj1 (proj2 (load_config_split_fractions strict
              (Example.yaml_of (Example.config_doc (15 # 100) (6 # 10)))
              Example.config_fs "config.yaml")));
      try reflexivity. right. reflexivity.
Defined.

End ValidationProps.

(** ** The registry-pull publisher run as a script *)

Module UploadProps.

Import Upload.

Section WithServices.

Variable world : Type.
Variable download_artifacts : string -> world -> result (list (string * string)) * world.
Variable storage_client : string -> world -> result unit * world.
Variable upload_from_filename : string -> string -> string -> world -> result unit * world.
Variable set_tracking_uri : string -> world -> world.

Lemma in_world_calls {A} (op : world -> result A * world) (s : state world) :
  calls (snd (in_world world op s)) = calls s.
Proof. unfold in_world. destruct (op (outside s)). reflexivity. Qed.

Lemma upload_files_calls bucket_name gcs_path : forall files (s : state world),
  calls (snd (upload_files world upload_from_filename bucket_name gcs_path files s))
  = calls s.
Proof.
  induction files as [|[relative_path content] files IH]; intros s; [reflexivity|].
  cbn [upload_files]. unfold bind.
  pose proof (in_world_calls
                (upload_from_filename bucket_name
                   (gcs_path ++ "/" ++ relative_path)%string content) s) as Hc.
  destruct (in_world world _ s) as [[u|e] s']; cbn [snd] in *.
  - rewrite IH. exact Hc.
  - exact Hc.
Qed.

(** One call of [upload_model_to_gcs] adds exactly itself to the calls. *)
Lemma upload_model_to_gcs_calls model_uri bucket_name gcs_path (s : state world) :
  calls (snd (upload_model_to_gcs world download_artifacts storage_client upload_from_filename
                model_uri bucket_name gcs_path s))
  = (calls s ++ [(model_uri, bucket_name, gcs_path)])%list.
Proof.
  unfold upload_model_to_gcs, bind, record_call. cbv beta iota.
  match goal with
  | |- context [in_world world (download_artifacts model_uri) ?s1] =>
      pose proof (in_world_calls (download_artifacts model_uri) s1) as Hc;
      destruct (in_world world (download_artifacts model_uri) s1) as [[files|e] s2]
  end; cbn [snd calls] in *.
  - match goal with
    | |- context [in_world world (storage_client bucket_name) ?s3] =>
        pose proof (in_world_calls (storage_client bucket_name) s3) as Hc';
        destruct (in_world world (storage_client bucket_name) s3) as [[u|e] s4]
    end; cbn [snd calls] in *.
    + rewrite upload_files_calls, Hc'. exact Hc.
    + rewrite Hc'. exact Hc.
  - exact Hc.
Qed.

(** C7: run as a script, the publisher first calls [upload_model_to_gcs]
    with the URI of the stage [Production]; if that call returns, nothing
    more is called; if it raises (whatever the exception), there is one
    more call, with the URI of [latest] and the same bucket and path, whose
    outcome is the outcome of the script.  No run makes more than two
    calls. *)
Theorem main_retries_once (env : string -> option string) (s : state world) :
  let bucket := getenv env "GCS_BUCKET_NAME" "lily-demo-ml-mlflow" in
  let gcs_path := getenv env "GCS_MODEL_PATH" "models/churn-prediction-model" in
  let mlflow_uri := getenv env "MLFLOW_TRACKING_URI" "file://./trainer/mlruns" in
  let started := State (set_tracking_uri mlflow_uri (outside s)) (calls s) in
  let first := upload_model_to_gcs world download_artifacts storage_client upload_from_filename
                 production_uri bucket gcs_path started in
  let run := main world download_artifacts storage_client upload_from_filename set_tracking_uri env s in
  (is_ok (fst first) = true ->
     run = first
     /\ calls (snd run) = (calls s ++ [(production_uri, bucket, gcs_path)])%list)
  /\ (is_ok (fst first) = false ->
        run = upload_model_to_gcs world download_artifacts storage_client upload_from_filename
                latest_uri bucket gcs_path (snd first)
        /\ calls (snd run)
           = (calls s ++ [(production_uri, bucket, gcs_path);
                          (latest_uri, bucket, gcs_path)])%list)
  /\ (List.length (calls (snd run)) <= List.length (calls s) + 2)%nat.
Proof.
  intros bucket gcs_path mlflow_uri started first run.
  assert (Hrun : run = try_except
                         (upload_model_to_gcs world download_artifacts storage_client
                            upload_from_filename production_uri bucket gcs_path)
                         (fun _ => upload_model_to_gcs world download_artifacts storage_client
                                     upload_from_filename latest_uri bucket gcs_path)
                         started) by reflexivity.
  assert (Hfirst : calls (snd first)
                   = (calls s ++ [(production_uri, bucket, gcs_path)])%list)
    by (subst first; rewrite upload_model_to_gcs_calls; reflexivity).
  unfold try_except in Hrun. fold first in Hrun.
  destruct first as [[u|e] s1] eqn:Hf; cbn [fst snd is_ok] in *.
  - split; [intros _; rewrite Hrun; split; [reflexivity | exact Hfirst]|].
    split; [discriminate|].
    rewrite Hrun. cbn [snd]. rewrite Hfirst, length_app. simpl. lia.
  - assert (Hsecond : calls (snd run)
                      = (calls s ++ [(production_uri, bucket, gcs_path);
                                     (latest_uri, bucket, gcs_path)])%list).
    { rewrite Hrun, upload_model_to_gcs_calls, Hfirst, <- app_assoc. reflexivity. }
    split; [discriminate|]. split; [intros _; split; [exact Hrun | exact Hsecond]|].
    rewrite Hsecond, length_app. simpl. lia.
Qed.

End WithServices.

Lemma main_retries_once_witness :
  calls (snd (main _ Example.registry_with_production Example.working_client Example.record_upload
                Example.keep_world Example.no_env Example.fresh_process))
  = [ (production_uri, "lily-demo-ml-mlflow", "models/churn-prediction-model") ]
  /\ calls (snd (main _ Example.registry_without_production Example.working_client Example.record_upload
                   Example.keep_world Example.no_env Example.fresh_process))
     = [ (production_uri, "lily-demo-ml-mlflow", "models/churn-prediction-model");
         (latest_uri, "lily-demo-ml-mlflow", "models/churn-prediction-model") ].
Proof.
  split.
  - apply (proj1 (main_retries_once _ Example.registry_with_production
                    Example.working_client Example.record_upload Example.keep_world Example.no_env
                    Example.fresh_process)).
    reflexivity.
  - apply (proj1 (proj2 (main_retries_once _ Example.registry_without_production
                           Example.working_client Example.record_upload Example.keep_world Example.no_env
                           Example.fresh_process))).
    reflexivity.
Defined.

End UploadProps.

(** ** The feature scaler of the neural-network trainer *)

Module TrainerProps.

Import Trainer.

Section WithLibraries.

Variable num : Type.
Variable fit_stats : matrix num -> result (params num).
Variable apply_scaling : params num -> matrix num -> result (matrix num).
Variable Net : Type.
Variable optimise :
  Net -> matrix num -> labels num -> matrix num -> labels num ->
  nat -> string -> nat -> result Net.

(** [transform] never changes the scaler it is applied with. *)
Lemma transform_keeps_scaler (X : matrix num) (scaler : StandardScaler num) :
  snd (transform num apply_scaling X scaler) = scaler.
Proof. unfold transform. destruct scaler; reflexivity. Qed.

(** What a run of [train_model] that returns has done: the scaler holds
    the statistics of the training matrix, and the optimiser was given
    the training and the validation matrix, both scaled with these
    statistics. *)
Lemma train_model_inv model X_train y_train X_val y_val epochs device seed
    net scaler :
  train_model num fit_stats apply_scaling Net optimise
    model X_train y_train X_val y_val epochs device seed = Ok (net, scaler) ->
  exists p X_train_scaled X_val_scaled,
    fit_stats X_train = Ok p /\ scaler = Some p
    /\ apply_scaling p X_train = Ok X_train_scaled
    /\ apply_scaling p X_val = Ok X_val_scaled
    /\ optimise model X_train_scaled y_train X_val_scaled y_val epochs device seed
       = Ok net.
Proof.
  unfold train_model, fit_transform, transform.
  destruct (fit_stats X_train) as [p|e]; [|discriminate].
  destruct (apply_scaling p X_train) as [Xs|e] eqn:Hs; [|discriminate].
  destruct (apply_scaling p X_val) as [Xv|e] eqn:Hv; [|discriminate].
  destruct (optimise model Xs y_train Xv y_val epochs device seed) as [net'|e] eqn:Ho;
    [|discriminate].
  cbn [rbind]. intros H. injection H as <- <-.
  exists p, Xs, Xv. repeat split; assumption || reflexivity.
Qed.

(** C8: two runs of [train_model] on the same training matrix, whatever
    their validation data (and labels, network, epochs, device, random
    state), return scalers with the same parameters, those fitted on the
    training matrix.  In each run the optimiser is given the training
    matrix and the run's validation matrix both scaled with these
    parameters; applying the scaler to any matrix scales it with these
    parameters and leaves them as they are; the test matrix of [main] is
    scaled with them too, and the scaler that [main] saves is the one
    fitted on the training matrix. *)
Theorem scaler_fit_on_training_only
    (model model' : Net) (X_train : matrix num) (y_train y_train' : labels num)
    (X_val X_val' : matrix num) (y_val y_val' : labels num)
    (epochs epochs' : nat) (device device' : string) (seed seed' : nat)
    (net net' : Net) (scaler scaler' : StandardScaler num) :
  train_model num fit_stats apply_scaling Net optimise
    model X_train y_train X_val y_val epochs device seed = Ok (net, scaler) ->
  train_model num fit_stats apply_scaling Net optimise
    model' X_train y_train' X_val' y_val' epochs' device' seed' = Ok (net', scaler') ->
  scaler = scaler'
  /\ (exists p, fit_stats X_train = Ok p /\ scaler = Some p
        /\ (exists X_train_scaled X_val_scaled,
              apply_scaling p X_train = Ok X_train_scaled
              /\ apply_scaling p X_val = Ok X_val_scaled
              /\ optimise model X_train_scaled y_train X_val_scaled y_val
                   epochs device seed = Ok net)
        /\ (exists X_train_scaled X_val_scaled',
              apply_scaling p X_train = Ok X_train_scaled
              /\ apply_scaling p X_val' = Ok X_val_scaled'
              /\ optimise model' X_train_scaled y_train' X_val_scaled' y_val'
                   epochs' device' seed' = Ok net')
        /\ (forall X, transform num apply_scaling X scaler
                      = (apply_scaling p X, scaler))
        /\ (forall X_test X_test_scaled saved,
              train_and_scale_test num fit_stats apply_scaling Net optimise
                model X_train y_train X_val y_val X_test seed
              = Ok (X_test_scaled, saved) ->
              saved = scaler /\ apply_scaling p X_test = Ok X_test_scaled))
  /\ (forall X, snd (transform num apply_scaling X scaler) = scaler)
  /\ (forall X_test X_test_scaled saved,
        train_and_scale_test num fit_stats apply_scaling Net optimise
          model X_train y_train X_val y_val X_test seed = Ok (X_test_scaled, saved) ->
        saved = scaler).
Proof.
  intros Hrun Hrun'.
  destruct (train_model_inv _ _ _ _ _ _ _ _ _ _ Hrun)
    as (p & Xs & Xv & Hp & -> & Hs & Hv & Ho).
  destruct (train_model_inv _ _ _ _ _ _ _ _ _ _ Hrun')
    as (p' & Xs' & Xv' & Hp' & -> & Hs' & Hv' & Ho').
  rewrite Hp in Hp'. injection Hp' as <-.
  assert (Htest : forall X_test X_test_scaled saved,
             train_and_scale_test num fit_stats apply_scaling Net optimise
               model X_train y_train X_val y_val X_test seed
             = Ok (X_test_scaled, saved) ->
             saved = Some p /\ apply_scaling p X_test = Ok X_test_scaled).
  { intros X_test Xt saved. unfold train_and_scale_test.
    destruct (train_model num fit_stats apply_scaling Net optimise
                model X_train y_train X_val y_val 50 "cpu" seed)
      as [[net0 sc0]|e] eqn:Hrun0; [|discriminate].
    destruct (train_model_inv _ _ _ _ _ _ _ _ _ _ Hrun0)
      as (p0 & _ & _ & Hp0 & -> & _).
    rewrite Hp in Hp0. injection Hp0 as <-.
    cbn [rbind]. unfold transform.
    destruct (apply_scaling p X_test) as [Xt'|e]; [|discriminate].
    intros H. injection H as <- <-. auto. }
  split; [reflexivity|]. split; [|split].
  - exists p. split; [exact Hp|]. split; [reflexivity|].
    split; [exists Xs, Xv; auto|]. split; [exists Xs', Xv'; auto|].
    split; [intros X; reflexivity | exact Htest].
  - intros X. reflexivity.
  - intros X_test Xt saved H. apply (Htest _ _ _ H).
Qed.

End WithLibraries.

Lemma scaler_fit_on_training_only_witness :
  exists net net' scaler,
    train_model Q Example.Q_fit_stats Example.Q_apply_scaling _
      Example.seen_by_optimiser
      ([], []) Example.X_train_demo [0; 1]%Q Example.X_val_demo [1]%Q 50 "cpu" 0
    = Ok (net, scaler)
    /\ train_model Q Example.Q_fit_stats Example.Q_apply_scaling _
         Example.seen_by_optimiser
         ([], []) Example.X_train_demo [0; 1]%Q Example.X_val_demo' [1; 0; 0]%Q
         50 "cpu" 7
       = Ok (net', scaler)
    /\ (exists p, Example.Q_fit_stats Example.X_train_demo = Ok p
                  /\ scaler = Some p
                  /\ Example.Q_apply_scaling p Example.X_val_demo = Ok (snd net)
                  /\ Example.Q_apply_scaling p Example.X_val_demo' = Ok (snd net'))
    /\ Forall2 (Forall2 Qeq) (snd net) [ [98; -13] ]%Q
    /\ Forall2 (Forall2 Qeq) (snd net') [ [-2; -20]; [3; -15]; [7; -11] ]%Q.
Proof.
  eexists. eexists. eexists. split; [reflexivity|]. split; [reflexivity|].
  destruct (scaler_fit_on_training_only Q Example.Q_fit_stats Example.Q_apply_scaling
              _ Example.seen_by_optimiser ([], []) ([], [])
              Example.X_train_demo [0; 1]%Q [0; 1]%Q
              Example.X_val_demo Example.X_val_demo' [1]%Q [1; 0; 0]%Q 50 50
              "cpu" "cpu" 0 7 _ _ _ _ eq_refl eq_refl)
    as (_ & (p & Hfit & Hsc & (Xs & Xv & _ & Hv & Ho) & (Xs' & Xv' & _ & Hv' & Ho') & _) & _).
  split.
  - exists p. split; [exact Hfit|]. split; [exact Hsc|]. split.
    + rewrite Hv. f_equal. injection Ho as _ E. exact E.
    + rewrite Hv'. f_equal. injection Ho' as _ E. exact E.
  - split; repeat constructor; reflexivity.
Defined.

End TrainerProps.

(** ** Startup of the service *)

Module StartupProps.

Import Service.

Section WithModel.

Variable Booster : Type.
Variable xgb_parse : string -> result Booster.

(** A startup that returns has set both globals: the model and, as version
    label, the last segment of the model path. *)
Lemma startup_event_globals (st : storage) (bucket_name model_path : string)
    (f f' : fs) (g : globals Booster) :
  startup_event Booster xgb_parse st bucket_name model_path f = (Ok g, f') ->
  exists m, model g = Some m
            /\ g_model_version g
               = Some (List.last (Str.split Str.slash model_path) "").
Proof.
  unfold startup_event, bind, ret.
  destruct (Utils.download_model_from_gcs st bucket_name model_path "model" f)
    as [[d|e] f1]; [|discriminate].
  destruct (Utils.load_model Booster xgb_parse f1 d) as [m|e]; [|discriminate].
  intros H. injection H as <- _. eauto.
Qed.

(** With nothing stored under the model path, startup fails at
    [load_model], with [FileNotFoundError], after the download returned. *)
Lemma startup_event_without_artifact (st : storage) (bucket_name model_path : string)
    (f : fs) :
  list_blobs (st bucket_name) model_path = [] ->
  is_file f (parse "model") = false ->
  exists_ f (join_str (parse "model") "model.json") = false ->
  raises (fst (startup_event Booster xgb_parse st bucket_name model_path f))
         FileNotFoundError.
Proof.
  intros Hlist Hfile Hex.
  destruct (UtilsProps.load_model_missing Booster xgb_parse _ "model"
              (UtilsProps.model_json_after_mkdir f "model" Hex)) as [msg Hmsg].
  unfold startup_event, bind.
  rewrite (UtilsProps.empty_download_run st bucket_name model_path "model" f
             Hlist eq_refl Hfile), Hmsg.
  exists msg. reflexivity.
Qed.

End WithModel.

End StartupProps.

(** * Further properties *)

(** ** The batch endpoint, the health endpoint and the version label *)

Module ServiceMoreProps.

Import Service ServiceMore.

Section WithModel.

Variable lib : coercions.
Variable Booster : Type.
Variable Booster_predict : Booster -> list PredictionInput -> result (list Q).
Variable xgb_parse : string -> result Booster.

(** The validation of a list succeeds exactly when every item passes the
    schema. *)
Lemma validate_from_ok_iff : forall items i,
  is_ok (validate_from i (validate_PredictionInput lib) items)
  = List.forallb (body_ok lib) items.
Proof.
  induction items as [|v items IH]; intros i; [reflexivity|].
  cbn [validate_from List.forallb].
  rewrite <- (ServiceProps.validate_ok_iff lib v), <- (IH (S i)).
  destruct (validate_PredictionInput lib v) as [a|e]; [|reflexivity].
  cbn [at_item rbind is_ok andb].
  destruct (validate_from (S i) (validate_PredictionInput lib) items); reflexivity.
Qed.

Lemma validate_all_ok_iff : forall items,
  is_ok (validate_all (validate_PredictionInput lib) items)
  = List.forallb (body_ok lib) items.
Proof. intros items. apply validate_from_ok_iff. Qed.

Lemma status_as_batch_of_one {A} (r : response A) :
  status (as_batch_of_one r) = status r.
Proof. destruct r; reflexivity. Qed.

(** X1: the batch endpoint does no partial scoring.  A body that is not a
    list, or a list in which some item fails the schema, is answered 422
    without a scoring call; a valid list with no model loaded is answered
    503 without a scoring call; a valid list whose scoring raises is
    answered 500 with the text of the exception, after one scoring call
    on all the rows. *)
Theorem predict_batch_failure_statuses (g : globals Booster) (body : value) :
  ((forall items, body = VList items ->
      exists item, In item items /\ body_ok lib item = false) ->
   exists detail,
     predict_batch lib Booster Booster_predict g body = (HTTPError 422 detail, []))
  /\ (forall items,
        body = VList items ->
        List.forallb (body_ok lib) items = true ->
        exists inputs,
          validate_all (validate_PredictionInput lib) items = Ok inputs
          /\ List.length inputs = List.length items
          /\ (model g = None ->
              predict_batch lib Booster Booster_predict g body
              = (HTTPError 503 "Model not loaded", []))
          /\ (forall m e,
                model g = Some m ->
                Booster_predict m inputs = Raise e ->
                predict_batch lib Booster Booster_predict g body
                = (HTTPError 500 (str_of_exn e), [inputs]))).
Proof.
  split.
  - intros Hbad. unfold predict_batch, validate_PredictionInput_list.
    destruct body as [| | | | |items|]; try (eexists; reflexivity).
    cbn [as_list]. destruct (Hbad items eq_refl) as (item & Hin & Hitem).
    pose proof (validate_all_ok_iff items) as Hall.
    destruct (validate_all (validate_PredictionInput lib) items) as [inputs|e].
    + exfalso. cbn [is_ok] in Hall. symmetry in Hall.
      rewrite forallb_forall in Hall. rewrite (Hall _ Hin) in Hitem. discriminate.
    + eexists. reflexivity.
  - intros items -> Hok.
    pose proof (validate_all_ok_iff items) as Hall. rewrite Hok in Hall.
    destruct (validate_all (validate_PredictionInput lib) items) as [inputs|e] eqn:Hv;
      [|discriminate Hall].
    exists inputs. split; [reflexivity|].
    split; [apply (ServiceProps.validate_all_length _ _ _ Hv)|].
    split.
    + intros Hnone. unfold predict_batch, validate_PredictionInput_list,
        predict_batch_handler. cbn [as_list]. rewrite Hv, Hnone. reflexivity.
    + intros m e Hm He. unfold predict_batch, validate_PredictionInput_list,
        predict_batch_handler. cbn [as_list]. rewrite Hv, Hm, He. reflexivity.
Qed.

(** X2: a batch of one request is answered as the single request is,
    provided the ensemble returns exactly one score for one row.  The
    status and the scoring calls are the same.  For a request that passes
    the schema the answer is the same failure, or the single response in
    a one-element list; for one that does not, both answers are 422 (the
    details, which locate the error, are not compared). *)
Theorem predict_batch_of_one (g : globals Booster) (body : value) :
  (forall m input_data scores,
     model g = Some m ->
     validate_PredictionInput lib body = Ok input_data ->
     Booster_predict m [input_data] = Ok scores ->
     List.length scores = 1%nat) ->
  let single := predict lib Booster Booster_predict g body in
  let batch := predict_batch lib Booster Booster_predict g (VList [body]) in
  status (fst batch) = status (fst single)
  /\ snd batch = snd single
  /\ (forall input_data,
        validate_PredictionInput lib body = Ok input_data ->
        batch = (as_batch_of_one (fst single), snd single))
  /\ (forall e,
        validate_PredictionInput lib body = Raise e ->
        (exists detail, single = (HTTPError 422 detail, []))
        /\ (exists detail, batch = (HTTPError 422 detail, []))).
Proof.
  intros Hone single batch.
  assert (Hvalid : forall input_data,
             validate_PredictionInput lib body = Ok input_data ->
             batch = (as_batch_of_one (fst single), snd single)).
  { intros inp Hv. subst single batch.
    unfold predict_batch, validate_PredictionInput_list, predict, validate_all.
    cbn [as_list validate_from]. rewrite Hv.
    cbn [at_item rbind]. unfold predict_batch_handler, predict_handler.
    destruct (model g) as [m|] eqn:Hm; [|reflexivity].
    destruct (Booster_predict m [inp]) as [scores|e] eqn:Hs; [|reflexivity].
    specialize (Hone m inp scores eq_refl Hv Hs).
    destruct scores as [|p [|q scores]]; try discriminate Hone.
    cbn [rbind outputs_of].
    destruct (make_PredictionOutput p (threshold p) (g_model_version g)); reflexivity. }
  assert (Hinvalid : forall e,
             validate_PredictionInput lib body = Raise e ->
             (exists detail, single = (HTTPError 422 detail, []))
             /\ (exists detail, batch = (HTTPError 422 detail, []))).
  { intros e He. subst single batch.
    unfold predict_batch, validate_PredictionInput_list, predict, validate_all.
    cbn [as_list validate_from]. rewrite He. cbn [at_item rbind]. eauto. }
  destruct (validate_PredictionInput lib body) as [inp|e] eqn:Hv.
  - rewrite (Hvalid inp eq_refl). cbn [fst snd].
    rewrite status_as_batch_of_one.
    split; [reflexivity|]. split; [reflexivity|]. split; [reflexivity|].
    intros e He. discriminate He.
  - destruct (Hinvalid e eq_refl) as [[d1 H1] [d2 H2]].
    rewrite H1, H2. cbn [fst snd status].
    split; [reflexivity|]. split; [reflexivity|]. split; [discriminate|].
    intros e' _. eauto.
Qed.

Lemma split_last_segment (v : string) :
  noslashb v = true ->
  forall dir, exists w l,
    Str.split Str.slash (dir ++ String Str.slash v) = (w :: l ++ [v])%list.
Proof.
  intros Hv. induction dir as [|c dir IH].
  - exists "", []. rewrite StrFacts.append_nil. cbn [Str.split].
    rewrite Ascii.eqb_refl, (PathFacts.split_single _ Hv). reflexivity.
  - destruct IH as (w & l & Hl). rewrite StrFacts.append_cons. cbn [Str.split].
    rewrite Hl. destruct (Ascii.eqb c Str.slash).
    + exists "", (w :: l). reflexivity.
    + exists (String c w), l. reflexivity.
Qed.

(** X3: after a startup that returned, the service is healthy and the
    version label it reports and stamps on responses is the part of the
    model path after its last slash (the whole path when it has none), so
    a model path that ends with a slash gives the empty label. *)
Theorem version_label_after_startup (st : storage) (bucket_name model_path : string)
    (f f' : fs) (g : globals Booster) :
  startup_event Booster xgb_parse st bucket_name model_path f = (Ok g, f') ->
  status_text (health g) = "healthy"
  /\ model_loaded (health g) = true
  /\ health_model_version (health g) = g_model_version g
  /\ (forall v, noslashb v = true ->
        model_path = v \/ (exists dir, model_path = (dir ++ String Str.slash v)%string) ->
        g_model_version g = Some v)
  /\ (Str.endswith model_path "/" = true -> g_model_version g = Some "").
Proof.
  intros Hrun.
  destruct (StartupProps.startup_event_globals _ _ _ _ _ _ _ _ Hrun) as (m & Hm & Hver).
  assert (Hlabel : forall v, noslashb v = true ->
            model_path = v \/ (exists dir, model_path = (dir ++ String Str.slash v)%string) ->
            g_model_version g = Some v).
  { intros v Hv [-> | [dir ->]]; rewrite Hver; f_equal.
    - rewrite (PathFacts.split_single _ Hv). reflexivity.
    - destruct (split_last_segment v Hv dir) as (w & l & ->).
      change (w :: l ++ [v])%list with ((w :: l) ++ [v])%list. apply last_last. }
  unfold health. rewrite Hm. repeat split; try assumption.
  intros Hend. apply Hlabel; [reflexivity|]. right.
  clear -Hend. induction model_path as [|c s IH]; [discriminate Hend|].
  cbn [Str.endswith] in Hend.
  destruct (String.eqb_spec (String c s) "/") as [Heq|Hne].
  - exists "". exact Heq.
  - destruct (IH Hend) as [dir ->]. exists (String c dir). reflexivity.
Qed.

End WithModel.

Lemma predict_batch_failure_statuses_witness :
  (exists detail,
     predict_batch strict Q Example.const_predict (Example.loaded (1 # 4))
       (VList [Example.sample_body; Example.month13_body])
     = (HTTPError 422 detail, []))
  /\ predict_batch strict Q Example.const_predict Example.unloaded
       (VList [Example.sample_body]) = (HTTPError 503 "Model not loaded", [])
  /\ predict_batch strict Q Example.failing_predict (Example.loaded (1 # 4))
       (VList [Example.sample_body])
     = (HTTPError 500 "feature_names mismatch", [[Example.sample_input]]).
Proof.
  split; [|split].
  - apply (proj1 (predict_batch_failure_statuses strict Q Example.const_predict
                    (Example.loaded (1 # 4))
                    (VList [Example.sample_body; Example.month13_body]))).
    intros items Hitems. injection Hitems as <-.
    exists Example.month13_body. split; [right; left|]; reflexivity.
  - destruct (proj2 (predict_batch_failure_statuses strict Q Example.const_predict
                       Example.unloaded (VList [Example.sample_body]))
                [Example.sample_body] eq_refl eq_refl)
      as (inputs & _ & _ & H503 & _).
    apply H503. reflexivity.
  - destruct (proj2 (predict_batch_failure_statuses strict Q Example.failing_predict
                       (Example.loaded (1 # 4)) (VList [Example.sample_body]))
                [Example.sample_body] eq_refl eq_refl)
      as (inputs & Hinputs & _ & _ & H500).
    injection Hinputs as <-.
    apply (H500 (1 # 4) (Exn XGBoostError "feature_names mismatch")); reflexivity.
Defined.

Lemma predict_batch_of_one_witness :
  predict_batch strict Q Example.const_predict (Example.loaded (3 # 4))
    (VList [Example.sample_body])
  = (Success [output_of "churn-prediction-model" (3 # 4)], [[Example.sample_input]]).
Proof.
  destruct (predict_batch_of_one strict Q Example.const_predict
              (Example.loaded (3 # 4)) Example.sample_body) as (_ & _ & Hvalid & _).
  - intros m inp scores _ _ Hs. injection Hs as <-. reflexivity.
  - rewrite (Hvalid Example.sample_input eq_refl). reflexivity.
Defined.

Lemma version_label_after_startup_witness :
  exists g,
    fst (startup_event Q Example.const_parse Example.v1_store "b" "models/v1/" ∅)
    = Ok g
    /\ status_text (health g) = "healthy"
    /\ g_model_version g = Some "".
Proof.
  destruct (startup_event Q Example.const_parse Example.v1_store "b" "models/v1/" ∅)
    as [r f'] eqn:Hrun.
  assert (Hr : r = Ok (Globals (Some (1 # 4)) (Some ""))).
  { change r with (fst (r, f')). rewrite <- Hrun. vm_compute. reflexivity. }
  subst r. eexists. split; [reflexivity|].
  destruct (version_label_after_startup Q Example.const_parse Example.v1_store
              "b" "models/v1/" ∅ f' _ Hrun) as (Hs & _ & _ & _ & Hv).
  split; [exact Hs|]. apply Hv. reflexivity.
Defined.

End ServiceMoreProps.

(** ** The training configuration: what is accepted and how it fails *)

Module ValidationMoreProps.

Import Validation ValidationMore ValidationProps.

Section WithCoercions.

Variable lib : coercions.
Variable yaml_safe_load : string -> result value.

Lemma submodel_ok {A} (validate : list (string * value) -> result A) key items a :
  submodel validate key items = Ok a ->
  exists sub, dict_get key items = Some (VDict sub) /\ validate sub = Ok a.
Proof.
  unfold submodel. destruct (dict_get key items) as [v|]; [|discriminate].
  destruct v; try discriminate. cbn [as_dict]. eauto.
Qed.

Lemma validate_Config_sections items cfg :
  validate_Config lib items = Ok cfg ->
  (exists d, dict_get "data" items = Some (VDict d)
             /\ validate_DataConfig lib d = Ok (data cfg))
  /\ (exists m, dict_get "model" items = Some (VDict m)
                /\ validate_ModelConfig lib m = Ok (model cfg))
  /\ (exists ft, dict_get "features" items = Some (VDict ft)
                 /\ validate_FeaturesConfig lib ft = Ok (features cfg)).
Proof.
  unfold validate_Config.
  destruct (submodel (validate_BigQueryConfig lib) "bigquery" items); [|discriminate].
  destruct (submodel (validate_GCSConfig lib) "gcs" items); [|discriminate].
  cbn [rbind].
  destruct (submodel (validate_DataConfig lib) "data" items) as [d|] eqn:Hd;
    [|discriminate].
  cbn [rbind]. unfold validate_data_splits.
  destruct (Qgeb (test_frac d + val_frac d) 1); [discriminate|]. cbn [rbind].
  destruct (submodel (validate_ModelConfig lib) "model" items) as [m|] eqn:Hm;
    [|discriminate].
  destruct (submodel (validate_FeaturesConfig lib) "features" items) as [ft|] eqn:Hft;
    [|discriminate].
  cbn [rbind]. intros H. injection H as <-. cbn [data model features].
  split; [exact (submodel_ok _ _ _ _ Hd)|].
  split; [exact (submodel_ok _ _ _ _ Hm) | exact (submodel_ok _ _ _ _ Hft)].
Qed.

Lemma positive_field_ok key items z :
  positive_field lib key items = Ok z -> (0 < z)%Z.
Proof.
  unfold positive_field, required, check_gt0, invalid.
  destruct (dict_get key items) as [v|]; [|discriminate].
  destruct (as_int lib v) as [n|]; [|discriminate]. cbn [rbind].
  destruct (0 <? n)%Z eqn:Hn; [|discriminate].
  intros H. injection H as <-. apply Z.ltb_lt, Hn.
Qed.

(** X4: every configuration that [load_config] returns has a positive
    number of trials, of boosting rounds and of early-stopping rounds, a
    random state that is not negative, and at least one numeric feature,
    so that its list of all features starts with the numeric ones and is
    not empty. *)
Theorem load_config_accepted (f : fs) (config_path : string) (cfg : Config) :
  load_config lib yaml_safe_load f config_path = Ok cfg ->
  (0 < n_trials (model cfg))%Z
  /\ (0 < num_boost_round (model cfg))%Z
  /\ (0 < early_stopping_rounds (model cfg))%Z
  /\ (0 <= random_state (data cfg))%Z
  /\ (1 <= List.length (numeric (features cfg)))%nat
  /\ all_features (features cfg)
     = (numeric (features cfg) ++ categorical (features cfg))%list
  /\ all_features (features cfg) <> [].
Proof.
  intros Hload.
  destruct (load_config_inv _ _ _ _ _ Hload) as (text & items & _ & _ & Hcfg).
  destruct (validate_Config_sections _ _ Hcfg)
    as ((d & _ & Hd) & (m & _ & Hm) & (ft & _ & Hft)).
  assert (Hmodel : (0 < n_trials (model cfg))%Z
                   /\ (0 < num_boost_round (model cfg))%Z
                   /\ (0 < early_stopping_rounds (model cfg))%Z).
  { revert Hm. unfold validate_ModelConfig.
    destruct (positive_field lib "n_trials" m) as [n|] eqn:Hn; [|discriminate].
    destruct (positive_field lib "num_boost_round" m) as [b|] eqn:Hb; [|discriminate].
    destruct (positive_field lib "early_stopping_rounds" m) as [e|] eqn:He;
      [|discriminate].
    cbn [rbind].
    destruct (optional as_dict [] "fixed_params" m); [|discriminate]. cbn [rbind].
    destruct (match dict_get "hyperparameter_ranges" m with
              | Some v => _ | None => _ end); [|discriminate].
    cbn [rbind]. intros H. injection H as <-.
    cbn [n_trials num_boost_round early_stopping_rounds].
    split; [|split]; eapply positive_field_ok; eassumption. }
  assert (Hstate : (0 <= random_state (data cfg))%Z).
  { revert Hd. unfold validate_DataConfig.
    destruct (fraction_field lib "test_frac" d); [|discriminate].
    destruct (fraction_field lib "val_frac" d); [|discriminate]. cbn [rbind].
    unfold required, check_ge0, invalid.
    destruct (dict_get "random_state" d) as [v|]; [|discriminate].
    destruct (as_int lib v) as [z|]; [|discriminate]. cbn [rbind].
    destruct (0 <=? z)%Z eqn:Hz; [|discriminate]. cbn [rbind].
    intros H. injection H as <-. apply Z.leb_le, Hz. }
  assert (Hnum : (1 <= List.length (numeric (features cfg)))%nat).
  { revert Hft. unfold validate_FeaturesConfig.
    destruct (string_list_field lib "numeric" ft) as [l|]; [|discriminate].
    cbn [rbind]. destruct (Nat.leb 1 (List.length l)) eqn:Hl; [|discriminate].
    cbn [rbind].
    destruct (string_list_field lib "categorical" ft); [|discriminate].
    cbn [rbind]. intros H. injection H as <-. apply Nat.leb_le, Hl. }
  destruct Hmodel as (H1 & H2 & H3).
  repeat (split; [assumption|]). split; [reflexivity|].
  unfold all_features. destruct (numeric (features cfg)); [simpl in Hnum; lia|].
  discriminate.
Qed.

Lemma submodel_missing {A} (validate : list (string * value) -> result A) key items :
  dict_get key items = None ->
  exists e, submodel validate key items = Raise e.
Proof. unfold submodel. intros ->. eexists. reflexivity. Qed.





End WithCoercions.

Lemma load_config_accepted_witness :
  exists cfg,
    load_config strict (Example.yaml_of (Example.config_doc (15 # 100) (15 # 100)))
      Example.config_fs "config.yaml" = Ok cfg
    /\ (0 < n_trials (model cfg))%Z
    /\ all_features (features cfg) = [ "f_0"; "f_1"; "signup_month" ].
Proof.
  eexists. split; [reflexivity|].
  destruct (load_config_accepted strict
              (Example.yaml_of (Example.config_doc (15 # 100) (15 # 100)))
              Example.config_fs "config.yaml" _ eq_refl) as (H1 & _ & _ & _ & _ & H6 & _).
  split; [exact H1 | exact H6].
Defined.



End ValidationMoreProps.

(** ** The loaders: effects on the local file system *)

Module LoaderMoreProps.

Import LoaderMore StrFacts PathFacts.

(** [os.mkdir] changes no entry, adds no file and raises errors of the
    operating system only. *)
Lemma mkdir_effect (p : ppath) (f f' : fs) (r : result unit) :
  OS.mkdir p f = (r, f') ->
  (forall q e, f !! q = Some e -> f' !! q = Some e)
  /\ (forall q c, f' !! q = Some (File c) -> f !! q = Some (File c))
  /\ (forall e, r = Raise e -> is_os_error (exn_class_of e) = true).
Proof.
  unfold OS.mkdir. destruct (stat f p) as [en|] eqn:Hst.
  - intros H. injection H as <- <-. repeat split; auto.
    intros e H. injection H as <-. reflexivity.
  - assert (Hp : f !! p = None).
    { unfold stat in Hst. destruct (parts p); [discriminate | exact Hst]. }
    destruct (stat f (parent p)) as [[c|]|]; intros H; injection H as <- <-.
    + repeat split; auto. intros e H. injection H as <-. reflexivity.
    + repeat split.
      * intros q e Hq. rewrite lookup_insert_ne; [exact Hq | congruence].
      * intros q c Hq. destruct (decide (p = q)) as [<-|Hne].
        -- rewrite lookup_insert_eq in Hq. discriminate Hq.
        -- rewrite lookup_insert_ne in Hq by exact Hne. exact Hq.
      * discriminate.
    + repeat split; auto. intros e H. injection H as <-. reflexivity.
Qed.

(** So does [Path.mkdir], with or without [parents]. *)
Lemma path_mkdir_effect : forall n (p : ppath) (parents exist_ok : bool)
    (f f' : fs) (r : result unit),
  OS.path_mkdir n p parents exist_ok f = (r, f') ->
  (forall q e, f !! q = Some e -> f' !! q = Some e)
  /\ (forall q c, f' !! q = Some (File c) -> f !! q = Some (File c))
  /\ (forall e, r = Raise e -> is_os_error (exn_class_of e) = true).
Proof.
  induction n as [|n IH]; intros p parents exist_ok f f' r; cbn [OS.path_mkdir];
    destruct (OS.mkdir p f) as [[u|e0] f0] eqn:Hmk;
    destruct (mkdir_effect _ _ _ _ Hmk) as (K1 & K2 & K3).
  - intros H. injection H as <- <-. repeat split; auto. discriminate.
  - specialize (K3 e0 eq_refl).
    destruct (exn_class_of e0) eqn:Hc;
      try (destruct (negb exist_ok || negb (is_dir f0 p)));
      intros H; injection H as <- <-; repeat split; auto;
      try discriminate; intros e H; injection H as <-; rewrite Hc; reflexivity.
  - intros H. injection H as <- <-. repeat split; auto. discriminate.
  - specialize (K3 e0 eq_refl).
    destruct (exn_class_of e0) eqn:Hc;
      try (destruct (negb exist_ok || negb (is_dir f0 p));
           intros H; injection H as <- <-; repeat split; auto;
           try discriminate; intros e H; injection H as <-; rewrite Hc; reflexivity).
    destruct (negb parents).
    { intros H. injection H as <- <-. repeat split; auto.
      intros e H. injection H as <-. rewrite Hc. reflexivity. }
    destruct (OS.path_mkdir n (parent p) true true f0) as [[u1|e1] f1] eqn:H1;
      destruct (IH _ _ _ _ _ _ H1) as (A1 & A2 & A3).
    + intros H2. destruct (IH _ _ _ _ _ _ H2) as (B1 & B2 & B3).
      repeat split; auto.
    + intros H. injection H as <- <-. repeat split; auto.
Qed.

Lemma Path_mkdir_effect (p : ppath) (parents exist_ok : bool) (f f' : fs)
    (r : result unit) :
  OS.Path_mkdir p parents exist_ok f = (r, f') ->
  (forall q e, f !! q = Some e -> f' !! q = Some e)
  /\ (forall q c, f' !! q = Some (File c) -> f !! q = Some (File c))
  /\ (forall e, r = Raise e -> is_os_error (exn_class_of e) = true).
Proof. apply path_mkdir_effect. Qed.

(** Writing a file changes the entry at its path only. *)
Lemma write_file_effect (p : ppath) (content : string) (f f' : fs) (r : result unit) :
  OS.write_file p content f = (r, f') ->
  (forall q e, q <> p -> f !! q = Some e -> f' !! q = Some e)
  /\ (forall q c, f' !! q = Some (File c) ->
        f !! q = Some (File c) \/ (q = p /\ c = content))
  /\ (r = Ok tt -> f' !! p = Some (File content))
  /\ (forall e, r = Raise e -> is_os_error (exn_class_of e) = true).
Proof.
  unfold OS.write_file.
  assert (Hins : forall g : fs,
    (Ok tt, <[p := File content]> g) = (r, f') -> g = f ->
    (forall q e, q <> p -> f !! q = Some e -> f' !! q = Some e)
    /\ (forall q c, f' !! q = Some (File c) ->
          f !! q = Some (File c) \/ (q = p /\ c = content))
    /\ (r = Ok tt -> f' !! p = Some (File content))
    /\ (forall e, r = Raise e -> is_os_error (exn_class_of e) = true)).
  { intros g H ->. injection H as <- <-. repeat split.
    - intros q e Hne Hq. rewrite lookup_insert_ne; [exact Hq | congruence].
    - intros q c Hq. destruct (decide (p = q)) as [<-|Hne].
      + rewrite lookup_insert_eq in Hq. injection Hq as <-. auto.
      + rewrite lookup_insert_ne in Hq by exact Hne. auto.
    - intros _. apply lookup_insert_eq.
    - discriminate. }
  assert (Hkeep : forall e0,
    is_os_error (exn_class_of e0) = true ->
    (Raise e0, f) = (r, f') ->
    (forall q e, q <> p -> f !! q = Some e -> f' !! q = Some e)
    /\ (forall q c, f' !! q = Some (File c) ->
          f !! q = Some (File c) \/ (q = p /\ c = content))
    /\ (r = Ok tt -> f' !! p = Some (File content))
    /\ (forall e, r = Raise e -> is_os_error (exn_class_of e) = true)).
  { intros e0 He0 H. injection H as <- <-. repeat split; auto.
    - discriminate.
    - intros e H. injection H as <-. exact He0. }
  destruct (stat f p) as [[c|]|];
    try (apply Hkeep; reflexivity);
    destruct (stat f (parent p)) as [[c'|]|];
    try (apply Hkeep; reflexivity);
    intros H; apply (Hins f H eq_refl).
Qed.






Lemma list_blobs_without_markers (b : bucket) (prefix : string) :
  list_blobs (without_markers b) prefix = without_markers (list_blobs b prefix).
Proof.
  unfold list_blobs, without_markers.
  induction b as [|o b IH]; [reflexivity|]. cbn [List.filter].
  destruct (negb (is_marker o)) eqn:Hm, (Str.startswith (name o) prefix) eqn:Hp;
    cbn [List.filter]; rewrite ?Hm, ?Hp, IH; reflexivity.
Qed.

Lemma generic_loop_without_markers (prefix local_dir : string) :
  forall (bs : list blob) (acc : list string) (f : fs),
    GcsLoader.download_loop prefix local_dir (without_markers bs) acc f
    = GcsLoader.download_loop prefix local_dir bs acc f.
Proof.
  induction bs as [|o bs IH]; intros acc f; [reflexivity|].
  unfold without_markers. cbn [List.filter GcsLoader.download_loop].
  fold (without_markers bs). unfold is_marker at 1.
  destruct (Str.endswith (name o) "/") eqn:Hm; cbn [negb].
  - unfold bind, GcsLoader.download_one. rewrite Hm. unfold ret. apply IH.
  - cbn [GcsLoader.download_loop]. unfold bind.
    destruct (GcsLoader.download_one prefix local_dir o acc f) as [[a|e] f1];
      [apply IH | reflexivity].
Qed.

Lemma boosted_loop_without_markers (model_path local_dir : string) :
  forall (bs : list blob) (f : fs),
    Utils.download_loop model_path local_dir (without_markers bs) f
    = Utils.download_loop model_path local_dir bs f.
Proof.
  induction bs as [|o bs IH]; intros f; [reflexivity|].
  unfold without_markers. cbn [List.filter Utils.download_loop].
  fold (without_markers bs). unfold is_marker at 1.
  destruct (Str.endswith (name o) "/") eqn:Hm; cbn [negb].
  - unfold bind, Utils.download_one. rewrite Hm. cbn [negb]. unfold ret. apply IH.
  - cbn [Utils.download_loop]. unfold bind.
    destruct (Utils.download_one model_path local_dir o f) as [[a|e] f1];
      [apply IH | reflexivity].
Qed.

(** X8: directory markers have no effect on a download: either loader
    gives the same result and the same local files on a store as on the
    store with every object whose name ends with a slash removed. *)
Theorem markers_have_no_effect (st : storage) :
  (forall fresh gcs_path local_dir f,
     GcsLoader.download_model_from_gcs (fun n => without_markers (st n))
       fresh gcs_path local_dir f
     = GcsLoader.download_model_from_gcs st fresh gcs_path local_dir f)
  /\ (forall bucket_name model_path local_dir f,
        Utils.download_model_from_gcs (fun n => without_markers (st n))
          bucket_name model_path local_dir f
        = Utils.download_model_from_gcs st bucket_name model_path local_dir f).
Proof.
  split.
  - intros fresh gcs_path local_dir f. unfold GcsLoader.download_model_from_gcs.
    destruct (negb (Str.startswith gcs_path "gs://")); [reflexivity|].
    destruct (GcsLoader.bucket_and_prefix gcs_path) as [bucket_name prefix].
    unfold bind.
    match goal with
    | |- match ?m f with _ => _ end = _ => destruct (m f) as [[d|e] f0]
    end; [|reflexivity].
    rewrite list_blobs_without_markers, generic_loop_without_markers. reflexivity.
  - intros bucket_name model_path local_dir f. unfold Utils.download_model_from_gcs, bind.
    destruct (OS.Path_mkdir (parse local_dir) false true f) as [[u|e] f0];
      [|reflexivity].
    rewrite list_blobs_without_markers, boosted_loop_without_markers. reflexivity.
Qed.

(** *** The two loaders compared *)

Lemma split_nonempty : forall s, exists w ws, Str.split Str.slash s = w :: ws.
Proof.
  induction s as [|c s IH]; [eexists; eexists; reflexivity|].
  cbn [Str.split]. destruct (Ascii.eqb c Str.slash); [eauto|].
  destruct IH as (w & ws & ->). eauto.
Qed.

Lemma split_app_at_slash : forall q rest,
  Str.split Str.slash (q ++ String "/" rest)
  = (Str.split Str.slash q ++ Str.split Str.slash rest)%list.
Proof.
  induction q as [|c q IH]; intros rest.
  - rewrite append_nil. apply split_slash_cons.
  - rewrite append_cons. cbn [Str.split]. rewrite IH.
    destruct (Ascii.eqb c Str.slash); [reflexivity|].
    destruct (split_nonempty q) as (w & ws & ->). reflexivity.
Qed.

Lemma endswith_slash_inv : forall s,
  Str.endswith s "/" = true -> exists q, s = (q ++ "/")%string.
Proof.
  induction s as [|c s IH]; intros H; [discriminate H|].
  cbn [Str.endswith] in H.
  destruct (String.eqb_spec (String c s) "/") as [Heq|Hne].
  - exists "". exact Heq.
  - destruct (IH H) as [q ->]. exists (String c q). reflexivity.
Qed.

Lemma append_assoc_slash : forall q rest,
  ((q ++ "/") ++ rest)%string = (q ++ String "/" rest)%string.
Proof.
  induction q as [|c q IH]; intros rest; [reflexivity|].
  rewrite !append_cons, IH. reflexivity.
Qed.

(** Components of a name that extends a prefix ending with a slash. *)
Lemma parts_under_prefix (prefix rest : string) :
  prefix = "" \/ Str.endswith prefix "/" = true ->
  parts (parse (prefix ++ rest))
  = (parts (parse prefix) ++ parts (parse rest))%list.
Proof.
  intros [-> | Hend]; [reflexivity|].
  destruct (endswith_slash_inv _ Hend) as [q ->].
  unfold parse. cbn [parts].
  rewrite append_assoc_slash, split_app_at_slash.
  change (q ++ "/")%string with (q ++ String "/" "")%string.
  rewrite split_app_at_slash, !List.filter_app.
  cbn [Str.split List.filter]. change (keep_component "") with false.
  cbv iota. rewrite app_nil_r. reflexivity.
Qed.

Lemma root_of_relative (s : string) :
  Str.startswith s "/" = false -> root_of s = "".
Proof.
  unfold root_of. destruct s as [|c s]; [reflexivity|].
  cbn [Str.startswith]. destruct (Ascii.eqb c "/"); [discriminate | reflexivity].
Qed.

(** The root of a name that extends a prefix by something that does not
    start with a slash. *)
Lemma root_under_prefix (prefix rest : string) :
  Str.startswith rest "/" = false ->
  root_of (prefix ++ rest) = root_of prefix.
Proof.
  intros Hrest.
  destruct prefix as [|c1 [|c2 [|c3 p]]]; rewrite ?append_cons, ?append_nil.
  - rewrite (root_of_relative _ Hrest). reflexivity.
  - unfold root_of. destruct rest as [|r rest]; [reflexivity|].
    cbn [Str.startswith] in *. destruct (Ascii.eqb r "/"); [discriminate|].
    destruct (Ascii.eqb c1 "/"); reflexivity.
  - unfold root_of. destruct rest as [|r rest]; [reflexivity|].
    cbn [Str.startswith] in *. destruct (Ascii.eqb r "/"); [discriminate|].
    destruct (Ascii.eqb c1 "/"), (Ascii.eqb c2 "/"); reflexivity.
  - unfold root_of. cbn [Str.startswith]. reflexivity.
Qed.

Lemma strip_parts_app : forall a x, strip_parts a (a ++ x) = Some x.
Proof.
  induction a as [|w a IH]; intros x; [reflexivity|].
  cbn [List.app strip_parts]. rewrite String.eqb_refl. apply IH.
Qed.

(** Under a prefix that is empty or ends with a slash, the path of a
    listed name relative to the prefix is the path of what follows the
    prefix. *)
Lemma relative_to_under_prefix (prefix rest : string) :
  prefix = "" \/ Str.endswith prefix "/" = true ->
  Str.startswith rest "/" = false ->
  relative_to (parse (prefix ++ rest)) (parse prefix)
  = Ok (PPath "" (parts (parse rest))).
Proof.
  intros Hp Hrest. unfold relative_to.
  rewrite (parts_under_prefix _ _ Hp), strip_parts_app.
  unfold parse at 1 2. cbn [root].
  rewrite (root_under_prefix _ _ Hrest), String.eqb_refl. reflexivity.
Qed.

Lemma join_relative (d : ppath) (rest : string) :
  Str.startswith rest "/" = false ->
  join_str d rest = joinpath d (PPath "" (parts (parse rest))).
Proof.
  intros Hrest. unfold join_str, joinpath, is_absolute, parse. cbn [root parts].
  rewrite (root_of_relative _ Hrest). reflexivity.
Qed.

(** With a parent that is a directory, [parents] makes no difference to
    [mkdir]. *)
Lemma Path_mkdir_parent_exists (p : ppath) (exist_ok : bool) (f : fs) :
  stat f (parent p) = Some Dir ->
  OS.Path_mkdir p true exist_ok f = OS.Path_mkdir p false exist_ok f.
Proof.
  intros Hpar. unfold OS.Path_mkdir.
  destruct (List.length (parts p)) as [|n]; [reflexivity|].
  cbn [OS.path_mkdir]. unfold OS.mkdir. rewrite Hpar.
  destruct (stat f p); reflexivity.
Qed.

Lemma boosted_generic_one (prefix local_dir : string) (o : blob)
    (acc : list string) (f : fs) :
  prefix = "" \/ Str.endswith prefix "/" = true ->
  Str.startswith (name o) prefix = true ->
  (is_marker o = false ->
   Str.startswith (Str.drop (String.length prefix) (name o)) "/" = false) ->
  Utils.download_one prefix local_dir o f
  = (forget (fst (GcsLoader.download_one prefix local_dir o acc f)),
     snd (GcsLoader.download_one prefix local_dir o acc f)).
Proof.
  intros Hp Hstart Hrest. unfold Utils.download_one, GcsLoader.download_one.
  unfold is_marker in Hrest.
  destruct (Str.endswith (name o) "/"); cbn [negb]; [reflexivity|].
  specialize (Hrest eq_refl).
  set (rest := Str.drop (String.length prefix) (name o)) in *.
  assert (Hname : name o = (prefix ++ rest)%string) by (apply startswith_split, Hstart).
  unfold bind, lift. rewrite Hname at 1.
  rewrite (relative_to_under_prefix _ _ Hp Hrest), <- (join_relative _ _ Hrest).
  destruct (OS.Path_mkdir (parent (join_str (parse local_dir) rest)) true true f)
    as [[u|e] f0]; [|reflexivity].
  destruct (download_to_filename o (to_string (join_str (parse local_dir) rest)) f0)
    as [[u1|e1] f1]; [destruct u1|]; reflexivity.
Qed.

Lemma boosted_generic_loop (prefix local_dir : string) :
  prefix = "" \/ Str.endswith prefix "/" = true ->
  forall (bs : list blob) (acc : list string) (f : fs),
    (forall o, In o bs -> Str.startswith (name o) prefix = true) ->
    (forall o, In o bs -> is_marker o = false ->
       Str.startswith (Str.drop (String.length prefix) (name o)) "/" = false) ->
    Utils.download_loop prefix local_dir bs f
    = (forget (fst (GcsLoader.download_loop prefix local_dir bs acc f)),
       snd (GcsLoader.download_loop prefix local_dir bs acc f)).
Proof.
  intros Hp. induction bs as [|o bs IH]; intros acc f Hstart Hrest; [reflexivity|].
  cbn [Utils.download_loop GcsLoader.download_loop]. unfold bind.
  rewrite (boosted_generic_one prefix local_dir o acc f Hp
             (Hstart o (or_introl eq_refl)) (Hrest o (or_introl eq_refl))).
  destruct (GcsLoader.download_one prefix local_dir o acc f) as [[acc1|e] f1];
    cbn [fst snd forget]; [|reflexivity].
  apply IH; intros o' Hin; [apply Hstart | apply Hrest]; right; exact Hin.
Qed.

(** X9: the two loaders agree.  When the URI of the generic loader names
    the bucket and the prefix of the boosted-tree loader, the local
    directory has a parent that is a directory, and no listed object has a
    second slash right after the prefix, the boosted-tree loader returns
    the same result and leaves the same local file system as the generic
    loader. *)
Theorem loaders_agree (st : storage) (fresh gcs_path bucket_name prefix local_dir : string)
    (f : fs) :
  Str.startswith gcs_path "gs://" = true ->
  GcsLoader.bucket_and_prefix gcs_path = (bucket_name, prefix) ->
  stat f (parent (parse local_dir)) = Some Dir ->
  (forall o, In o (list_blobs (st bucket_name) prefix) -> is_marker o = false ->
     Str.startswith (Str.drop (String.length prefix) (name o)) "/" = false) ->
  Utils.download_model_from_gcs st bucket_name prefix local_dir f
  = GcsLoader.download_model_from_gcs st fresh gcs_path (Some local_dir) f.
Proof.
  intros Hscheme Hparse Hpar Hrest.
  assert (Hp : prefix = "" \/ Str.endswith prefix "/" = true).
  { destruct (String.eqb_spec prefix "") as [|Hne]; [left; assumption|]. right.
    pose proof (GcsLoaderProps.prefix_normalised gcs_path) as Hn.
    rewrite Hparse in Hn. cbn [snd] in Hn. apply Hn, Hne. }
  unfold Utils.download_model_from_gcs, GcsLoader.download_model_from_gcs.
  rewrite Hscheme, Hparse. cbn [negb]. unfold bind.
  rewrite <- (Path_mkdir_parent_exists _ _ _ Hpar).
  destruct (OS.Path_mkdir (parse local_dir) true true f) as [[u|e] f0];
    [|reflexivity].
  unfold ret. cbv beta iota.
  rewrite (boosted_generic_loop prefix local_dir Hp
             (list_blobs (st bucket_name) prefix) [] f0).
  - destruct (GcsLoader.download_loop prefix local_dir
                (list_blobs (st bucket_name) prefix) [] f0) as [[acc|e] f1];
      reflexivity.
  - intros o Hin. unfold list_blobs in Hin. apply filter_In in Hin as [_ H]. exact H.
  - exact Hrest.
Qed.

Lemma loaders_agree_witness :
  Utils.download_model_from_gcs Example.v1_store "b" "models/v1/" "model" ∅
  = GcsLoader.download_model_from_gcs Example.v1_store "/tmp/model_0"
      "gs://b/models/v1" (Some "model") ∅.
Proof.
  apply loaders_agree; try reflexivity.
  intros o Hin Hm. cbn in Hin.
  destruct Hin as [<- | [<- | [<- | []]]]; reflexivity.
Defined.

(** *** Exceptions of the boosted-tree loader *)

Lemma relative_to_raises_ValueError (p other : ppath) (e : exn) :
  relative_to p other = Raise e -> exn_class_of e = ValueError.
Proof.
  unfold relative_to. destruct (String.eqb (root p) (root other)).
  - destruct (strip_parts (parts other) (parts p)); [discriminate|].
    intros H. injection H as <-. reflexivity.
  - intros H. injection H as <-. reflexivity.
Qed.

(** With the content transferred, [download_to_filename] writes it as the
    store that always answers does. *)
Lemma download_to_filename_fetched (fetch : blob -> result string)
    (after_failed_fetch : ppath -> fs -> fs) (o : blob) (filename : string)
    (f : fs) :
  fetch o = Ok (data o) ->
  StoreFailures.download_to_filename fetch after_failed_fetch o filename f
  = download_to_filename o filename f.
Proof.
  intros Hf. unfold StoreFailures.download_to_filename, download_to_filename,
    OS.write_file.
  destruct (stat f (parse filename)) as [[c|]|];
    destruct (stat f (parent (parse filename))) as [[c'|]|];
    try reflexivity; rewrite Hf, insert_insert_eq; reflexivity.
Qed.

Section WithClient.

Variable connect : string -> result unit.
Variable listing : string -> string -> list blob * option exn.
Variable fetch : blob -> result string.
Variable after_failed_fetch : ppath -> fs -> fs.

Lemma failing_download_one_errors (model_path local_dir : string) (o : blob)
    (f f' : fs) (e : exn) :
  StoreFailures.download_one fetch after_failed_fetch model_path local_dir o f
  = (Raise e, f') ->
  is_os_error (exn_class_of e) = true
  \/ fetch o = Raise e
  \/ (is_marker o = false
      /\ relative_to (parse (name o)) (parse model_path) = Raise e).
Proof.
  unfold StoreFailures.download_one, is_marker.
  destruct (Str.endswith (name o) "/"); cbn [negb]; [discriminate|].
  unfold bind, lift.
  destruct (relative_to (parse (name o)) (parse model_path)) as [rel|e0].
  - destruct (OS.Path_mkdir _ true true f) as [[u|e1] f0] eqn:Hmk;
      destruct (Path_mkdir_effect _ _ _ _ _ _ Hmk) as (_ & _ & K3).
    + unfold StoreFailures.download_to_filename.
      destruct (OS.write_file _ "" f0) as [[u1|e2] f1] eqn:Hw;
        destruct (write_file_effect _ _ _ _ _ Hw) as (_ & _ & _ & W4).
      * destruct (fetch o) as [content|e3]; intros H; [discriminate H|].
        injection H as <- <-. auto.
      * intros H. injection H as <- <-. left. auto.
    + intros H. injection H as <- <-. left. auto.
  - intros H. injection H as <- <-. right. right. auto.
Qed.

Lemma failing_download_loop_errors (model_path local_dir : string)
    (stop : option exn) :
  forall (bs : list blob) (f f' : fs) (e : exn),
  StoreFailures.download_loop fetch after_failed_fetch model_path local_dir bs stop f
  = (Raise e, f') ->
  is_os_error (exn_class_of e) = true
  \/ (stop = Some e \/ exists o, In o bs /\ fetch o = Raise e)
  \/ exists o, In o bs /\ is_marker o = false
               /\ relative_to (parse (name o)) (parse model_path) = Raise e.
Proof.
  induction bs as [|o bs IH]; intros f f' e.
  - cbn [StoreFailures.download_loop]. destruct stop as [e0|]; [|discriminate].
    unfold throw. intros H. injection H as <- <-. auto.
  - cbn [StoreFailures.download_loop]. unfold bind.
    destruct (StoreFailures.download_one fetch after_failed_fetch model_path
                local_dir o f) as [[u|e1] f1] eqn:H1.
    + intros Hrest.
      destruct (IH _ _ _ Hrest) as [Hos | [[Hstop | (o' & Hin & Hf)] | (o' & Hin & Hm & Hrel)]];
        [auto | auto | |].
      * right. left. right. exists o'. split; [right|]; assumption.
      * right. right. exists o'. repeat split; auto. right. exact Hin.
    + intros H. injection H as <- <-.
      destruct (failing_download_one_errors _ _ _ _ _ _ H1) as [Hos | [Hf | [Hm Hrel]]];
        [auto | |].
      * right. left. right. exists o. split; [left; reflexivity | exact Hf].
      * right. right. exists o. repeat split; auto. left. reflexivity.
Qed.

Lemma working_download_loop (model_path local_dir : string) :
  forall (bs : list blob) (f : fs),
  (forall o, In o bs -> fetch o = Ok (data o)) ->
  StoreFailures.download_loop fetch after_failed_fetch model_path local_dir bs None f
  = Utils.download_loop model_path local_dir bs f.
Proof.
  induction bs as [|o bs IH]; intros f Hf; [reflexivity|].
  cbn [StoreFailures.download_loop Utils.download_loop]. unfold bind.
  assert (H1 : StoreFailures.download_one fetch after_failed_fetch model_path
                 local_dir o f
               = Utils.download_one model_path local_dir o f).
  { unfold StoreFailures.download_one, Utils.download_one.
    destruct (negb (Str.endswith (name o) "/")); [|reflexivity].
    unfold bind, lift.
    destruct (relative_to (parse (name o)) (parse model_path)) as [rel|e0];
      [|reflexivity].
    destruct (OS.Path_mkdir _ true true f) as [[u|e1] f0]; [|reflexivity].
    apply download_to_filename_fetched. apply Hf. left. reflexivity. }
  rewrite H1.
  destruct (Utils.download_one model_path local_dir o f) as [[u|e1] f1];
    [|reflexivity].
  apply IH. intros o' Hin. apply Hf. right. exact Hin.
Qed.

(** X10: the exceptions of the boosted-tree loader, with a storage client
    that can fail.  Whatever the loader raises is an exception that the
    storage client raised (making the client, listing, transferring an
    object), an error of the operating system, or the [ValueError] of
    [relative_to] for a listed object, not a marker, whose path is not
    under the model path.  With a model path that is empty or ends with a
    slash, and listed names that start with it and have no second slash
    right after it, that [ValueError] cannot occur.  A client that
    connects, lists the objects of a store to the end and transfers their
    data gives the run of the loader on that store. *)
Theorem boosted_download_errors (bucket_name model_path local_dir : string)
    (f : fs) :
  let run := StoreFailures.download_model_from_gcs connect listing fetch
               after_failed_fetch bucket_name model_path local_dir f in
  let listed := fst (listing bucket_name model_path) in
  let raised_by_store :=
    StoreFailures.raised_by_store connect listing fetch bucket_name model_path in
  (forall e, fst run = Raise e ->
     raised_by_store e
     \/ is_os_error (exn_class_of e) = true
     \/ (exn_class_of e = ValueError
         /\ exists o, In o listed /\ is_marker o = false
                      /\ relative_to (parse (name o)) (parse model_path) = Raise e))
  /\ (forall e, fst run = Raise e ->
        model_path = "" \/ Str.endswith model_path "/" = true ->
        (forall o, In o listed -> is_marker o = false ->
           Str.startswith (name o) model_path = true
           /\ Str.startswith (Str.drop (String.length model_path) (name o)) "/" = false) ->
        raised_by_store e \/ is_os_error (exn_class_of e) = true)
  /\ (forall st : storage,
        connect bucket_name = Ok tt ->
        listing bucket_name model_path = (list_blobs (st bucket_name) model_path, None) ->
        (forall o, In o (list_blobs (st bucket_name) model_path) ->
           fetch o = Ok (data o)) ->
        run = Utils.download_model_from_gcs st bucket_name model_path local_dir f).
Proof.
  intros run listed raised_by_store.
  assert (Hcases : forall e, fst run = Raise e ->
            raised_by_store e
            \/ is_os_error (exn_class_of e) = true
            \/ exists o, In o listed /\ is_marker o = false
                         /\ relative_to (parse (name o)) (parse model_path) = Raise e).
  { intros e. subst run listed raised_by_store.
    unfold StoreFailures.download_model_from_gcs, StoreFailures.raised_by_store,
      bind, lift.
    destruct (connect bucket_name) as [[]|e0] eqn:Hc; cbn [fst].
    2:{ intros H. injection H as <-. auto. }
    destruct (OS.Path_mkdir (parse local_dir) false true f) as [[u|e0] f0] eqn:Hmk;
      destruct (Path_mkdir_effect _ _ _ _ _ _ Hmk) as (_ & _ & K3).
    2:{ cbn [fst]. intros H. injection H as <-. auto. }
    destruct (listing bucket_name model_path) as [blobs stop] eqn:Hl. cbn [fst snd].
    destruct (StoreFailures.download_loop fetch after_failed_fetch model_path
                local_dir blobs stop f0) as [[u1|e1] f1] eqn:Hloop; cbn [fst];
      [discriminate|].
    intros H. injection H as <-.
    destruct (failing_download_loop_errors _ _ _ _ _ _ _ Hloop)
      as [Hos | [[Hstop | Hfetch] | Hrel]]; auto. }
  split; [|split].
  - intros e He. destruct (Hcases e He) as [Hs | [Hos | (o & Hin & Hm & Hrel)]];
      [auto | auto |].
    right. right. split; [apply (relative_to_raises_ValueError _ _ _ Hrel)|]. eauto.
  - intros e He Hp Hrest.
    destruct (Hcases e He) as [Hs | [Hos | (o & Hin & Hm & Hrel)]]; [auto | auto |].
    exfalso. destruct (Hrest o Hin Hm) as [Hstart Hslash].
    rewrite (startswith_split _ _ Hstart) in Hrel.
    rewrite (relative_to_under_prefix _ _ Hp Hslash) in Hrel.
    discriminate Hrel.
  - intros st Hc Hl Hf. subst run.
    unfold StoreFailures.download_model_from_gcs, Utils.download_model_from_gcs,
      bind, lift.
    rewrite Hc, Hl.
    destruct (OS.Path_mkdir (parse local_dir) false true f) as [[u|e0] f0];
      [|reflexivity].
    rewrite (working_download_loop _ _ _ _ Hf). reflexivity.
Qed.

End WithClient.

Lemma boosted_download_errors_witness :
  fst (StoreFailures.download_model_from_gcs StoreFailures.connected
         (StoreFailures.listing_of Example.v1_store) StoreFailures.flaky_fetch
         StoreFailures.left_as_is "b" "models/v1/" "model" ∅)
  = Raise StoreFailures.unavailable
  /\ StoreFailures.raised_by_store StoreFailures.connected
       (StoreFailures.listing_of Example.v1_store) StoreFailures.flaky_fetch
       "b" "models/v1/" StoreFailures.unavailable
  /\ StoreFailures.download_model_from_gcs StoreFailures.connected
       (StoreFailures.listing_of Example.two_versions_store) StoreFailures.fetch_data
       StoreFailures.left_as_is "b" "models/v1" "model" ∅
     = Utils.download_model_from_gcs Example.two_versions_store "b" "models/v1"
         "model" ∅.
Proof.
  assert (Hr : fst (StoreFailures.download_model_from_gcs StoreFailures.connected
                      (StoreFailures.listing_of Example.v1_store)
                      StoreFailures.flaky_fetch StoreFailures.left_as_is
                      "b" "models/v1/" "model" ∅)
               = Raise StoreFailures.unavailable) by (vm_compute; reflexivity).
  split; [exact Hr|]. split.
  - destruct (proj1 (proj2 (boosted_download_errors StoreFailures.connected
                 (StoreFailures.listing_of Example.v1_store)
                 StoreFailures.flaky_fetch StoreFailures.left_as_is
                 "b" "models/v1/" "model" ∅)) _ Hr) as [Hs | Hos].
    + right. reflexivity.
    + intros o Hin _. vm_compute in Hin.
      destruct Hin as [<-|[<-|[<-|[]]]]; split; reflexivity.
    + exact Hs.
    + discriminate Hos.
  - apply (proj2 (proj2 (boosted_download_errors StoreFailures.connected
             (StoreFailures.listing_of Example.two_versions_store)
             StoreFailures.fetch_data StoreFailures.left_as_is
             "b" "models/v1" "model" ∅))); reflexivity.
Defined.

End LoaderMoreProps.

(** ** Publishing a model and loading it back *)

Module PublishProps.

Import LoaderMore DataLoader StrFacts PathFacts LoaderMoreProps.

Lemma filter_insert_by_name (P : blob -> bool) (o : blob) : forall b : bucket,
  List.filter P b = [] -> P o = true ->
  List.filter P (insert_by_name o b) = [o].
Proof.
  induction b as [|o' b IH]; intros Hnone Ho; cbn [insert_by_name List.filter].
  - rewrite Ho. reflexivity.
  - cbn [List.filter] in Hnone. destruct (P o') eqn:Ho'; [discriminate Hnone|].
    destruct (String.leb (name o) (name o')); cbn [List.filter].
    + rewrite Ho, Ho', Hnone. reflexivity.
    + rewrite Ho'. apply IH; assumption.
Qed.

(** After an upload, the objects listed under a prefix that held at most
    older uploads of the same name are the uploaded object alone. *)
Lemma list_blobs_put_blob (o : blob) (b : bucket) (prefix : string) :
  Str.startswith (name o) prefix = true ->
  (forall o', In o' (list_blobs b prefix) -> name o' = name o) ->
  list_blobs (put_blob o b) prefix = [o].
Proof.
  intros Ho Hsame. unfold list_blobs, put_blob.
  apply filter_insert_by_name; [|exact Ho].
  induction b as [|o' b IH]; [reflexivity|].
  cbn [List.filter].
  assert (Hrest : forall o'', In o'' (list_blobs b prefix) -> name o'' = name o).
  { intros o'' Hin. apply Hsame. unfold list_blobs in *. cbn [List.filter].
    destruct (Str.startswith (name o') prefix); [right|]; exact Hin. }
  destruct (String.eqb_spec (name o') (name o)) as [Heq|Hne]; cbn [negb].
  - apply IH, Hrest.
  - cbn [List.filter]. destruct (Str.startswith (name o') prefix) eqn:Hp.
    + exfalso. apply Hne, Hsame. unfold list_blobs. cbn [List.filter].
      rewrite Hp. left. reflexivity.
    + apply IH, Hrest.
Qed.

Lemma model_json_not_marker : forall s,
  Str.endswith (s ++ "/model.json") "/" = false.
Proof.
  induction s as [|c s IH]; [reflexivity|].
  rewrite append_cons. cbn [Str.endswith]. rewrite IH.
  destruct (String.eqb_spec (String c (s ++ "/model.json")) "/") as [Heq|]; [|reflexivity].
  injection Heq as _ Heq. destruct s; discriminate Heq.
Qed.

Lemma startswith_app_self : forall s t, Str.startswith (s ++ t) s = true.
Proof.
  induction s as [|c s IH]; intros t; [reflexivity|].
  rewrite append_cons. cbn [Str.startswith]. rewrite Ascii.eqb_refl. apply IH.
Qed.

(** The path of [<gcs_path>/model.json] relative to a model path that is
    not empty and does not start with a slash. *)
Lemma relative_to_model_json (gcs_path : string) :
  gcs_path <> "" -> Str.startswith gcs_path "/" = false ->
  relative_to (parse (gcs_path ++ "/model.json")) (parse gcs_path)
  = Ok (PPath "" ["model.json"]).
Proof.
  intros Hne Hrel. unfold relative_to, parse. cbn [root parts].
  change (gcs_path ++ "/model.json")%string
    with (gcs_path ++ String "/" "model.json")%string.
  rewrite split_app_at_slash, List.filter_app, strip_parts_app.
  rewrite (root_of_relative _ Hrel).
  assert (Hroot : root_of (gcs_path ++ String "/" "model.json") = "").
  { apply root_of_relative. destruct gcs_path as [|c s]; [contradiction|].
    rewrite append_cons. exact Hrel. }
  rewrite Hroot. reflexivity.
Qed.

Lemma parent_model_json (p : ppath) :
  parent (joinpath p (PPath "" ["model.json"])) = p.
Proof.
  destruct p as [r ps]. unfold joinpath, parent. cbn [is_absolute root parts].
  cbn. rewrite removelast_last. reflexivity.
Qed.

(** [mkdir(parents=True, exist_ok=True)] on a directory changes nothing. *)
Lemma Path_mkdir_existing (p : ppath) (parents : bool) (f : fs) :
  is_dir f p = true -> OS.Path_mkdir p parents true f = (Ok tt, f).
Proof.
  unfold is_dir, OS.Path_mkdir. intros Hd.
  destruct (stat f p) as [[c|]|] eqn:Hst; try discriminate Hd.
  destruct (List.length (parts p)); cbn [OS.path_mkdir]; unfold OS.mkdir, is_dir;
    rewrite Hst; cbn; rewrite Hst; reflexivity.
Qed.

Lemma stat_lookup (f : fs) (q : ppath) :
  parts q <> [] -> stat f q = f !! q.
Proof. unfold stat. destruct (parts q); [contradiction | reflexivity]. Qed.

Lemma model_json_has_parts (d : ppath) : parts (join_str d "model.json") <> [].
Proof.
  rewrite UtilsProps.model_json_path. cbn [parts].
  destruct (parts d); discriminate.
Qed.

Section WithBooster.

Variable Booster : Type.
Variable xgb_save : Booster -> result string.
Variable xgb_parse : string -> result Booster.

(** X11: a model published by the direct publisher is loaded back by the
    boosted-tree loader.  After [upload_model_to_gcs(model, bucket, path)],
    for a path that is not empty and does not start with a slash and under
    which the bucket held at most an older [model.json],
    [download_model_from_gcs(bucket, path, local_dir)] returns the local
    directory with the saved text in [model.json], and [load_model] gives
    what the library reads from that text: the published model itself when
    the library reads back what it wrote. *)
Theorem publish_then_load (model : Booster) (content : string)
    (bucket_name gcs_path local_dir : string) (st : storage) (f : fs) :
  xgb_save model = Ok content ->
  gcs_path <> "" ->
  Str.startswith gcs_path "/" = false ->
  (forall o, In o (list_blobs (st bucket_name) gcs_path) ->
     name o = (gcs_path ++ "/model.json")%string) ->
  is_dir f (parent (parse local_dir)) = true ->
  is_file f (parse local_dir) = false ->
  is_dir f (join_str (parse local_dir) "model.json") = false ->
  exists st' f',
    upload_model_to_gcs Booster xgb_save model bucket_name gcs_path st = (Ok tt, st')
    /\ Utils.download_model_from_gcs st' bucket_name gcs_path local_dir f
       = (Ok local_dir, f')
    /\ f' !! join_str (parse local_dir) "model.json" = Some (File content)
    /\ Utils.load_model Booster xgb_parse f' local_dir = xgb_parse content
    /\ (xgb_parse content = Ok model ->
        Utils.load_model Booster xgb_parse f' local_dir = Ok model).
Proof.
  intros Hsave Hne Hrel Hold Hpar Hfile Hnodir.
  set (o := Blob (gcs_path ++ "/model.json") content).
  set (lp := join_str (parse local_dir) "model.json") in *.
  set (f0 := if is_dir f (parse local_dir) then f else <[parse local_dir := Dir]> f).
  assert (Hlist : list_blobs (put_in_store bucket_name o st bucket_name) gcs_path = [o]).
  { unfold put_in_store. rewrite String.eqb_refl.
    apply list_blobs_put_blob; [apply startswith_app_self | exact Hold]. }
  assert (Hd0 : is_dir f0 (parse local_dir) = true).
  { unfold f0. destruct (is_dir f (parse local_dir)) eqn:Hd; [exact Hd|].
    unfold is_dir, stat. destruct (parts (parse local_dir)); [reflexivity|].
    rewrite lookup_insert_eq. reflexivity. }
  assert (Hlp : lp = PPath (root (parse local_dir)) (parts (parse local_dir) ++ ["model.json"]))
    by reflexivity.
  assert (Hlp_ne : parse local_dir <> lp).
  { rewrite Hlp. destruct (parse local_dir) as [r ps]. cbn [root parts].
    intros Heq. injection Heq as Heq. apply (f_equal (@List.length string)) in Heq.
    rewrite length_app in Heq. simpl in Heq. lia. }
  assert (Hparts : parts lp <> []) by apply model_json_has_parts.
  assert (Hstat0 : stat f0 lp = stat f lp).
  { unfold f0. destruct (is_dir f (parse local_dir)); [reflexivity|].
    rewrite !(stat_lookup _ _ Hparts), lookup_insert_ne by exact Hlp_ne.
    reflexivity. }
  exists (put_in_store bucket_name o st), (<[lp := File content]> f0).
  split.
  { unfold upload_model_to_gcs. rewrite Hsave. reflexivity. }
  assert (Hfile' : <[lp := File content]> f0 !! lp = Some (File content))
    by apply lookup_insert_eq.
  assert (Hload : Utils.load_model Booster xgb_parse (<[lp := File content]> f0) local_dir
                  = xgb_parse content).
  { apply UtilsProps.load_model_file. fold lp.
    rewrite (stat_lookup _ _ Hparts). exact Hfile'. }
  split; [|split; [exact Hfile' | split; [exact Hload | intros Hp; rewrite Hload; exact Hp]]].
  unfold Utils.download_model_from_gcs, bind.
  rewrite (UtilsProps.mkdir_exist_ok _ _ Hpar Hfile). fold f0.
  rewrite Hlist. cbn [Utils.download_loop]. unfold bind, Utils.download_one.
  change (name o) with (gcs_path ++ "/model.json")%string.
  rewrite model_json_not_marker. cbn [negb]. unfold bind, lift.
  rewrite (relative_to_model_json _ Hne Hrel).
  rewrite parent_model_json, (Path_mkdir_existing _ _ _ Hd0).
  unfold download_to_filename.
  change (joinpath (parse local_dir) (PPath "" ["model.json"])) with lp.
  rewrite (parse_to_string lp (UtilsProps.model_json_wf local_dir)).
  unfold OS.write_file. rewrite Hstat0.
  assert (Hparent : stat f0 (parent lp) = Some Dir).
  { unfold lp, join_str. change (parse "model.json") with (PPath "" ["model.json"]).
    rewrite parent_model_json. unfold is_dir in Hd0.
    destruct (stat f0 (parse local_dir)) as [[c|]|]; try discriminate Hd0. reflexivity. }
  rewrite Hparent. unfold is_dir in Hnodir.
  destruct (stat f lp) as [[c|]|]; try discriminate Hnodir; reflexivity.
Qed.

End WithBooster.

Lemma publish_then_load_witness :
  exists st' f',
    upload_model_to_gcs Q (fun m => Ok "{}") (1 # 4) "b" "models/v2" Example.v1_store
    = (Ok tt, st')
    /\ Utils.download_model_from_gcs st' "b" "models/v2" "model" ∅ = (Ok "model", f')
    /\ Utils.load_model Q Example.const_parse f' "model" = Ok (1 # 4).
Proof.
  destruct (publish_then_load Q (fun m => Ok "{}") Example.const_parse (1 # 4) "{}"
              "b" "models/v2" "model" Example.v1_store ∅)
    as (st' & f' & Hup & Hdown & _ & _ & Hload); try reflexivity.
  - discriminate.
  - intros o Hin. cbn in Hin. destruct Hin.
  - exists st', f'. split; [exact Hup|]. split; [exact Hdown|].
    apply Hload. reflexivity.
Defined.

End PublishProps.

(** ** The generic loader composed with the packaged-model loader *)

Module LoadFromGcsProps.

Import LoaderMore StrFacts PathFacts LoaderMoreProps.

(** The components of a path string do not change with a trailing slash. *)
Lemma parts_trailing_slash (s : string) :
  parts (parse (s ++ "/")) = parts (parse s).
Proof.
  unfold parse. cbn [parts].
  change (s ++ "/")%string with (s ++ String "/" "")%string.
  rewrite split_app_at_slash, List.filter_app.
  cbn [Str.split List.filter]. change (keep_component "") with false.
  cbv iota. apply app_nil_r.
Qed.

Lemma parts_last_segment (base v : string) :
  cleanb v = true ->
  parts (parse (base ++ String "/" v)) = (parts (parse base) ++ [v])%list.
Proof.
  intros Hv. unfold parse. cbn [parts].
  rewrite split_app_at_slash, List.filter_app. f_equal.
  unfold cleanb in Hv. apply andb_prop in Hv as [Hns Hk].
  rewrite (split_single _ Hns). cbn [List.filter]. rewrite Hk. reflexivity.
Qed.

Section WithLoader.

Variable PyFuncModel : Type.
Variable pyfunc_load_model : fs -> string -> result PyFuncModel.

(** X12: the composed loader and the version label.  For a URI with the
    scheme that does not end with a slash, [load_model_from_gcs] gives the
    same run with and without a trailing slash: the same model or
    exception, the same local files, the same version label.  The label is
    the last segment of the URI, and a URI without the scheme raises
    [ValueError] before anything is downloaded or loaded. *)
Theorem load_model_from_gcs_version (st : storage) (fresh gcs_path cache_dir : string)
    (f : fs) :
  (Str.startswith gcs_path "gs://" = true ->
   Str.endswith gcs_path "/" = false ->
   load_model_from_gcs PyFuncModel pyfunc_load_model st fresh (gcs_path ++ "/")
     cache_dir f
   = load_model_from_gcs PyFuncModel pyfunc_load_model st fresh gcs_path cache_dir f)
  /\ (forall model version f',
        load_model_from_gcs PyFuncModel pyfunc_load_model st fresh gcs_path cache_dir f
        = (Ok (model, version), f') ->
        version = path_name (parse gcs_path)
        /\ forall base v, cleanb v = true ->
             gcs_path = (base ++ String "/" v)%string
             \/ gcs_path = (base ++ String "/" v ++ "/")%string ->
             version = v)
  /\ (Str.startswith gcs_path "gs://" = false ->
      f = snd (load_model_from_gcs PyFuncModel pyfunc_load_model st fresh gcs_path
                 cache_dir f)
      /\ raises (fst (load_model_from_gcs PyFuncModel pyfunc_load_model st fresh
                        gcs_path cache_dir f)) ValueError).
Proof.
  split; [|split].
  - intros Hscheme Hend. unfold load_model_from_gcs, try_except, bind, path_name.
    rewrite parts_trailing_slash.
    unfold GcsLoader.download_model_from_gcs.
    rewrite (GcsLoaderProps.startswith_app _ _ "/" Hscheme), Hscheme.
    rewrite (GcsLoaderProps.bucket_and_prefix_app_slash _ Hend). reflexivity.
  - intros model version f'. unfold load_model_from_gcs, try_except, bind, throw, ret.
    destruct (GcsLoader.download_model_from_gcs st fresh gcs_path (Some cache_dir) f)
      as [[d|e] f0]; [|discriminate].
    destruct (pyfunc_load_model f0 d) as [m|e]; [|discriminate].
    intros H. injection H as <- <- <-. split; [reflexivity|].
    intros base v Hv [-> | ->]; unfold path_name.
    + rewrite (parts_last_segment _ _ Hv). apply last_last.
    + change (base ++ String "/" v ++ "/")%string
        with (base ++ String "/" (v ++ "/"))%string.
      replace (base ++ String "/" (v ++ "/"))%string
        with ((base ++ String "/" v) ++ "/")%string.
      * rewrite parts_trailing_slash, (parts_last_segment _ _ Hv). apply last_last.
      * clear. induction base as [|c base IH]; [reflexivity|].
        rewrite !append_cons, IH. reflexivity.
  - intros Hscheme. unfold load_model_from_gcs, try_except, bind, throw.
    unfold GcsLoader.download_model_from_gcs. rewrite Hscheme. cbn [negb].
    unfold throw. cbn [fst snd]. split; [reflexivity | eexists; reflexivity].
Qed.

End WithLoader.

Lemma load_model_from_gcs_version_witness :
  fst (load_model_from_gcs Q (fun _ _ => Ok (1 # 4)) Example.v1_store "/tmp/model_0"
         "gs://b/models/v1/" "cache" ∅)
  = Ok (1 # 4, "v1")
  /\ raises (fst (load_model_from_gcs Q (fun _ _ => Ok (1 # 4)) Example.v1_store
                    "/tmp/model_0" "s3://b/models/v1" "cache" ∅)) ValueError.
Proof.
  split.
  - destruct (load_model_from_gcs Q (fun _ _ => Ok (1 # 4)) Example.v1_store
                "/tmp/model_0" "gs://b/models/v1/" "cache" ∅) as [r f'] eqn:Hrun.
    assert (Hr : exists version, r = Ok (1 # 4, version)).
    { change r with (fst (r, f')). rewrite <- Hrun. eexists. vm_compute. reflexivity. }
    destruct Hr as [version ->]. cbn [fst]. do 2 f_equal.
    apply (proj2 (proj1 (proj2 (load_model_from_gcs_version Q (fun _ _ => Ok (1 # 4))
                                  Example.v1_store "/tmp/model_0" "gs://b/models/v1/"
                                  "cache" ∅)) _ _ _ Hrun) "gs://b/models" "v1");
      [reflexivity | right; reflexivity].
  - apply (proj2 (proj2 (load_model_from_gcs_version Q (fun _ _ => Ok (1 # 4))
                           Example.v1_store "/tmp/model_0" "s3://b/models/v1"
                           "cache" ∅))).
    reflexivity.
Defined.

End LoadFromGcsProps.

(** ** pipeline/deploy_pytorch_gpu.py *)

Module DeployProps.

Import Deploy.

Section WithServices.

Variable compile_pipeline : string -> result string.
Variable cloud : Type.
Variable submit : submission -> cloud -> result string * cloud.

Lemma pipeline_file_stat (f : fs) :
  stat f (parse pipeline_file) = f !! parse pipeline_file.
Proof. reflexivity. Qed.

Lemma pipeline_file_parent (f : fs) :
  stat f (parent (parse pipeline_file)) = Some Dir.
Proof. reflexivity. Qed.

Lemma compile_writes (f : fs) (text : string) :
  is_dir f (parse pipeline_file) = false ->
  OS.write_file (parse pipeline_file) text f
  = (Ok tt, <[parse pipeline_file := File text]> f).
Proof.
  intros Hd. unfold OS.write_file. rewrite pipeline_file_parent.
  unfold is_dir in Hd.
  destruct (stat f (parse pipeline_file)) as [[c|]|]; try reflexivity.
  discriminate.
Qed.

(** X13: what [deploy] leaves behind.  When the compiled pipeline cannot
    be produced nothing is written or submitted.  Otherwise the compiled
    text is written to [pytorch_churn_pipeline.json]; in local mode the
    file is left in place and nothing is submitted; a submission that
    raises leaves the file in place as well; only after a submission that
    returns is the file removed, all other files being as before.  The
    job handed over has caching disabled, reads the compiled file, and
    its root is [gs://<bucket>/pytorch-churn], with the bucket
    [<project_id>-pipeline] when none is given. *)
Theorem deploy_leaves (now project_id region : string)
    (bucket image_uri : option string) (epochs batch_size : Z)
    (learning_rate : Q) (run_local : bool) (f : fs) (c : cloud) :
  is_dir f (parse pipeline_file) = false ->
  let image := match image_uri with
               | None => DEFAULT_PYTORCH_GPU_IMAGE
               | Some i => i
               end in
  let job := job_of now project_id region bucket epochs batch_size learning_rate in
  let run := deploy compile_pipeline cloud submit now project_id region bucket
               image_uri epochs batch_size learning_rate run_local (f, c) in
  (forall e, compile_pipeline image = Raise e -> run = (Raise e, (f, c)))
  /\ (forall text, compile_pipeline image = Ok text ->
        let written := <[parse pipeline_file := File text]> f in
        (run_local = true -> run = (Ok tt, (written, c)))
        /\ (run_local = false ->
              (forall e c', submit job c = (Raise e, c') ->
                 run = (Raise e, (written, c')))
              /\ (forall name c', submit job c = (Ok name, c') ->
                    fst run = Ok tt
                    /\ snd (snd run) = c'
                    /\ exists_ (fst (snd run)) (parse pipeline_file) = false
                    /\ forall q, q <> parse pipeline_file ->
                         fst (snd run) !! q = f !! q)))
  /\ enable_caching job = false
  /\ template_path job = pipeline_file
  /\ pipeline_root job
     = ("gs://" ++ match bucket with
                   | None => (project_id ++ "-pipeline")%string
                   | Some b => b
                   end ++ "/pytorch-churn")%string.
Proof.
  intros Hd image job run.
  split; [|split; [|repeat split]].
  - intros e He. subst run. unfold deploy, bind, lift. fold image.
    rewrite He. reflexivity.
  - intros text Ht written. split.
    + intros ->. subst run. unfold deploy, bind, lift, on_files, ret.
      fold image. rewrite Ht. cbn [fst snd].
      rewrite (compile_writes f text Hd). reflexivity.
    + intros ->. split.
      * intros e c' Hs. subst run. unfold deploy, bind, lift, on_files, on_cloud.
        fold image. rewrite Ht. cbn [fst snd].
        rewrite (compile_writes f text Hd). cbn [fst snd].
        fold job. rewrite Hs. reflexivity.
      * intros name c' Hs.
        assert (Hrun : run = (Ok tt, (delete (parse pipeline_file) written, c'))).
        { subst run. unfold deploy, bind, lift, on_files, on_cloud.
          fold image. rewrite Ht. cbn [fst snd].
          rewrite (compile_writes f text Hd). cbn [fst snd].
          fold job. rewrite Hs. cbn [fst snd].
          unfold os_path_exists, exists_, os_remove.
          rewrite !pipeline_file_stat. subst written.
          rewrite !lookup_insert_eq. cbn [fst snd].
          rewrite pipeline_file_stat, lookup_insert_eq. reflexivity. }
        rewrite Hrun. cbn [fst snd]. repeat split.
        -- unfold exists_. rewrite pipeline_file_stat, lookup_delete_eq. reflexivity.
        -- intros q Hq. rewrite lookup_delete_ne by congruence.
           unfold written. rewrite lookup_insert_ne by congruence. reflexivity.
Qed.

End WithServices.

(** A service that accepts every job and names it after its display
    name, beside a compiler that returns the image's name. *)
Lemma deploy_leaves_witness :
  let run := deploy (fun image => Ok image) (list submission)
               (fun job jobs => (Ok (display_name job), (jobs ++ [job])%list))
               "20240101-000000" "demo" "us-central1" None None 100 512
               (1 # 1000) false (∅, []) in
  fst run = Ok tt
  /\ List.map pipeline_root (snd (snd run)) = ["gs://demo-pipeline/pytorch-churn"]
  /\ exists_ (fst (snd run)) (parse pipeline_file) = false.
Proof.
  pose proof (deploy_leaves (fun image => Ok image) (list submission)
                (fun job jobs => (Ok (display_name job), (jobs ++ [job])%list))
                "20240101-000000" "demo" "us-central1" None None 100 512
                (1 # 1000) false ∅ [] eq_refl) as H.
  cbv zeta in H. destruct H as (_ & H & _).
  destruct (H _ eq_refl) as (_ & H2).
  destruct (H2 eq_refl) as (_ & H3).
  destruct (H3 _ _ eq_refl) as (Hr & Hc & He & _).
  cbv zeta. split; [exact Hr|]. split; [rewrite Hc; reflexivity | exact He].
Defined.

End DeployProps.

(** ** inference/fastapi-inference/test_api.py *)

Module ManualTestsProps.

Import ManualTests.

Lemma run_tests_step {W : Type} (name : string) (test_func : ST W bool)
    (w : W) :
  exists v w',
    try_except
      (success <- test_func ;;
       ret (name, if success : bool then "✓ PASSED" else "✗ FAILED"))
      (fun e => ret (name, ("✗ ERROR: " ++ str_of_exn e)%string)) w
    = (Ok (name, v), w')
    /\ w' = snd (test_func w)
    /\ is_verdict v
    /\ (v = "✓ PASSED" <-> fst (test_func w) = Ok true).
Proof.
  unfold try_except, bind, ret.
  destruct (test_func w) as [[[|]|e] w'] eqn:Ht; cbn [fst snd].
  - exists "✓ PASSED", w'. repeat split; auto. left. reflexivity.
  - exists "✗ FAILED", w'. repeat split; try discriminate.
    right. left. reflexivity.
  - exists ("✗ ERROR: " ++ str_of_exn e)%string, w'. repeat split; try discriminate.
    right. right. eexists. reflexivity.
Qed.

(** X14: the summary loop of the manual test script never raises, whatever
    the tests do: it returns the earlier results followed by exactly one
    entry per test, under the tests' names and in their order, each a
    PASSED, FAILED or ERROR verdict, so that a test that raises does not
    keep the later ones from running; a first test is reported PASSED
    exactly when it returned [True]; and running two lists of tests one
    after the other is running their concatenation.  [main] therefore
    always reports the three tests it names. *)
Theorem run_tests_reports_every_test {W : Type}
    (tests : list (string * ST W bool)) (results : list (string * string))
    (w : W) :
  (exists entries w',
     run_tests tests results w = (Ok (results ++ entries)%list, w')
     /\ List.map fst entries = List.map fst tests
     /\ Forall (fun e => is_verdict (snd e)) entries
     /\ (forall name t rest v entries',
           tests = (name, t) :: rest -> entries = (name, v) :: entries' ->
           (v = "✓ PASSED" <-> fst (t w) = Ok true)))
  /\ (forall more,
        run_tests (tests ++ more)%list results w
        = (rs <- run_tests tests results ;; run_tests more rs) w)
  /\ (forall t1 t2 t3 : ST W bool,
        exists v1 v2 v3 w',
          main W t1 t2 t3 w
          = (Ok [ ("Health Check", v1); ("Single Prediction", v2);
                  ("Batch Prediction", v3) ], w')
          /\ is_verdict v1 /\ is_verdict v2 /\ is_verdict v3).
Proof.
  assert (Hgen : forall (ts : list (string * ST W bool)) rs s,
             exists entries s',
               run_tests ts rs s = (Ok (rs ++ entries)%list, s')
               /\ List.map fst entries = List.map fst ts
               /\ Forall (fun e => is_verdict (snd e)) entries
               /\ (forall name t rest v entries',
                     ts = (name, t) :: rest -> entries = (name, v) :: entries' ->
                     (v = "✓ PASSED" <-> fst (t s) = Ok true))).
  { induction ts as [|[name t] rest IH]; intros rs s.
    - exists [], s. cbn. rewrite app_nil_r. repeat split; auto; discriminate.
    - destruct (run_tests_step name t s) as (v & s1 & Hstep & _ & Hv & Hp).
      destruct (IH (rs ++ [(name, v)])%list s1) as (entries & s2 & Hrun & Hn & Hf & _).
      exists ((name, v) :: entries), s2.
      split; [|split; [|split]].
      + cbn [run_tests]. unfold bind at 1. rewrite Hstep, Hrun.
        rewrite <- app_assoc. reflexivity.
      + cbn. rewrite Hn. reflexivity.
      + constructor; assumption.
      + intros name' t' rest' v' entries' Hts Hes.
        inversion Hts; subst. inversion Hes; subst. exact Hp. }
  split; [apply Hgen|]. split.
  - intros more. revert results w.
    induction tests as [|[name t] rest IH]; intros results w.
    + reflexivity.
    + cbn [app run_tests]. unfold bind at 1 3 4.
      destruct (run_tests_step name t w) as (v & s1 & Hstep & _).
      rewrite Hstep. rewrite IH. reflexivity.
  - intros t1 t2 t3. unfold main.
    destruct (Hgen [ ("Health Check", t1); ("Single Prediction", t2);
                     ("Batch Prediction", t3) ] [] w)
      as (entries & w' & Hrun & Hn & Hf & _).
    destruct entries as [|[n1 v1] [|[n2 v2] [|[n3 v3] [|? ?]]]]; try discriminate.
    cbn in Hn. inversion Hn; subst.
    inversion Hf as [|? ? H1 Hf1]; subst.
    inversion Hf1 as [|? ? H2 Hf2]; subst.
    inversion Hf2 as [|? ? H3 _]; subst.
    exists v1, v2, v3, w'. split; [exact Hrun|]. auto.
Qed.

End ManualTestsProps.

(** ** scripts/upload_model_to_gcs.py: the objects uploaded *)

Module UploadMoreProps.

Import Upload UploadMore.

Section WithServices.

Variable world : Type.
Variable download_artifacts : string -> world -> result (list (string * string)) * world.
Variable storage_client : string -> world -> result unit * world.
Variable upload_from_filename : string -> string -> string -> world -> result unit * world.


Lemma recording_step (bucket_name blob_name content : string) (w : world)
    (log : upload_log) (cs : list call) :
  in_world (world * upload_log) (recording upload_from_filename bucket_name blob_name content)
    (State (w, log) cs)
  = (fst (upload_from_filename bucket_name blob_name content w),
     State (snd (upload_from_filename bucket_name blob_name content w),
            (log ++ [(bucket_name, blob_name, content)])%list) cs).
Proof.
  unfold in_world, recording. cbn [outside calls fst snd].
  destruct (upload_from_filename bucket_name blob_name content w). reflexivity.
Qed.

Lemma plain_step (bucket_name blob_name content : string) (w : world)
    (cs : list call) :
  in_world world (upload_from_filename bucket_name blob_name content) (State w cs)
  = (fst (upload_from_filename bucket_name blob_name content w),
     State (snd (upload_from_filename bucket_name blob_name content w)) cs).
Proof.
  unfold in_world. cbn [outside calls].
  destruct (upload_from_filename bucket_name blob_name content w). reflexivity.
Qed.

Lemma upload_files_log (bucket_name gcs_path : string)
    (files : list (string * string)) (cs : list call) (w : world)
    (log : upload_log) :
  let run := upload_files (world * upload_log) (recording upload_from_filename)
               bucket_name gcs_path files (State (w, log) cs) in
  let plain := upload_files world upload_from_filename
                 bucket_name gcs_path files (State w cs) in
  fst run = fst plain
  /\ fst (outside (snd run)) = outside (snd plain)
  /\ calls (snd run) = calls (snd plain)
  /\ exists k, (k <= List.length files)%nat
       /\ snd (outside (snd run))
          = (log ++ expected_uploads bucket_name gcs_path (firstn k files))%list
       /\ (fst run = Ok tt -> k = List.length files)
       /\ (forall e, fst run = Raise e -> (1 <= k)%nat).
Proof.
  revert w log. induction files as [|[rel content] rest IH]; intros w log.
  - cbn. repeat split. exists 0%nat. cbn. rewrite app_nil_r.
    repeat split; auto. discriminate.
  - cbn [upload_files]. unfold bind. rewrite recording_step, plain_step.
    destruct (upload_from_filename bucket_name (gcs_path ++ "/" ++ rel)%string
                content w) as [[[]|e] w1] eqn:Hup; cbn [outside calls fst snd].
    + destruct (IH w1 (log ++ [(bucket_name, (gcs_path ++ "/" ++ rel)%string, content)])%list)
        as (Hr & Hw & Hc & k & Hk & Hlog & Hok & Herr).
      split; [exact Hr|]. split; [exact Hw|]. split; [exact Hc|].
      exists (S k). split; [cbn; lia|]. split.
      * etransitivity; [exact Hlog|]. cbn. rewrite <- app_assoc. reflexivity.
      * split; [intros H; cbn; f_equal; auto | intros; lia].
    + repeat split. exists 1%nat. split; [cbn; lia|]. split.
      * cbn. rewrite firstn_0. reflexivity.
      * split; [discriminate | intros; lia].
Qed.

(** X15: which objects [upload_model_to_gcs] of the upload script writes.
    Recording the uploads changes neither the result nor the state of
    the services nor the calls.  When the artifact cannot be downloaded,
    or the storage client or its bucket cannot be made, the exception is
    raised and nothing is uploaded.  Otherwise the uploads asked for are,
    in the order of the artifact's files, those of a prefix of the files,
    each to the given bucket under the name [<gcs_path>/<relative path>]
    with the file's content: all of the files when the function returns,
    and at least the one whose upload failed when it raises. *)
Theorem upload_model_to_gcs_objects (model_uri bucket_name gcs_path : string)
    (w : world) (log : upload_log) (cs : list call) :
  let run := upload_model_to_gcs (world * upload_log)
               (fun uri => beside_log (download_artifacts uri))
               (fun b => beside_log (storage_client b))
               (recording upload_from_filename)
               model_uri bucket_name gcs_path (State (w, log) cs) in
  let plain := upload_model_to_gcs world download_artifacts storage_client
                 upload_from_filename model_uri bucket_name gcs_path (State w cs) in
  (fst run = fst plain
   /\ fst (outside (snd run)) = outside (snd plain)
   /\ calls (snd run) = calls (snd plain))
  /\ (forall e, fst (download_artifacts model_uri w) = Raise e ->
        fst run = Raise e /\ snd (outside (snd run)) = log)
  /\ (forall files w1 e,
        download_artifacts model_uri w = (Ok files, w1) ->
        fst (storage_client bucket_name w1) = Raise e ->
        fst run = Raise e /\ snd (outside (snd run)) = log)
  /\ (forall files w1,
        download_artifacts model_uri w = (Ok files, w1) ->
        fst (storage_client bucket_name w1) = Ok tt ->
        exists k, (k <= List.length files)%nat
          /\ snd (outside (snd run))
             = (log ++ expected_uploads bucket_name gcs_path (firstn k files))%list
          /\ (fst run = Ok tt -> k = List.length files)
          /\ (forall e, fst run = Raise e -> (1 <= k)%nat)).
Proof.
  intros run plain. subst run plain.
  unfold upload_model_to_gcs, bind, record_call, in_world, beside_log.
  cbn [outside calls fst snd].
  destruct (download_artifacts model_uri w) as [[files|e] w1] eqn:Hd;
    cbn [outside calls fst snd].
  - destruct (storage_client bucket_name w1) as [[[]|e] w2] eqn:Hc;
      cbn [outside calls fst snd].
    + destruct (upload_files_log bucket_name gcs_path files
                  (cs ++ [(model_uri, bucket_name, gcs_path)])%list w2 log)
        as (Hr & Hw & Hcs & Hk).
      split; [auto|]. split; [discriminate|]. split.
      * intros files' w1' e Hf He. inversion Hf; subst. rewrite Hc in He.
        discriminate He.
      * intros files' w1' Hf _. inversion Hf; subst. exact Hk.
    + split; [auto|]. split; [discriminate|]. split.
      * intros files' w1' e' Hf He. inversion Hf; subst. rewrite Hc in He.
        inversion He; subst. auto.
      * intros files' w1' Hf Hok. inversion Hf; subst. rewrite Hc in Hok.
        discriminate Hok.
  - split; [auto|]. split.
    + intros e' He. inversion He; subst. auto.
    + split; [intros files w1' e' Hf | intros files w1' Hf]; discriminate Hf.
Qed.

End WithServices.

End UploadMoreProps.
